(** * Space debris visualisation: projection models, record classifier,
      position propagator, trail buffer and hover resolver

    A shallow embedding of the algorithmic core of
    [src/components/DebrisSimulation.tsx] and [src/components/MLAnalysis.tsx].

    Numbers.  JavaScript numbers are IEEE doubles.  They are idealised here:
    - the two projection models and the two charts use exact rationals [Q]
      ([Math.pow] is [Qpower], [Math.round] is [floor (x + 1/2)]), so
      every definition of these modules computes; a chart coordinate that
      is not finite is [None];
    - the simulation (propagation, screen projection, hover) uses the real
      numbers, because it goes through [Math.sin], [Math.PI] and a square
      root; [NaN] is kept as a value of its own ([None] of [num]);
    - integers that the code keeps integral (years, counts, millisecond
      timestamps, catalog numbers) are [Z].
    Rounding errors of the double arithmetic are outside the model. *)

From Stdlib Require Import ZArith QArith Qround Qminmax Qpower Reals.
From Stdlib Require Import List String Ascii Bool DecimalString Sorted.
From Stdlib Require Import Lia Lqa Lra.
Import ListNotations.

(** ** JavaScript helpers shared by the components *)

Module JS.

Local Open Scope Q_scope.

(** [Math.round]: the nearest integer, halves go towards +infinity. *)
Definition Math_round (x : Q) : Z := Qfloor (x + (1 # 2)).

(** [Math.pow (b, e)] for an integral exponent. *)
Definition Math_pow (b : Q) (e : Z) : Q := b ^ e.

(** [for (let i = lo; i <= hi; i++) acc = body i acc].  The number of
    iterations is known when the loop starts, [fuel] is that number; the
    guard is still tested at every turn, as the loop does. *)
Fixpoint for_fuel {A : Type} (fuel : nat) (i hi : Z)
         (body : Z -> A -> A) (acc : A) : A :=
  match fuel with
  | O => acc
  | S fuel' =>
      if (i <=? hi)%Z then for_fuel fuel' (i + 1)%Z hi body (body i acc)
      else acc
  end.

Definition for_range {A : Type} (lo hi : Z)
           (body : Z -> A -> A) (acc : A) : A :=
  for_fuel (Z.to_nat (hi + 1 - lo)) lo hi body acc.

(** The loops of both projection models only push onto an array. *)
Definition push {A : Type} (l : list A) (a : A) : list A := l ++ [a].

(** The values taken by the loop variable: [n] integers from [i] on. *)
Fixpoint zseq (i : Z) (n : nat) : list Z :=
  match n with
  | O => []
  | S n' => i :: zseq (i + 1)%Z n'
  end.

End JS.

(** ** Primary projection model: [generatePredictionData] of
       DebrisSimulation.tsx *)

Module Projection.

Import JS.
Local Open Scope Q_scope.

Inductive RiskLevel : Set := Low | Medium | High | Critical.

Record PredictionData : Set := mkPrediction {
  year : Z;
  totalDebris : Z;
  largeDebris : Z;
  smallDebris : Z;
  collisionEvents : Z;
  riskLevel : RiskLevel
}.

(** The [stats] state of the component. *)
Record Stats : Set := mkStats {
  total : Z; active : Z; debris : Z; satellites : Z; rocketBodies : Z
}.

Definition baseYear : Z := 2000.

(** The chain of [if (year >= ...) growthRate = ...] statements: each
    later test overwrites the rate set by the earlier ones. *)
Definition growthRate (year : Z) : Q :=
  let growthRate := 1.05 in
  let growthRate := if (year >=? 2007)%Z then 1.08 else growthRate in
  let growthRate := if (year >=? 2009)%Z then 1.12 else growthRate in
  let growthRate := if (year >=? 2020)%Z then 1.15 else growthRate in
  let growthRate := if (year >=? 2025)%Z then 1.18 else growthRate in
  growthRate.

(** The chain of [if (totalDebris > ...) riskLevel = ...] statements. *)
Definition riskLevelOf (totalDebris : Z) : RiskLevel :=
  let riskLevel := Low in
  let riskLevel := if (totalDebris >? 500)%Z then Medium else riskLevel in
  let riskLevel := if (totalDebris >? 1500)%Z then High else riskLevel in
  let riskLevel := if (totalDebris >? 3000)%Z then Critical else riskLevel in
  riskLevel.

(** One turn of the loop: the record pushed for [year]. *)
Definition predictionAt (year : Z) : PredictionData :=
  let yearOffset := (year - baseYear)%Z in
  let growthRate := growthRate year in
  let totalDebris := Math_round (20 * Math_pow growthRate yearOffset) in
  let largeDebris := Math_round (inject_Z totalDebris * 0.3) in
  let smallDebris := (totalDebris - largeDebris)%Z in
  let collisionEvents :=
    Z.max 0 (Math_round ((inject_Z totalDebris / 1000)
                         * (if (year >=? 2009)%Z then 2 else 1))) in
  let riskLevel := riskLevelOf totalDebris in
  mkPrediction year totalDebris largeDebris smallDebris
               collisionEvents riskLevel.

(** [stats.debris || 50]: a zero count is replaced by 50. *)
Definition currentDebris (stats : Stats) : Z :=
  if (debris stats =? 0)%Z then 50%Z else debris stats.

(** [generatePredictionData]: [currentDebris] is computed and never
    read, the loop runs over the years 2000 to 2028. *)
Definition generatePredictionData (stats : Stats) : list PredictionData :=
  let predictions := [] in
  let currentDebris := currentDebris stats in
  for_range baseYear 2028
            (fun year predictions => push predictions (predictionAt year))
            predictions.

(** The regime table as the specification words it: one rate per
    interval of years. *)
Definition regimeRate (year : Z) : Q :=
  if (year <? 2007)%Z then 1.05
  else if (year <=? 2008)%Z then 1.08
  else if (year <=? 2019)%Z then 1.12
  else if (year <=? 2024)%Z then 1.15
  else 1.18.

(** Severity order of the risk levels. *)
Definition severity (r : RiskLevel) : Z :=
  match r with Low => 0 | Medium => 1 | High => 2 | Critical => 3 end%Z.

Definition totalAt (year : Z) : Z := totalDebris (predictionAt year).

(** Distance of [x] to the nearest point where [Math_round] jumps. *)
Definition roundingMargin (x : Q) : Q :=
  let f := x + (1 # 2) - inject_Z (Qfloor (x + (1 # 2))) in
  Qmin f (1 - f).

End Projection.

(** ** Second projection model: [generatePredictionData] of
       MLAnalysis.tsx *)

Module Forecast.

Import JS.
Local Open Scope Q_scope.

Record PredictionData : Set := mkPrediction {
  year : Z;
  totalObjects : Z;
  debris : Z;
  activeSatellites : Z;
  rocketBodies : Z;
  collisionRisk : Q
}.

(** One entry of [DataStats]; [categories] is a JavaScript object used
    as a map from category name to count, kept in insertion order. *)
Record GroupStats : Set := mkGroupStats {
  count : Z;
  avgInclination : Q;
  avgAltitude : Q;
  categories : list (string * Z)
}.

(** [DataStats]: group name to statistics, in insertion order. *)
Definition DataStats : Set := list (string * GroupStats).

Definition Object_values {V : Type} (o : list (string * V)) : list V :=
  map snd o.

Definition Object_entries {V : Type} (o : list (string * V))
  : list (string * V) := o.

(** [xs.reduce ((acc, x) => f acc x, init)]. *)
Definition reduce {A B : Type} (f : B -> A -> B) (xs : list A) (init : B)
  : B := fold_left f xs init.

Definition currentTotal (dataStats : DataStats) : Z :=
  reduce (fun sum stats => (sum + count stats)%Z)
         (Object_values dataStats) 0%Z.

Definition currentDebris (dataStats : DataStats) : Z :=
  reduce (fun sum stats =>
            (sum + reduce (fun catSum '(cat, count) =>
                             catSum + (if String.eqb cat "Debris"
                                       then count else 0))
                          (Object_entries (categories stats)) 0)%Z)
         (Object_values dataStats) 0%Z.

Definition currentSatellites (dataStats : DataStats) : Z :=
  reduce (fun sum stats =>
            (sum + reduce (fun catSum '(cat, count) =>
                             catSum + (if String.eqb cat "Satellite"
                                          || String.eqb cat "Constellation"
                                       then count else 0))
                          (Object_entries (categories stats)) 0)%Z)
         (Object_values dataStats) 0%Z.

Definition currentRockets (dataStats : DataStats) : Z :=
  reduce (fun sum stats =>
            (sum + reduce (fun catSum '(cat, count) =>
                             catSum + (if String.eqb cat "Rocket Body"
                                       then count else 0))
                          (Object_entries (categories stats)) 0)%Z)
         (Object_values dataStats) 0%Z.

Definition currentYear : Z := 2024.

(** One turn of the loop, from the three counts read before it. *)
Definition predictionAt (currentSatellites currentDebris currentRockets : Z)
           (year : Z) : PredictionData :=
  let yearOffset := (year - currentYear)%Z in
  let satelliteGrowthRate := 1.15 in
  let debrisGrowthRate := 1.08 in
  let rocketGrowthRate := 1.12 in
  let densityFactor := Math_pow 1.1 yearOffset in
  let collisionRisk :=
    Qmin 95 (15 + inject_Z yearOffset * 3 + densityFactor * 2) in
  let satellites :=
    Math_round (inject_Z currentSatellites
                * Math_pow satelliteGrowthRate yearOffset) in
  let debris :=
    Math_round (inject_Z currentDebris
                * Math_pow debrisGrowthRate yearOffset) in
  let rocketBodies :=
    Math_round (inject_Z currentRockets
                * Math_pow rocketGrowthRate yearOffset) in
  mkPrediction year (satellites + debris + rocketBodies)%Z debris
               satellites rocketBodies collisionRisk.

(** [generatePredictionData]: [currentTotal] is computed and never read;
    the loop runs over the years 2024 to 2034. *)
Definition generatePredictionData (dataStats : DataStats)
  : list PredictionData :=
  let predictions := [] in
  let currentTotal := currentTotal dataStats in
  let currentDebris := currentDebris dataStats in
  let currentSatellites := currentSatellites dataStats in
  let currentRockets := currentRockets dataStats in
  for_range currentYear (currentYear + 10)
            (fun year predictions =>
               push predictions
                    (predictionAt currentSatellites currentDebris
                                  currentRockets year))
            predictions.

End Forecast.

(** ** JavaScript strings: the methods the record parsers call *)

Module Text.

Local Open Scope string_scope.
Local Open Scope Z_scope.

(** White space of [trim] and [parseInt], within ASCII: tab, line feed,
    vertical tab, form feed, carriage return and space. *)
Definition isWhiteSpace (c : ascii) : bool :=
  let n := Z.of_nat (nat_of_ascii c) in
  ((9 <=? n) && (n <=? 13)) || (n =? 32).

Fixpoint trimStartChars (l : list ascii) : list ascii :=
  match l with
  | c :: l' => if isWhiteSpace c then trimStartChars l' else l
  | [] => []
  end.

Definition trimStart (s : string) : string :=
  string_of_list_ascii (trimStartChars (list_ascii_of_string s)).

(** [s.trim ()] *)
Definition trim (s : string) : string :=
  string_of_list_ascii
    (rev (trimStartChars (rev (trimStartChars (list_ascii_of_string s))))).

(** [s.split (sep)] for a separator of one character: never empty. *)
Fixpoint split (sep : ascii) (s : string) : list string :=
  match s with
  | EmptyString => [EmptyString]
  | String c s' =>
      if Ascii.eqb c sep then EmptyString :: split sep s'
      else match split sep s' with
           | cur :: rest => String c cur :: rest
           | [] => [String c EmptyString]
           end
  end.

Definition newline : ascii := ascii_of_nat 10.

(** [s.includes (pat)] *)
Fixpoint includes (s pat : string) : bool :=
  if String.prefix pat s then true
  else match s with
       | EmptyString => false
       | String _ s' => includes s' pat
       end.

(** [s.substring (from, to)] for [from <= to]; both ends are clamped to
    the length of [s]. *)
Definition substring (from to : nat) (s : string) : string :=
  String.substring from (to - from) s.

(** Value of a character as a digit, letters counting from 10. *)
Definition digitValue (c : ascii) : option Z :=
  let n := Z.of_nat (nat_of_ascii c) in
  if (48 <=? n) && (n <=? 57) then Some (n - 48)
  else if (97 <=? n) && (n <=? 122) then Some (n - 87)
  else if (65 <=? n) && (n <=? 90) then Some (n - 55)
  else None.

(** The longest prefix of digits of the radix; [None] when it is empty. *)
Fixpoint parseDigits (radix : Z) (s : string) (acc : option Z) : option Z :=
  match s with
  | EmptyString => acc
  | String c s' =>
      match digitValue c with
      | Some d =>
          if d <? radix
          then parseDigits radix s'
                 (Some (radix * match acc with Some a => a | None => 0 end
                        + d))
          else acc
      | None => acc
      end
  end.

(** [parseInt (s)] without a radix: leading white space, a sign, a [0x]
    prefix for base 16, then digits; [None] stands for [NaN]. *)
Definition parseInt (s : string) : option Z :=
  let s := trimStart s in
  let '(sign, s) :=
    match s with
    | String "-" s' => (-1, s')
    | String "+" s' => (1, s')
    | _ => (1, s)
    end in
  let '(radix, s) :=
    match s with
    | String "0" (String "x" s') => (16, s')
    | String "0" (String "X" s') => (16, s')
    | _ => (10, s)
    end in
  option_map (Z.mul sign) (parseDigits radix s None).

(** [n.toString ()] of an integral number or of [NaN]. *)
Definition toString (n : option Z) : string :=
  match n with
  | Some z => NilZero.string_of_int (Z.to_int z)
  | None => "NaN"
  end.

End Text.

(** ** Numbers of the simulation: a real number or [NaN] *)

Module Num.

Local Open Scope R_scope.

Definition num : Type := option R.
Definition NaN : num := None.

(** Truncation towards zero and the remainder [x % y] of JavaScript,
    whose sign is the sign of [x]. *)
Definition trunc (r : R) : Z :=
  if Rle_dec 0 r then Int_part r else (- Int_part (- r))%Z.

Definition rem (x y : R) : R := x - y * IZR (trunc (x / y)).

(** [a < b]: false when [a] is [NaN]. *)
Definition ltb (a : num) (b : R) : bool :=
  match a with
  | Some r => if Rlt_dec r b then true else false
  | None => false
  end.

(** [p.dist (x1, y1, x2, y2)] of p5: the Euclidean distance. *)
Definition dist (x1 y1 : R) (x2 y2 : num) : num :=
  match x2, y2 with
  | Some x2, Some y2 =>
      Some (sqrt ((x2 - x1) * (x2 - x1) + (y2 - y1) * (y2 - y1)))
  | _, _ => NaN
  end.

End Num.

(** ** The records of DebrisSimulation.tsx *)

Module Position.
(** [currentPos] *)
Record t : Type := mk { x : Num.num; y : Num.num;
                        lat : Num.num; lon : Num.num }.
End Position.

Module PositionSample.
(** An entry of [positions] *)
Record t : Type := mk { x : Num.num; y : Num.num;
                        lat : Num.num; lon : Num.num;
                        timestamp : Z }.
End PositionSample.

Module DebrisObject.
(** [satrec: any] is the element set made by satellite.js, [null] for
    simulated objects. *)
Record t (Satrec : Type) : Type := mk {
  name : string;
  noradId : string;
  satrec : option Satrec;
  positions : list PositionSample.t;
  currentPos : Position.t;
  category : string;
  launchDate : option string;
  country : option string
}.
Arguments mk {Satrec}.
Arguments name {Satrec}.
Arguments noradId {Satrec}.
Arguments satrec {Satrec}.
Arguments positions {Satrec}.
Arguments currentPos {Satrec}.
Arguments category {Satrec}.
Arguments launchDate {Satrec}.
Arguments country {Satrec}.
End DebrisObject.

Module TooltipData.
Record t : Type := mk {
  name : string;
  noradId : string;
  lat : Num.num;
  lon : Num.num;
  x : R;
  y : R;
  category : string;
  launchDate : option string;
  country : option string
}.
End TooltipData.

(** What the component calls of satellite.js ([window.satellite]). *)
Module SatelliteJS.
Record t (Satrec : Type) : Type := mk {
  (** [twoline2satrec (line1, line2)]; [None] when the call throws or
      returns a falsy value. *)
  twoline2satrec : string -> string -> option Satrec;
  (** [propagate], then [gstime], [eciToGeodetic], [degreesLat] and
      [degreesLong], at a date in milliseconds; [None] when one of the
      calls throws, or the position is missing or has no numeric [x]. *)
  propagateToGeodetic : Satrec -> Z -> option (Num.num * Num.num)
}.
Arguments mk {Satrec}.
Arguments twoline2satrec {Satrec}.
Arguments propagateToGeodetic {Satrec}.
End SatelliteJS.

(** ** DebrisSimulation.tsx: record parser, propagator, trail and hover *)

Module Simulation.

Import Num.
Local Open Scope string_scope.

Inductive DataSource : Set := cosmos | recent.

(** The chain of tests on the display name in [parseTLEData]: the
    category and the country it assigns. *)
Definition classify (name : string) : string * string :=
  let category := "Unknown" in
  let country := "Unknown" in
  if Text.includes name "DEB" || Text.includes name "DEBRIS"
  then ("Debris", country)
  else if Text.includes name "R/B" || Text.includes name "ROCKET"
  then ("Rocket Body", country)
  else if Text.includes name "COSMOS" || Text.includes name "SATELLITE"
  then ("Satellite", country)
  else if Text.includes name "STARLINK" then ("Satellite", "USA")
  else if Text.includes name "ONEWEB" then ("Satellite", "UK")
  else (category, country).

(** The substring patterns of the rules above. *)
Definition patterns : list string :=
  ["DEB"; "DEBRIS"; "R/B"; "ROCKET"; "COSMOS"; "SATELLITE"; "STARLINK";
   "ONEWEB"].

Definition zeroPos : Position.t :=
  Position.mk (Some 0%R) (Some 0%R) (Some 0%R) (Some 0%R).

Section WithSatellite.

Context {Satrec : Type}.

(** [window.satellite], [None] while the library is not loaded. *)
Variable satellite : option (SatelliteJS.t Satrec).

Abbreviation Obj := (DebrisObject.t Satrec).

(** The body of the loop of [parseTLEData] for one record of three
    lines: the object pushed, or [None] when the record is skipped. *)
Definition parseRecord (line0 line1 line2 : string) : option Obj :=
  let name := Text.trim line0 in
  let noradId := Text.trim (Text.substring 2 7 line1) in
  let satrec :=
    match satellite with
    | Some lib => SatelliteJS.twoline2satrec lib line1 line2
    | None => None
    end in
  match satrec with
  | Some satrec =>
      let '(category, country) := classify name in
      let epochYear := Text.parseInt (Text.substring 18 20 line1) in
      let fullYear :=
        option_map (fun e => if e <? 57 then 2000 + e else 1900 + e)%Z
                   epochYear in
      Some (DebrisObject.mk name noradId (Some satrec) [] zeroPos
                            category (Some (Text.toString fullYear))
                            (Some country))
  | None => None
  end.

(** [for (let i = 0; i < lines.length; i += 3) if (i + 2 <
    lines.length) ...]: the lines are taken three at a time, a rest of
    one or two lines is left out. *)
Fixpoint parseLoop (lines : list string) (objects : list Obj)
  : list Obj :=
  match lines with
  | line0 :: line1 :: line2 :: rest =>
      parseLoop rest
                match parseRecord line0 line1 line2 with
                | Some obj => JS.push objects obj
                | None => objects
                end
  | _ => objects
  end.

(** The array [objects] when the loop ends. *)
Definition parseObjects (tleData : string) : list Obj :=
  let lines := Text.split Text.newline (Text.trim tleData) in
  parseLoop lines [].

Definition hasCategory (c : string) (obj : Obj) : bool :=
  String.eqb (DebrisObject.category obj) c.

(** [parseTLEData] *)
Definition parseTLEData (tleData : string) (source : DataSource)
  : list Obj :=
  let objects := parseObjects tleData in
  let debris := firstn 12 (filter (hasCategory "Debris") objects) in
  let satellites :=
    firstn 10 (filter (hasCategory "Satellite") objects) in
  let rocketBodies :=
    firstn 6 (filter (hasCategory "Rocket Body") objects) in
  firstn 25 (debris ++ satellites ++ rocketBodies).

Local Open Scope R_scope.

(** The primary path of [calculatePosition]: taken when the object has
    an element set and the library is loaded; [None] when it is not
    taken or does not return. *)
Definition primaryPosition (obj : Obj) (date : Z) : option (num * num) :=
  match DebrisObject.satrec obj, satellite with
  | Some satrec, Some lib =>
      SatelliteJS.propagateToGeodetic lib satrec date
  | _, _ => None
  end.

(** The statements after the primary path ("Enhanced fallback
    simulation"); [date] is [date.getTime ()].  When [parseInt] gives
    [NaN] so do [phase], [lat] and [lon]. *)
Definition fallbackPosition (obj : Obj) (date : Z) : num * num :=
  let time := IZR date / 1000 in
  let baseSpeed := 0.001 in
  match Text.parseInt (DebrisObject.noradId obj) with
  | None => (NaN, NaN)
  | Some id =>
      let orbitRadius := 150 + IZR (Z.rem id 100) in
      let phase := IZR (Z.rem id 360) * (PI / 180) in
      let '(speedMultiplier, inclinationFactor) :=
        if String.eqb (DebrisObject.category obj) "Debris"
        then (1.3, 1.8)
        else if String.eqb (DebrisObject.category obj) "Satellite"
        then (0.7, 0.6)
        else (1, 1) in
      let lat :=
        sin (time * baseSpeed * speedMultiplier + phase) * 50
        * inclinationFactor in
      let lon :=
        rem (time * baseSpeed * speedMultiplier * 2.5 + phase) (2 * PI)
        * (180 / PI) - 180 in
      (Some lat, Some lon)
  end.

(** [calculatePosition] *)
Definition calculatePosition (obj : Obj) (date : Z) : num * num :=
  match primaryPosition obj date with
  | Some latlon => latlon
  | None => fallbackPosition obj date
  end.

(** [latLonToXY] *)
Definition latLonToXY (lat lon : num) (width height : R) : num * num :=
  let earthRadius := Rmin width height * 0.35 in
  let centerX := width / 2 in
  let centerY := height / 2 in
  let x := option_map (fun lon => centerX + (lon / 180) * earthRadius)
                      lon in
  let y := option_map (fun lat => centerY - (lat / 90) * earthRadius)
                      lat in
  (x, y).

(** The function mapped over [debrisObjects] by [draw]: the new sample
    is pushed on the trail, the trail is filtered, the current
    position is replaced. *)
Definition updateObject (width height : R) (now : Z) (obj : Obj) : Obj :=
  let pos := calculatePosition obj now in
  let '(x, y) := latLonToXY (fst pos) (snd pos) width height in
  let newPosition := PositionSample.mk x y (fst pos) (snd pos) now in
  let positions := JS.push (DebrisObject.positions obj) newPosition in
  let cutoffTime := (now - 90000)%Z in
  let positions :=
    filter (fun pos => (PositionSample.timestamp pos >? cutoffTime)%Z)
           positions in
  DebrisObject.mk (DebrisObject.name obj) (DebrisObject.noradId obj)
                  (DebrisObject.satrec obj) positions
                  (Position.mk x y (fst pos) (snd pos))
                  (DebrisObject.category obj)
                  (DebrisObject.launchDate obj)
                  (DebrisObject.country obj).

Definition isHovered (mouseX mouseY : R) (obj : Obj) : bool :=
  let distance :=
    dist mouseX mouseY (Position.x (DebrisObject.currentPos obj))
         (Position.y (DebrisObject.currentPos obj)) in
  ltb distance 20.

Definition tooltipOf (mouseX mouseY : R) (obj : Obj) : TooltipData.t :=
  TooltipData.mk (DebrisObject.name obj) (DebrisObject.noradId obj)
                 (Position.lat (DebrisObject.currentPos obj))
                 (Position.lon (DebrisObject.currentPos obj))
                 mouseX mouseY
                 (DebrisObject.category obj)
                 (DebrisObject.launchDate obj)
                 (DebrisObject.country obj).

(** The second [forEach] of [draw]: [hoveredObject] starts as [null]
    and is assigned at every object under the pointer. *)
Definition hoveredObject (mouseX mouseY : R) (updatedObjects : list Obj)
  : option TooltipData.t :=
  fold_left (fun hoveredObject obj =>
               if isHovered mouseX mouseY obj
               then Some (tooltipOf mouseX mouseY obj)
               else hoveredObject)
            updatedObjects None.

(** One frame of [draw], without the painting: the objects after the
    update and the tooltip that is set. *)
Definition draw (width height mouseX mouseY : R) (now : Z)
           (debrisObjects : list Obj)
  : list Obj * option TooltipData.t :=
  let updatedObjects := map (updateObject width height now)
                            debrisObjects in
  (updatedObjects, hoveredObject mouseX mouseY updatedObjects).

End WithSatellite.

(** Timestamps of a trail, oldest first. *)
Definition timestamps (positions : list PositionSample.t) : list Z :=
  map PositionSample.timestamp positions.

(** Timestamp of the sample appended last. *)
Definition lastTimestamp (positions : list PositionSample.t) : option Z :=
  match rev positions with
  | s :: _ => Some (PositionSample.timestamp s)
  | [] => None
  end.

Definition strictlyAscending (positions : list PositionSample.t) : Prop :=
  StronglySorted Z.lt (timestamps positions).

Definition ascending (positions : list PositionSample.t) : Prop :=
  StronglySorted Z.le (timestamps positions).

(** The first object under the pointer, as the specification words the
    hover resolver. *)
Definition firstHovered {Satrec : Type} (mouseX mouseY : R)
           (objects : list (DebrisObject.t Satrec))
  : option TooltipData.t :=
  option_map (tooltipOf mouseX mouseY)
             (find (isHovered mouseX mouseY) objects).

(** The last object under the pointer. *)
Definition lastHovered {Satrec : Type} (mouseX mouseY : R)
           (objects : list (DebrisObject.t Satrec))
  : option TooltipData.t :=
  option_map (tooltipOf mouseX mouseY)
             (find (isHovered mouseX mouseY) (rev objects)).

(** The object has a screen position at a distance below 20 pixels from
    the pointer. *)
Definition withinRadius {Satrec : Type} (mouseX mouseY : R)
           (obj : DebrisObject.t Satrec) : Prop :=
  exists x y : R,
    Position.x (DebrisObject.currentPos obj) = Some x
    /\ Position.y (DebrisObject.currentPos obj) = Some y
    /\ (sqrt ((x - mouseX) * (x - mouseX) + (y - mouseY) * (y - mouseY))
        < 20)%R.

(** The motion parameters per category as the specification lists them:
    (speed multiplier, inclination factor), (1, 1) for a category that is
    not listed. *)
Definition factorTable : list (string * (R * R)) :=
  [("Debris", (1.3, 1.8)%R); ("Satellite", (0.7, 0.6)%R)].

Definition categoryFactors (category : string) : R * R :=
  match find (fun entry => String.eqb (fst entry) category) factorTable with
  | Some entry => snd entry
  | None => (1, 1)%R
  end.

(** The closed set of categories of the data model. *)
Definition closedCategories : list string :=
  ["Debris"; "Satellite"; "Rocket Body"; "Unknown"].

End Simulation.

(** ** MLAnalysis.tsx: the classifier of [fetchTLEData] *)

Module Analysis.

Local Open Scope string_scope.

Record TLEEntry : Set := mkEntry {
  name : string;
  line1 : string;
  line2 : string;
  category : string
}.

(** The chain of tests on the display name in [fetchTLEData]. *)
Definition classify (name : string) : string :=
  let category := "Unknown" in
  if Text.includes name "DEB" || Text.includes name "DEBRIS"
  then "Debris"
  else if Text.includes name "R/B" || Text.includes name "ROCKET"
  then "Rocket Body"
  else if Text.includes name "COSMOS" || Text.includes name "SATELLITE"
  then "Satellite"
  else if Text.includes name "STARLINK" then "Constellation"
  else if Text.includes name "WEATHER" || Text.includes name "NOAA"
          || Text.includes name "GOES"
  then "Weather"
  else if Text.includes name "LANDSAT" || Text.includes name "TERRA"
          || Text.includes name "AQUA"
  then "Earth Observation"
  else category.

Definition patterns : list string :=
  ["DEB"; "DEBRIS"; "R/B"; "ROCKET"; "COSMOS"; "SATELLITE"; "STARLINK";
   "WEATHER"; "NOAA"; "GOES"; "LANDSAT"; "TERRA"; "AQUA"].

(** The categories the rules above can assign. *)
Definition categories : list string :=
  ["Debris"; "Rocket Body"; "Satellite"; "Constellation"; "Weather";
   "Earth Observation"; "Unknown"].

(** The loop of [fetchTLEData] over the lines of the response, three at
    a time; every complete record is pushed. *)
Fixpoint parseLoop (lines : list string) (entries : list TLEEntry)
  : list TLEEntry :=
  match lines with
  | line0 :: line1 :: line2 :: rest =>
      let name := Text.trim line0 in
      parseLoop rest
                (JS.push entries (mkEntry name line1 line2 (classify name)))
  | _ => entries
  end.

(** The entries [fetchTLEData] returns for a response text. *)
Definition parseEntries (text : string) : list TLEEntry :=
  let lines := Text.split Text.newline (Text.trim text) in
  parseLoop lines [].

End Analysis.

(** ** Concrete inputs used by the examples *)

Module Samples.

Import Num.
Local Open Scope string_scope.

(** A stand-in for satellite.js that accepts every pair of lines and
    whose propagation never returns a position. *)
Definition stubLibrary : SatelliteJS.t unit :=
  SatelliteJS.mk (fun _ _ => Some tt) (fun _ _ => None).

(** An object as [generateSimulatedDebris] makes them: no element set,
    empty trail, position at the origin. *)
Definition simulated (name noradId category launchDate country : string)
  : DebrisObject.t unit :=
  DebrisObject.mk name noradId None [] Simulation.zeroPos category
                  (Some launchDate) (Some country).

Definition cosmosDeb1 : DebrisObject.t unit :=
  simulated "COSMOS 2251 DEB 1" "40001" "Debris" "2009" "Russia".


(** An object placed at a screen position. *)
Definition placed (name : string) (x y : R) : DebrisObject.t unit :=
  DebrisObject.mk name "50001" None []
                  (Position.mk (Some x) (Some y) (Some 0%R) (Some 0%R))
                  "Satellite" (Some "2024") (Some "USA").

Definition sampleAt (timestamp : Z) : PositionSample.t :=
  PositionSample.mk (Some 0%R) (Some 0%R) (Some 0%R) (Some 0%R) timestamp.

(** An object whose trail holds the given timestamps. *)
Definition trailed (stamps : list Z) : DebrisObject.t unit :=
  DebrisObject.mk "COSMOS 2251 DEB 2" "40002" None (map sampleAt stamps)
                  Simulation.zeroPos "Debris" (Some "2009") (Some "Russia").

(** A record whose catalog field reads as a negative number. *)
Definition negativeIdText : string :=
  String.concat (String Text.newline EmptyString)
                ["COSMOS 2251 DEB"; "1 -5   U 24001A   24001.5"; "2 -5"].

Definition negativeId : DebrisObject.t unit :=
  DebrisObject.mk "COSMOS 2251 DEB" "-5" (Some tt) [] Simulation.zeroPos
                  "Debris" (Some "2024") (Some "Unknown").

(** One record of a constellation satellite. *)
Definition starlinkRecord : string :=
  String.concat (String Text.newline EmptyString)
                ["STARLINK-1007"; "1 44713U 19074A   24001.5"; "2 44713"].

(** Three records: a fragment, an unclassified name, a rocket body. *)
Definition threeRecords : string :=
  String.concat (String Text.newline EmptyString)
                ["COSMOS 2251 DEB"; "1 34427U 93036SX  24001.5"; "2 34427";
                 "ISS (ZARYA)"; "1 25544U 98067A   24001.5"; "2 25544";
                 "FALCON 9 R/B"; "1 55555U 23001B   24001.5"; "2 55555"].

(** Observed counts for the second projection model, and a table of
    another shape with the same three counts. *)
Definition observed : Forecast.DataStats :=
  [("Active Satellites",
    Forecast.mkGroupStats 35 (53 # 1) (550 # 1)
                          [("Satellite", 30%Z); ("Constellation", 5%Z)]);
   ("Iridium Debris",
    Forecast.mkGroupStats 18 (86 # 1) (780 # 1) [("Debris", 18%Z)])].


End Samples.

(** ** DebrisSimulation.tsx: simulated data, counters, colours, frames *)

Module Loader.

Local Open Scope string_scope.

(** [s.toUpperCase ()] on ASCII letters. *)
Definition upperChar (c : ascii) : ascii :=
  let n := nat_of_ascii c in
  if ((97 <=? n) && (n <=? 122))%nat then ascii_of_nat (n - 32) else c.

Fixpoint toUpperCase (s : string) : string :=
  match s with
  | EmptyString => EmptyString
  | String c s' => String (upperChar c) (toUpperCase s')
  end.

(** [array[i]] for an index inside the array; the default stands for
    [undefined] and is never reached by the callers below. *)
Definition at_index (array : list string) (i : Z) : string :=
  nth (Z.to_nat i) array "".

(** [generateSimulatedDebris] *)
Definition generateSimulatedDebris {Satrec : Type}
           (source : Simulation.DataSource) : list (DebrisObject.t Satrec) :=
  let simulated := [] in
  match source with
  | Simulation.cosmos =>
      JS.for_range
        1 12
        (fun i simulated =>
           JS.push simulated
                   (DebrisObject.mk
                      ("COSMOS 2251 DEB " ++ Text.toString (Some i))
                      ("4000" ++ Text.toString (Some i))
                      None [] Simulation.zeroPos "Debris"
                      (Some "2009") (Some "Russia")))
        simulated
  | Simulation.recent =>
      let categories := ["Satellite"; "Debris"; "Rocket Body"] in
      let countries := ["USA"; "China"; "Russia"; "India"; "Japan"; "ESA"] in
      JS.for_range
        1 18
        (fun i simulated =>
           let category := at_index categories (Z.rem i 3) in
           JS.push simulated
                   (DebrisObject.mk
                      ("SIMULATED " ++ toUpperCase category ++ " "
                                    ++ Text.toString (Some i))
                      ("5000" ++ Text.toString (Some i))
                      None [] Simulation.zeroPos category
                      (Some "2024")
                      (Some (at_index countries (Z.rem i 6)))))
        simulated
  end.

(** [fetchTLEData]: [response] is the text of a successful response,
    [None] when the request fails or its status is not ok.  The result is
    the list of objects and the error message that is set. *)
Definition fetchTLEData {Satrec : Type}
           (satellite : option (SatelliteJS.t Satrec))
           (source : Simulation.DataSource) (response : option string)
  : list (DebrisObject.t Satrec) * option string :=
  match response with
  | Some tleData => (Simulation.parseTLEData satellite tleData source, None)
  | None =>
      (generateSimulatedDebris source,
       Some ("Unable to fetch live TLE data from "
               ++ match source with
                  | Simulation.cosmos => "COSMOS 2251"
                  | Simulation.recent => "recent launches"
                  end
               ++ ". Using simulated data for demonstration."))
  end.

(** The counters set by [loadSatelliteJS] and by [handleRefresh] from
    the objects that were fetched. *)
Definition statsOf {Satrec : Type} (objects : list (DebrisObject.t Satrec))
  : Projection.Stats :=
  let debris :=
    List.length (filter (Simulation.hasCategory "Debris") objects) in
  let satellites :=
    List.length (filter (Simulation.hasCategory "Satellite") objects) in
  let rocketBodies :=
    List.length (filter (Simulation.hasCategory "Rocket Body") objects) in
  Projection.mkStats (Z.of_nat (List.length objects))
                     (Z.of_nat (List.length objects))
                     (Z.of_nat debris) (Z.of_nat satellites)
                     (Z.of_nat rocketBodies).

Record Color : Set := mkColor { r : Z; g : Z; b : Z }.

(** [getObjectColor] *)
Definition getObjectColor (category : string) : Color :=
  if String.eqb category "Debris" then mkColor 255 80 80
  else if String.eqb category "Satellite" then mkColor 80 255 80
  else if String.eqb category "Rocket Body" then mkColor 255 180 0
  else mkColor 255 255 255.

(** The frames of the sketch: [draw] runs once per frame on the objects
    the frame before has left; a frame is given by the pointer and the
    time it reads. *)
Definition runFrames {Satrec : Type}
           (satellite : option (SatelliteJS.t Satrec)) (width height : R)
           (frames : list (R * R * Z))
           (debrisObjects : list (DebrisObject.t Satrec))
  : list (DebrisObject.t Satrec) :=
  fold_left (fun objects '(mouseX, mouseY, now) =>
               fst (Simulation.draw satellite width height mouseX mouseY
                                    now objects))
            frames debrisObjects.

(** What the frames do to one object. *)
Definition runObject {Satrec : Type}
           (satellite : option (SatelliteJS.t Satrec)) (width height : R)
           (frames : list (R * R * Z)) (obj : DebrisObject.t Satrec)
  : DebrisObject.t Satrec :=
  fold_left (fun obj '(mouseX, mouseY, now) =>
               Simulation.updateObject satellite width height now obj)
            frames obj.

(** The times read by a sequence of frames. *)
Definition frameTimes (frames : list (R * R * Z)) : list Z :=
  map snd frames.

(** A line drawn for a trail: its ends, the stroke colour with its
    alpha, and the stroke weight. *)
Record Segment : Type := mkSegment {
  fromX : Num.num; fromY : Num.num; toX : Num.num; toY : Num.num;
  stroke : Color; alpha : R; thickness : R
}.

(** [positions[i]] for an index inside the trail; the default stands for
    [undefined] and is not reached by the loop below. *)
Definition positionAt (positions : list PositionSample.t) (i : Z)
  : PositionSample.t :=
  nth (Z.to_nat i) positions
      (PositionSample.mk Num.NaN Num.NaN Num.NaN Num.NaN 0).

(** The lines that [draw] paints for the trail of one object ("Draw
    enhanced orbit trails"), in the order they are painted. *)
Definition trailSegments {Satrec : Type} (obj : DebrisObject.t Satrec)
  : list Segment :=
  let positions := DebrisObject.positions obj in
  let length := Z.of_nat (List.length positions) in
  if (length >? 1)%Z then
    let color := getObjectColor (DebrisObject.category obj) in
    JS.for_range
      1 (length - 1)
      (fun i segments =>
         let alpha := (IZR i / IZR length * 120)%R in
         let thickness := (IZR i / IZR length * 2)%R in
         JS.push segments
                 (mkSegment
                    (PositionSample.x (positionAt positions (i - 1)))
                    (PositionSample.y (positionAt positions (i - 1)))
                    (PositionSample.x (positionAt positions i))
                    (PositionSample.y (positionAt positions i))
                    color alpha thickness))
      []
  else [].

(** A check of what [generateSimulatedDebris] promises to the rest of
    the component, used to go through its objects one by one. *)
Definition wellFormedSimulated {Satrec : Type} (obj : DebrisObject.t Satrec)
  : bool :=
  match DebrisObject.satrec obj, DebrisObject.positions obj,
        Text.parseInt (DebrisObject.noradId obj) with
  | None, [], Some id =>
      (0 <=? id)%Z
      && String.eqb (DebrisObject.category obj)
                    (fst (Simulation.classify (DebrisObject.name obj)))
      && negb (String.eqb (DebrisObject.category obj) "Unknown")
  | _, _, _ => false
  end.

End Loader.

(** ** MLAnalysis.tsx: the statistics the forecast starts from *)

Module Catalog.

Local Open Scope string_scope.

(** [o[key]] of a JavaScript object used as a map, [None] for
    [undefined]; the keys are kept in insertion order (the keys used
    here are group and category names, none of which is an array index,
    which JavaScript would list first). *)
Fixpoint getKey {V : Type} (key : string) (o : list (string * V))
  : option V :=
  match o with
  | [] => None
  | (k, v) :: o' => if String.eqb k key then Some v else getKey key o'
  end.

(** [o[key] = v]: the value of an existing key is replaced in place, a
    new key goes to the end. *)
Fixpoint setKey {V : Type} (key : string) (v : V) (o : list (string * V))
  : list (string * V) :=
  match o with
  | [] => [(key, v)]
  | (k, w) :: o' =>
      if String.eqb k key then (k, v) :: o' else (k, w) :: setKey key v o'
  end.

(** [categories[entry.category] = (categories[entry.category] || 0) + 1] *)
Definition countCategory (categories : list (string * Z))
           (entry : Analysis.TLEEntry) : list (string * Z) :=
  let old :=
    match getKey (Analysis.category entry) categories with
    | Some n => n
    | None => 0%Z
    end in
  setKey (Analysis.category entry) (old + 1)%Z categories.

Section WithOrbit.

(** The two averages of a group (inclination, altitude).  The code
    computes them in floating point from columns of line 2; the forecast
    never reads them, and they are left to a parameter here. *)
Variable orbitAverages : list Analysis.TLEEntry -> Q * Q.

(** The statistics of one group in [calculateStats]. *)
Definition groupStats (entries : list Analysis.TLEEntry)
  : Forecast.GroupStats :=
  let categories := fold_left countCategory entries [] in
  let '(avgInclination, avgAltitude) := orbitAverages entries in
  Forecast.mkGroupStats (Z.of_nat (List.length entries))
                        avgInclination avgAltitude categories.

(** [calculateStats]: [data] is the object of the groups, as its list
    of entries. *)
Definition calculateStats (data : list (string * list Analysis.TLEEntry))
  : Forecast.DataStats :=
  fold_left (fun stats '(groupName, entries) =>
               setKey groupName (groupStats entries) stats)
            (Forecast.Object_entries data) [].

End WithOrbit.

(** All entries of all groups. *)
Definition allEntries (data : list (string * list Analysis.TLEEntry))
  : list Analysis.TLEEntry :=
  List.concat (map snd data).

(** Number of entries whose category passes a test. *)
Definition countEntries (test : string -> bool)
           (entries : list Analysis.TLEEntry) : Z :=
  Z.of_nat (List.length
              (filter (fun e => test (Analysis.category e)) entries)).

(** Sum of the counts of the categories that pass a test. *)
Fixpoint sumCounts (test : string -> bool) (categories : list (string * Z))
  : Z :=
  match categories with
  | [] => 0
  | (cat, count) :: rest =>
      ((if test cat then count else 0) + sumCounts test rest)%Z
  end.

(** What is checked of the collision risk at offset [k]: its value
    without the cap, its bounds, and that the next one is larger. *)
Definition riskChecked (k : Z) : bool :=
  let risk :=
    Forecast.collisionRisk (Forecast.predictionAt 0 0 0 (2024 + k)) in
  let next :=
    Forecast.collisionRisk (Forecast.predictionAt 0 0 0 (2024 + (k + 1))) in
  (Qeq_bool risk (15 + 3 * inject_Z k + 2 * 1.1 ^ k)
   && Qle_bool 17 risk && Qle_bool risk 51
   && negb (Qle_bool next risk))%Q.

End Catalog.

(** ** DebrisSimulation.tsx: the two lines of the prediction chart *)

Module Chart.

Local Open Scope Q_scope.

(** [a / b] as a finite number; [None] stands for [NaN] and the
    infinities, which only a division by zero produces here and which no
    later sum or product makes finite again. *)
Definition div (a b : Q) : option Q :=
  if Qeq_bool b 0 then None else Some (a / b).

(** The calls that build a path on the canvas. *)
Inductive PathCommand : Set :=
| MoveTo (x y : option Q)
| LineTo (x y : option Q).

Definition point (c : PathCommand) : option Q * option Q :=
  match c with
  | MoveTo x y => (x, y)
  | LineTo x y => (x, y)
  end.

(** [Math.max (...values)] of a list that is not empty (the chart is not
    drawn for an empty one). *)
Definition Math_max (values : list Z) : Z :=
  match values with
  | [] => 0%Z
  | v :: rest => fold_left Z.max rest v
  end.

Definition padding : Q := 50.

(** One line of [renderPredictionChart]: the [forEach] that moves to the
    first point and draws a line to each of the others; [value] reads the
    quantity that is plotted. *)
Definition polyline (canvasWidth canvasHeight : Q)
           (predictionData : list Projection.PredictionData)
           (value : Projection.PredictionData -> Z) : list PathCommand :=
  let chartWidth := canvasWidth - 2 * padding in
  let chartHeight := canvasHeight - 2 * padding in
  let maxDebris := Math_max (map Projection.totalDebris predictionData) in
  map (fun '(index, data) =>
         let x :=
           option_map
             (fun q => padding + q * chartWidth)
             (div (inject_Z (Z.of_nat index))
                  (inject_Z (Z.of_nat (List.length predictionData)) - 1)) in
         let y :=
           option_map
             (fun q => canvasHeight - padding - q * chartHeight)
             (div (inject_Z (value data)) (inject_Z maxDebris)) in
         if (index =? 0)%nat then MoveTo x y else LineTo x y)
      (combine (seq 0 (List.length predictionData)) predictionData).

(** The line of the totals, then the line of the large debris; nothing
    is drawn when there are no predictions. *)
Definition chartLines (canvasWidth canvasHeight : Q)
           (predictionData : list Projection.PredictionData)
  : list PathCommand :=
  match predictionData with
  | [] => []
  | _ =>
      polyline canvasWidth canvasHeight predictionData
               Projection.totalDebris
      ++ polyline canvasWidth canvasHeight predictionData
                  Projection.largeDebris
  end.

End Chart.

(** ** MLAnalysis.tsx: the bars of the distribution chart *)

Module Distribution.

Local Open Scope string_scope.
Local Open Scope list_scope.
Local Open Scope Q_scope.

(** One bar as [renderChart] paints it: the rectangle given to
    [fillRect], the colour of its gradient, and the value and the label
    written with it. *)
Record Bar : Set := mkBar {
  x : option Q;
  y : option Q;
  barWidth : option Q;
  barHeight : option Q;
  color : string;
  value : Z;
  label : string
}.

Definition padding : Q := 60.

Definition colors : list string :=
  ["#3B82F6"; "#EF4444"; "#10B981"; "#F59E0B"; "#8B5CF6"].

(** [stats[label].count] for a label taken from the keys of [stats]. *)
Definition countOf (stats : Forecast.DataStats) (label : string) : Z :=
  match Catalog.getKey label stats with
  | Some group => Forecast.count group
  | None => 0%Z
  end.

(** [renderChart]: the bars in the order they are painted; numbers that
    are not finite are [None], as in [Chart.div]. *)
Definition renderChart (canvasWidth canvasHeight : Q)
           (stats : Forecast.DataStats) : list Bar :=
  let chartWidth := canvasWidth - 2 * padding in
  let chartHeight := canvasHeight - 2 * padding in
  let labels := map fst stats in
  let values := map (countOf stats) labels in
  let maxValue := Chart.Math_max values in
  let perLabel :=
    Chart.div chartWidth (inject_Z (Z.of_nat (List.length labels))) in
  let barWidth := option_map (fun q => q * 0.7) perLabel in
  let barSpacing := option_map (fun q => q * 0.3) perLabel in
  map (fun '(index, label) =>
         let value := nth index values 0%Z in
         let barHeight :=
           option_map (fun q => q * chartHeight)
                      (Chart.div (inject_Z value) (inject_Z maxValue)) in
         let x :=
           match barWidth, barSpacing with
           | Some w, Some s =>
               Some (padding + inject_Z (Z.of_nat index) * (w + s))
           | _, _ => None
           end in
         let y :=
           option_map (fun h => canvasHeight - padding - h) barHeight in
         mkBar x y barWidth barHeight
               (nth (index mod List.length colors) colors "")
               value label)
      (combine (seq 0 (List.length labels)) labels).

End Distribution.

(** ** Facts about the loop helper *)

Module JSFacts.

Import JS.
Local Open Scope Z_scope.

Lemma for_fuel_push {A : Type} (f : Z -> A) :
  forall (n : nat) (i hi : Z) (acc : list A),
    i + Z.of_nat n = hi + 1 ->
    for_fuel n i hi (fun y a => push a (f y)) acc = acc ++ map f (zseq i n).
Proof.
  induction n as [|n IH]; intros i hi acc Hn; simpl.
  - now rewrite app_nil_r.
  - destruct (Z.leb_spec i hi) as [_|Hlt]; [|lia].
    rewrite IH by lia. unfold push. now rewrite <- app_assoc.
Qed.

Lemma for_range_push {A : Type} (f : Z -> A) (lo hi : Z) :
  lo <= hi + 1 ->
  for_range lo hi (fun y a => push a (f y)) [] =
  map f (zseq lo (Z.to_nat (hi + 1 - lo))).
Proof.
  intros H. unfold for_range. rewrite for_fuel_push; [reflexivity|lia].
Qed.

Lemma zseq_length : forall n i, List.length (zseq i n) = n.
Proof. induction n; intros; simpl; auto. Qed.

Lemma zseq_nth : forall n i k,
    (k < n)%nat -> nth_error (zseq i n) k = Some (i + Z.of_nat k).
Proof.
  induction n as [|n IH]; intros i k Hk; [lia|].
  destruct k as [|k]; simpl.
  - f_equal. lia.
  - rewrite IH by lia. f_equal. lia.
Qed.

Lemma zseq_In : forall n i y,
    In y (zseq i n) <-> i <= y < i + Z.of_nat n.
Proof.
  induction n as [|n IH]; intros i y; simpl.
  - split; [tauto|lia].
  - rewrite IH. lia.
Qed.

(** A decidable property of the integers of a range is checked on the
    enumeration of the range. *)
Lemma range_forallb (P : Z -> bool) (lo : Z) (n : nat) :
  forallb P (zseq lo n) = true ->
  forall y, lo <= y < lo + Z.of_nat n -> P y = true.
Proof.
  intros H y Hy. rewrite forallb_forall in H. apply H, zseq_In, Hy.
Qed.

End JSFacts.

(** ** Properties of the primary projection model *)

Module ProjectionFacts.

Import JS JSFacts Projection.
Local Open Scope Z_scope.

Lemma primary_sequence_eq (stats : Stats) :
  generatePredictionData stats = map predictionAt (zseq 2000 29).
Proof.
  unfold generatePredictionData, baseYear.
  rewrite for_range_push by lia. reflexivity.
Qed.

Lemma generatePredictionData_nth (stats : Stats) (y : Z) :
  2000 <= y <= 2028 ->
  nth_error (generatePredictionData stats) (Z.to_nat (y - 2000)) =
  Some (predictionAt y).
Proof.
  intros Hy. rewrite primary_sequence_eq.
  rewrite nth_error_map, zseq_nth by lia. cbn [option_map]. do 2 f_equal. lia.
Qed.

(** The overwriting chain of tests computes the regime table. *)
Lemma growthRate_regime (y : Z) : growthRate y = regimeRate y.
Proof.
  unfold growthRate, regimeRate.
  rewrite !Z.geb_leb.
  destruct (Z.leb_spec 2007 y), (Z.leb_spec 2009 y), (Z.leb_spec 2020 y),
    (Z.leb_spec 2025 y), (Z.ltb_spec y 2007), (Z.leb_spec y 2008),
    (Z.leb_spec y 2019), (Z.leb_spec y 2024);
    try reflexivity; lia.
Qed.

(** C2: for every year of 2000..2028 the record generated for that year
    has totalDebris = round (20 * rate^(year - 2000)) with the rate of the
    regime table, largeDebris = round (totalDebris * 0.3), smallDebris =
    totalDebris - largeDebris and collisionEvents = max (0, round
    (totalDebris / 1000 * (2 from 2009 on, else 1))); for 2001 these are
    21, 6, 15 and 0. *)
Theorem primary_projection_formulas (stats : Stats) (y : Z) :
  2000 <= y <= 2028 ->
  exists p,
    nth_error (generatePredictionData stats) (Z.to_nat (y - 2000)) = Some p
    /\ year p = y
    /\ totalDebris p = Math_round (20 * regimeRate y ^ (y - 2000))%Q
    /\ largeDebris p = Math_round (inject_Z (totalDebris p) * 0.3)%Q
    /\ smallDebris p = totalDebris p - largeDebris p
    /\ collisionEvents p =
         Z.max 0 (Math_round (inject_Z (totalDebris p) / 1000
                              * (if y >=? 2009 then 2 else 1))%Q)
    /\ (y = 2001 ->
        totalDebris p = 21 /\ largeDebris p = 6 /\ smallDebris p = 15
        /\ collisionEvents p = 0).
Proof.
  intros Hy. exists (predictionAt y).
  split; [apply generatePredictionData_nth, Hy|].
  unfold predictionAt; cbn [year totalDebris largeDebris smallDebris
                                 collisionEvents].
  rewrite growthRate_regime. unfold Math_pow, baseYear.
  do 5 (split; [reflexivity|]).
  intros ->. vm_compute. repeat split.
Qed.

Lemma primary_projection_formulas_witness :
  exists p,
    nth_error (generatePredictionData (mkStats 18 18 6 6 6)) 1 = Some p
    /\ year p = 2001 /\ totalDebris p = 21 /\ largeDebris p = 6
    /\ smallDebris p = 15 /\ collisionEvents p = 0.
Proof.
  destruct (primary_projection_formulas (mkStats 18 18 6 6 6) 2001)
    as (p & Hn & Hyear & _ & _ & _ & _ & H2001); [lia|].
  destruct (H2001 eq_refl) as (Ht & Hl & Hs & Hc).
  exists p. repeat split; assumption.
Defined.

(** The sequence has one record per year, 29 in all, and does not depend
    on the component's counters. *)
Lemma generatePredictionData_length (stats : Stats) :
  List.length (generatePredictionData stats) = 29%nat.
Proof. now rewrite primary_sequence_eq, length_map, zseq_length. Qed.

Lemma generatePredictionData_pure (s1 s2 : Stats) :
  generatePredictionData s1 = generatePredictionData s2.
Proof. now rewrite !primary_sequence_eq. Qed.

(** For every year of the range the exact value [20 * rate^offset] is at
    least 1/1000 away from the points where [Math.round] jumps: an error
    below that bound in the computed power cannot change [totalDebris]. *)
Lemma totalDebris_rounding_margin (y : Z) :
  2000 <= y <= 2028 ->
  (1 # 1000 <= roundingMargin (20 * Math_pow (growthRate y) (y - 2000)))%Q.
Proof.
  intros Hy.
  apply Qle_bool_iff.
  apply (range_forallb
           (fun y => Qle_bool (1 # 1000)
                       (roundingMargin
                          (20 * Math_pow (growthRate y) (y - 2000))%Q))
           2000 29); [vm_compute; reflexivity | lia].
Qed.

(** C3: the risk level of a total is Low iff total <= 500, Medium iff
    500 < total <= 1500, High iff 1500 < total <= 3000 and Critical iff
    total > 3000, with the six boundary values 500, 501, 1500, 1501, 3000
    and 3001; every generated record carries the level of its own
    total. *)
Theorem riskLevel_thresholds (stats : Stats) (t : Z) :
  (riskLevelOf t = Low <-> t <= 500)
  /\ (riskLevelOf t = Medium <-> 500 < t <= 1500)
  /\ (riskLevelOf t = High <-> 1500 < t <= 3000)
  /\ (riskLevelOf t = Critical <-> 3000 < t)
  /\ riskLevelOf 500 = Low /\ riskLevelOf 501 = Medium
  /\ riskLevelOf 1500 = Medium /\ riskLevelOf 1501 = High
  /\ riskLevelOf 3000 = High /\ riskLevelOf 3001 = Critical
  /\ Forall (fun p => riskLevel p = riskLevelOf (totalDebris p))
            (generatePredictionData stats).
Proof.
  assert (Hcases :
            (t <= 500 /\ riskLevelOf t = Low)
            \/ (500 < t <= 1500 /\ riskLevelOf t = Medium)
            \/ (1500 < t <= 3000 /\ riskLevelOf t = High)
            \/ (3000 < t /\ riskLevelOf t = Critical)).
  { unfold riskLevelOf. rewrite !Z.gtb_ltb.
    destruct (Z.ltb_spec 500 t), (Z.ltb_spec 1500 t), (Z.ltb_spec 3000 t);
      try lia; auto 6. }
  repeat match goal with |- _ /\ _ => split end; try reflexivity.
  1-4: destruct Hcases as [[Hr He]|[[Hr He]|[[Hr He]|[Hr He]]]];
    rewrite He; split; intros H; try discriminate; try reflexivity; lia.
  rewrite primary_sequence_eq, Forall_map.
  apply Forall_forall. intros y _. reflexivity.
Qed.

(** C7: the total of the next year is at least the total of the year,
    for every year of 2000..2028, also read on consecutive records of the
    generated sequence; the risk level never decreases when the total
    grows. *)
Theorem projection_monotone (stats : Stats) (y t1 t2 : Z) :
  2000 <= y <= 2028 ->
  t1 <= t2 ->
  totalAt y <= totalAt (y + 1)
  /\ (forall p q,
        nth_error (generatePredictionData stats) (Z.to_nat (y - 2000))
        = Some p ->
        nth_error (generatePredictionData stats) (S (Z.to_nat (y - 2000)))
        = Some q ->
        totalDebris p <= totalDebris q)
  /\ severity (riskLevelOf t1) <= severity (riskLevelOf t2).
Proof.
  intros Hy Ht.
  assert (Htot : totalAt y <= totalAt (y + 1)).
  { apply Z.leb_le.
    apply (range_forallb (fun y => totalAt y <=? totalAt (y + 1)) 2000 29);
      [vm_compute; reflexivity | lia]. }
  split; [exact Htot|split].
  - intros p q Hp Hq.
    rewrite generatePredictionData_nth in Hp by lia.
    assert (Hy' : y + 1 <= 2028).
    { apply Z.nlt_ge. intros Hlt.
      assert (Hlen : (29 <= S (Z.to_nat (y - 2000)))%nat) by lia.
      rewrite <- (generatePredictionData_length stats) in Hlen.
      apply nth_error_None in Hlen. congruence. }
    replace (S (Z.to_nat (y - 2000))) with (Z.to_nat (y + 1 - 2000))
      in Hq by lia.
    rewrite generatePredictionData_nth in Hq by lia.
    injection Hp as <-. injection Hq as <-. exact Htot.
  - unfold riskLevelOf. rewrite !Z.gtb_ltb.
    destruct (Z.ltb_spec 500 t1), (Z.ltb_spec 1500 t1),
      (Z.ltb_spec 3000 t1), (Z.ltb_spec 500 t2), (Z.ltb_spec 1500 t2),
      (Z.ltb_spec 3000 t2); simpl; lia.
Qed.

Lemma projection_monotone_witness :
  totalAt 2019 <= totalAt 2020
  /\ severity (riskLevelOf 1500) <= severity (riskLevelOf 1501).
Proof.
  destruct (projection_monotone (mkStats 18 18 6 6 6) 2019 1500 1501)
    as (Ht & _ & Hs); [lia | lia |].
  split; [exact Ht | exact Hs].
Defined.

End ProjectionFacts.

(** ** Properties of the second projection model *)

Module ForecastFacts.

Import JS JSFacts Forecast.
Local Open Scope Z_scope.

Lemma forecast_sequence_eq (ds : DataStats) :
  generatePredictionData ds =
  map (predictionAt (currentSatellites ds) (currentDebris ds)
                    (currentRockets ds))
      (zseq 2024 11).
Proof.
  unfold generatePredictionData, currentYear.
  rewrite for_range_push by lia. reflexivity.
Qed.




End ForecastFacts.

(** ** Classification *)

Module ClassifierFacts.

Local Open Scope string_scope.

(** Case analysis on the tests of a rule chain, in the order they are
    made; [cbn] drops the tests that a decided one makes irrelevant. *)
Ltac split_tests :=
  repeat match goal with
         | |- context [Text.includes ?n ?p] =>
             destruct (Text.includes n p) eqn:?;
             cbn [orb fst existsb In]
         end.

Ltac close_rule :=
  split; [tauto | split; intros; (discriminate || reflexivity)].

Lemma simulation_classify_spec (name : string) :
  In (fst (Simulation.classify name)) Simulation.closedCategories
  /\ (fst (Simulation.classify name) = "Unknown"
      <-> existsb (Text.includes name) Simulation.patterns = false).
Proof.
  unfold Simulation.classify, Simulation.patterns,
    Simulation.closedCategories.
  cbn [existsb In].
  split_tests; close_rule.
Qed.

Lemma analysis_classify_spec (name : string) :
  In (Analysis.classify name) Analysis.categories
  /\ (Analysis.classify name = "Unknown"
      <-> existsb (Text.includes name) Analysis.patterns = false).
Proof.
  unfold Analysis.classify, Analysis.patterns, Analysis.categories.
  cbn [existsb In].
  split_tests; close_rule.
Qed.

Section Parser.

Context {Satrec : Type}.
Variable satellite : option (SatelliteJS.t Satrec).

Lemma parseRecord_category (line0 line1 line2 : string)
      (obj : DebrisObject.t Satrec) :
  Simulation.parseRecord satellite line0 line1 line2 = Some obj ->
  DebrisObject.category obj
  = fst (Simulation.classify (DebrisObject.name obj)).
Proof.
  unfold Simulation.parseRecord.
  destruct (match satellite with
            | Some lib => SatelliteJS.twoline2satrec lib line1 line2
            | None => None
            end); [|discriminate].
  destruct (Simulation.classify (Text.trim line0)) as [c k] eqn:Hc.
  intros [= <-]. cbn. now rewrite Hc.
Qed.

(** Every object of the loop's result was there before the loop or was
    pushed for one of the records. *)
Lemma parseLoop_origin (n : nat) :
  forall (lines : list string) (objects : list (DebrisObject.t Satrec)) obj,
    (List.length lines <= n)%nat ->
    In obj (Simulation.parseLoop satellite lines objects) ->
    In obj objects
    \/ exists line0 line1 line2,
        Simulation.parseRecord satellite line0 line1 line2 = Some obj.
Proof.
  induction n as [|n IH]; intros lines objects obj Hlen Hin.
  - destruct lines; [now left | simpl in Hlen; lia].
  - destruct lines as [|l0 [|l1 [|l2 rest]]]; try (now left).
    cbn [Simulation.parseLoop] in Hin.
    apply IH in Hin; [|simpl in Hlen; lia].
    destruct Hin as [Hin|Hin]; [|now right].
    destruct (Simulation.parseRecord satellite l0 l1 l2) as [o|] eqn:Hrec;
      [|now left].
    unfold JS.push in Hin. apply in_app_or in Hin.
    destruct Hin as [Hin|[<-|[]]]; [now left|].
    right. now exists l0, l1, l2.
Qed.

Lemma parseObjects_category (tleData : string)
      (obj : DebrisObject.t Satrec) :
  In obj (Simulation.parseObjects satellite tleData) ->
  DebrisObject.category obj
  = fst (Simulation.classify (DebrisObject.name obj)).
Proof.
  unfold Simulation.parseObjects. intros Hin.
  apply (parseLoop_origin _ _ _ _ (le_n _)) in Hin.
  destruct Hin as [[]|(l0 & l1 & l2 & Hrec)].
  eapply parseRecord_category, Hrec.
Qed.

End Parser.

Lemma analysis_parseLoop_origin (n : nat) :
  forall (lines : list string) (entries : list Analysis.TLEEntry) e,
    (List.length lines <= n)%nat ->
    In e (Analysis.parseLoop lines entries) ->
    In e entries
    \/ Analysis.category e = Analysis.classify (Analysis.name e).
Proof.
  induction n as [|n IH]; intros lines entries e Hlen Hin.
  - destruct lines; [now left | simpl in Hlen; lia].
  - destruct lines as [|l0 [|l1 [|l2 rest]]]; try (now left).
    cbn [Analysis.parseLoop] in Hin.
    apply IH in Hin; [|simpl in Hlen; lia].
    destruct Hin as [Hin|Hin]; [|now right].
    unfold JS.push in Hin. apply in_app_or in Hin.
    destruct Hin as [Hin|[<-|[]]]; [now left | now right].
Qed.

(** C6, as the code has it: an object made by the simulation's parser has
    its category in Debris, Satellite, Rocket Body, Unknown; an entry made
    by the analysis view's parser has its category in those four or in
    Constellation, Weather, Earth Observation; in both, the category is
    Unknown exactly when no pattern of the parser's own rules occurs in
    the display name. *)
Theorem classification_categories {Satrec : Type}
        (satellite : option (SatelliteJS.t Satrec)) (tleData text : string)
        (obj : DebrisObject.t Satrec) (e : Analysis.TLEEntry) :
  In obj (Simulation.parseObjects satellite tleData) ->
  In e (Analysis.parseEntries text) ->
  (In (DebrisObject.category obj) Simulation.closedCategories
   /\ (DebrisObject.category obj = "Unknown"
       <-> existsb (Text.includes (DebrisObject.name obj))
                   Simulation.patterns = false))
  /\ (In (Analysis.category e) Analysis.categories
      /\ (Analysis.category e = "Unknown"
          <-> existsb (Text.includes (Analysis.name e))
                      Analysis.patterns = false)).
Proof.
  intros Hobj He. split.
  - rewrite (parseObjects_category _ _ _ Hobj).
    apply simulation_classify_spec.
  - unfold Analysis.parseEntries in He.
    apply (analysis_parseLoop_origin _ _ _ _ (le_n _)) in He.
    destruct He as [[]|He]. rewrite He. apply analysis_classify_spec.
Qed.

Lemma classification_categories_witness :
  exists obj e,
    In obj (Simulation.parseObjects (Some Samples.stubLibrary)
                                    Samples.threeRecords)
    /\ In e (Analysis.parseEntries Samples.starlinkRecord)
    /\ DebrisObject.name obj = "ISS (ZARYA)"
    /\ DebrisObject.category obj = "Unknown"
    /\ existsb (Text.includes (DebrisObject.name obj)) Simulation.patterns
       = false
    /\ In (Analysis.category e) Analysis.categories.
Proof.
  pose (obj := DebrisObject.mk "ISS (ZARYA)" "25544" (Some tt) []
                               Simulation.zeroPos "Unknown" (Some "2024")
                               (Some "Unknown")).
  pose (e := Analysis.mkEntry "STARLINK-1007" "1 44713U 19074A   24001.5"
                              "2 44713" "Constellation").
  assert (Hobj : In obj (Simulation.parseObjects (Some Samples.stubLibrary)
                                                 Samples.threeRecords))
    by (right; left; reflexivity).
  assert (He : In e (Analysis.parseEntries Samples.starlinkRecord))
    by (left; reflexivity).
  destruct (classification_categories (Some Samples.stubLibrary)
              Samples.threeRecords Samples.starlinkRecord obj e Hobj He)
    as [[_ [Hu _]] [Hc _]].
  exists obj, e.
  split; [exact Hobj|]. split; [exact He|].
  split; [reflexivity|]. split; [reflexivity|].
  split; [apply Hu; reflexivity | exact Hc].
Defined.

(** The analysis view's parser assigns a category outside the closed set
    of the data model. *)
Lemma analysis_category_outside_closed_set :
  exists e,
    In e (Analysis.parseEntries Samples.starlinkRecord)
    /\ Analysis.category e = "Constellation"
    /\ ~ In (Analysis.category e) Simulation.closedCategories.
Proof.
  exists (Analysis.mkEntry "STARLINK-1007" "1 44713U 19074A   24001.5"
                           "2 44713" "Constellation").
  split; [left; reflexivity|]. split; [reflexivity|].
  cbn. intros [H|[H|[H|[H|[]]]]]; discriminate H.
Qed.

End ClassifierFacts.

(** ** Shape of the parser's result *)

Module ParserFacts.

Local Open Scope string_scope.
Local Open Scope list_scope.

Lemma firstn_In {A : Type} (n : nat) :
  forall (l : list A) (a : A), In a (firstn n l) -> In a l.
Proof.
  induction n as [|n IH]; intros [|b l] a H; simpl in H; try tauto.
  destruct H as [->|H]; [now left | right; now apply IH].
Qed.

Section Shape.

Context {Satrec : Type}.
Variable satellite : option (SatelliteJS.t Satrec).

Lemma slice_of_category (n : nat) (c : string)
      (objects : list (DebrisObject.t Satrec)) :
  (List.length (firstn n (filter (Simulation.hasCategory c) objects)) <= n)%nat
  /\ Forall (fun o => DebrisObject.category o = c)
            (firstn n (filter (Simulation.hasCategory c) objects)).
Proof.
  split; [apply firstn_le_length|].
  apply Forall_forall. intros o Ho.
  apply firstn_In, filter_In in Ho. destruct Ho as [_ Ho].
  now apply String.eqb_eq in Ho.
Qed.

(** C10: the list returned for any text is made of at most 12 objects of
    category Debris, then at most 10 of category Satellite, then at most 6
    of category Rocket Body; it has at most 25 objects and none of another
    category, so no object classified Unknown. *)
Theorem parseTLEData_shape (tleData : string)
        (source : Simulation.DataSource) :
  exists debris satellites rocketBodies,
    Simulation.parseTLEData satellite tleData source
    = debris ++ satellites ++ rocketBodies
    /\ ((List.length debris <= 12)%nat
        /\ Forall (fun o => DebrisObject.category o = "Debris") debris)
    /\ ((List.length satellites <= 10)%nat
        /\ Forall (fun o => DebrisObject.category o = "Satellite")
                  satellites)
    /\ ((List.length rocketBodies <= 6)%nat
        /\ Forall (fun o => DebrisObject.category o = "Rocket Body")
                  rocketBodies)
    /\ (List.length (Simulation.parseTLEData satellite tleData source)
        <= 25)%nat
    /\ Forall (fun o =>
                 In (DebrisObject.category o)
                    ["Debris"; "Satellite"; "Rocket Body"]
                 /\ DebrisObject.category o <> "Unknown")
              (Simulation.parseTLEData satellite tleData source).
Proof.
  unfold Simulation.parseTLEData.
  set (objects := Simulation.parseObjects satellite tleData).
  destruct (slice_of_category 12 "Debris" objects) as [Hd1 Hd2].
  destruct (slice_of_category 10 "Satellite" objects) as [Hs1 Hs2].
  destruct (slice_of_category 6 "Rocket Body" objects) as [Hr1 Hr2].
  set (d := firstn 12 (filter (Simulation.hasCategory "Debris") objects))
    in *.
  set (s := firstn 10 (filter (Simulation.hasCategory "Satellite") objects))
    in *.
  set (r := firstn 6 (filter (Simulation.hasCategory "Rocket Body") objects))
    in *.
  assert (Hcut : firstn 25 (d ++ s ++ r)
                 = d ++ s ++ firstn (25 - List.length d - List.length s) r).
  { rewrite firstn_app, (firstn_all2 d) by lia.
    rewrite firstn_app, (firstn_all2 s) by lia.
    reflexivity. }
  exists d, s, (firstn (25 - List.length d - List.length s) r).
  split; [exact Hcut|].
  split; [now split|]. split; [now split|].
  split.
  { split.
    - rewrite length_firstn. lia.
    - apply Forall_forall. intros o Ho. apply firstn_In in Ho.
      rewrite Forall_forall in Hr2. now apply Hr2. }
  split; [apply firstn_le_length|].
  apply Forall_forall. intros o Ho. apply firstn_In in Ho.
  rewrite Forall_forall in Hd2, Hs2, Hr2.
  apply in_app_or in Ho. destruct Ho as [Ho|Ho];
    [|apply in_app_or in Ho; destruct Ho as [Ho|Ho]].
  - rewrite (Hd2 o Ho). cbn. split; [tauto | discriminate].
  - rewrite (Hs2 o Ho). cbn. split; [tauto | discriminate].
  - rewrite (Hr2 o Ho). cbn. split; [tauto | discriminate].
Qed.

End Shape.

(** On three records, one of them unclassified: the unclassified object
    is parsed and is not returned. *)
Example unknown_dropped :
  List.length (Simulation.parseObjects (Some Samples.stubLibrary)
                                       Samples.threeRecords) = 3%nat
  /\ map DebrisObject.name
         (Simulation.parseTLEData (Some Samples.stubLibrary)
                                  Samples.threeRecords Simulation.recent)
     = ["COSMOS 2251 DEB"; "FALCON 9 R/B"].
Proof. split; reflexivity. Qed.

End ParserFacts.

(** ** Hover resolver *)

Module HoverFacts.

Import Num.
Local Open Scope R_scope.

Lemma sqrt_lt_20 (a : R) : 0 <= a -> (sqrt a < 20 <-> a < 400).
Proof.
  intros Ha. split; intros H.
  - pose proof (sqrt_sqrt a Ha) as Hs.
    pose proof (sqrt_pos a) as Hp. nra.
  - replace 20 with (sqrt 400).
    + apply sqrt_lt_1_alt. lra.
    + replace 400 with (20 * 20) by lra. apply sqrt_square. lra.
Qed.

Lemma find_app {A : Type} (f : A -> bool) (l1 l2 : list A) :
  find f (l1 ++ l2)
  = match find f l1 with Some a => Some a | None => find f l2 end.
Proof.
  induction l1 as [|a l1 IH]; simpl; [reflexivity|].
  now destruct (f a).
Qed.

Section Hover.

Context {Satrec : Type}.
Variables mouseX mouseY : R.

Abbreviation Obj := (DebrisObject.t Satrec).

Lemma isHovered_spec (obj : Obj) :
  Simulation.isHovered mouseX mouseY obj = true
  <-> Simulation.withinRadius mouseX mouseY obj.
Proof.
  unfold Simulation.isHovered, Simulation.withinRadius, dist, ltb.
  destruct (Position.x (DebrisObject.currentPos obj)) as [x|],
    (Position.y (DebrisObject.currentPos obj)) as [y|].
  - destruct (Rlt_dec _ 20) as [Hlt|Hge].
    + split; [intros _; now exists x, y | reflexivity].
    + split; [discriminate|].
      intros (x' & y' & [= <-] & [= <-] & Hlt). contradiction.
  - split; [discriminate | intros (? & ? & _ & Hy & _); discriminate].
  - split; [discriminate | intros (? & ? & Hx & _); discriminate].
  - split; [discriminate | intros (? & ? & Hx & _); discriminate].
Qed.

Lemma isHovered_false (obj : Obj) :
  Simulation.isHovered mouseX mouseY obj = false
  <-> ~ Simulation.withinRadius mouseX mouseY obj.
Proof.
  rewrite <- isHovered_spec.
  destruct (Simulation.isHovered mouseX mouseY obj); split;
    congruence.
Qed.

(** The loop keeps the tooltip of the last hovered object it has met,
    and its starting value when it has met none. *)
Lemma hover_loop (objects : list Obj) :
  forall start : option TooltipData.t,
    fold_left (fun hoveredObject obj =>
                 if Simulation.isHovered mouseX mouseY obj
                 then Some (Simulation.tooltipOf mouseX mouseY obj)
                 else hoveredObject)
              objects start
    = match Simulation.lastHovered mouseX mouseY objects with
      | Some tip => Some tip
      | None => start
      end.
Proof.
  unfold Simulation.lastHovered.
  induction objects as [|obj objects IH]; intros start; [reflexivity|].
  cbn [fold_left rev]. rewrite IH, find_app. cbn [find].
  destruct (find (Simulation.isHovered mouseX mouseY) (rev objects));
    cbn [option_map]; [reflexivity|].
  now destruct (Simulation.isHovered mouseX mouseY obj).
Qed.

Lemma hoveredObject_last (objects : list Obj) :
  Simulation.hoveredObject mouseX mouseY objects
  = Simulation.lastHovered mouseX mouseY objects.
Proof.
  unfold Simulation.hoveredObject. rewrite hover_loop.
  now destruct (Simulation.lastHovered mouseX mouseY objects).
Qed.

(** Where [find] stops in the reversed list. *)
Lemma find_rev_split (f : Obj -> bool) (objects : list Obj) :
  match find f (rev objects) with
  | Some obj =>
      exists before after,
        objects = before ++ obj :: after
        /\ f obj = true /\ Forall (fun o => f o = false) after
  | None => Forall (fun o => f o = false) objects
  end.
Proof.
  induction objects as [|o objects IH]; cbn [rev find]; [constructor|].
  rewrite find_app. destruct (find f (rev objects)) as [obj|].
  - destruct IH as (before & after & -> & Hobj & Hafter).
    now exists (o :: before), after.
  - cbn [find]. destruct (f o) eqn:Ho.
    + now exists [], objects.
    + now constructor.
Qed.

(** C1, as the code has it: the tooltip is made from the last object, in
    the order the objects are visited, whose screen position is at a
    distance below 20 pixels from the pointer (the object need not be the
    nearest one), and there is no tooltip when no object is that near. *)
Theorem hover_returns_last_within_radius (objects : list Obj) :
  match Simulation.hoveredObject mouseX mouseY objects with
  | Some tip =>
      exists before obj after,
        objects = before ++ obj :: after
        /\ Simulation.withinRadius mouseX mouseY obj
        /\ Forall (fun o => ~ Simulation.withinRadius mouseX mouseY o) after
        /\ tip = Simulation.tooltipOf mouseX mouseY obj
  | None =>
      Forall (fun o => ~ Simulation.withinRadius mouseX mouseY o) objects
  end.
Proof.
  rewrite hoveredObject_last. unfold Simulation.lastHovered.
  pose proof (find_rev_split (Simulation.isHovered mouseX mouseY) objects)
    as Hsplit.
  destruct (find (Simulation.isHovered mouseX mouseY) (rev objects))
    as [obj|]; cbn [option_map].
  - destruct Hsplit as (before & after & Heq & Hobj & Hafter).
    exists before, obj, after.
    split; [exact Heq|]. split; [now apply isHovered_spec|].
    split; [|reflexivity].
    eapply Forall_impl; [|exact Hafter].
    intros o Ho. now apply isHovered_false.
  - eapply Forall_impl; [|exact Hsplit].
    intros o Ho. now apply isHovered_false.
Qed.

End Hover.

(** In a frame the tooltip is resolved on the objects as updated by the
    frame, each with the trail and position of [updateObject]. *)
Lemma draw_frame {Satrec : Type} (satellite : option (SatelliteJS.t Satrec))
      (width height mouseX mouseY : R) (now : Z)
      (debrisObjects : list (DebrisObject.t Satrec)) :
  Simulation.draw satellite width height mouseX mouseY now debrisObjects
  = (map (Simulation.updateObject satellite width height now) debrisObjects,
     Simulation.lastHovered
       mouseX mouseY
       (map (Simulation.updateObject satellite width height now)
            debrisObjects)).
Proof. unfold Simulation.draw. now rewrite hoveredObject_last. Qed.

(** Hover test of a placed object, by the squared distance. *)
Lemma isHovered_placed (mouseX mouseY : R) (name : string) (x y : R) :
  Simulation.isHovered mouseX mouseY (Samples.placed name x y)
  = if Rlt_dec ((x - mouseX) * (x - mouseX) + (y - mouseY) * (y - mouseY))
               400
    then true else false.
Proof.
  unfold Simulation.isHovered, Samples.placed, dist, ltb.
  cbn [DebrisObject.currentPos Position.x Position.y].
  assert (Hnn : 0 <= (x - mouseX) * (x - mouseX)
                     + (y - mouseY) * (y - mouseY)).
  { apply Rplus_le_le_0_compat; apply Rle_0_sqr. }
  destruct (Rlt_dec (sqrt _) 20) as [H|H], (Rlt_dec _ 400) as [H'|H'];
    try reflexivity; apply sqrt_lt_20 in Hnn; tauto.
Qed.

Ltac decide_hover :=
  rewrite ?isHovered_placed;
  repeat match goal with
         | |- context [Rlt_dec ?a ?b] =>
             destruct (Rlt_dec a b); [try lra | try lra]
         end.

(** Two objects under the pointer: the tooltip is the one of the second,
    not of the first. *)
Lemma hover_not_first :
  let objects := [Samples.placed "A" 105 100; Samples.placed "B" 100 105] in
  Simulation.hoveredObject 100 100 objects
  = Some (Simulation.tooltipOf 100 100 (Samples.placed "B" 100 105))
  /\ Simulation.firstHovered 100 100 objects
     = Some (Simulation.tooltipOf 100 100 (Samples.placed "A" 105 100))
  /\ Simulation.hoveredObject 100 100 objects
     <> Simulation.firstHovered 100 100 objects.
Proof.
  cbv zeta.
  assert (H1 : Simulation.hoveredObject
                 100 100
                 [Samples.placed "A" 105 100; Samples.placed "B" 100 105]
               = Some (Simulation.tooltipOf 100 100
                                            (Samples.placed "B" 100 105))).
  { unfold Simulation.hoveredObject. cbn [fold_left].
    decide_hover; try reflexivity. }
  assert (H2 : Simulation.firstHovered
                 100 100
                 [Samples.placed "A" 105 100; Samples.placed "B" 100 105]
               = Some (Simulation.tooltipOf 100 100
                                            (Samples.placed "A" 105 100))).
  { unfold Simulation.firstHovered. cbn [find].
    decide_hover; try reflexivity. }
  split; [exact H1|]. split; [exact H2|].
  rewrite H1, H2. intros H.
  apply (f_equal (option_map TooltipData.name)) in H. discriminate H.
Qed.

(** The scenario of the specification: the near object is found, and
    nothing is found once the pointer is away from both objects. *)
Example hover_scenario :
  let objects := [Samples.placed "A" 105 100; Samples.placed "B" 300 300] in
  Simulation.hoveredObject 100 100 objects
  = Some (Simulation.tooltipOf 100 100 (Samples.placed "A" 105 100))
  /\ Simulation.hoveredObject 500 500 objects = None.
Proof.
  cbv zeta. unfold Simulation.hoveredObject. cbn [fold_left].
  split; decide_hover; try reflexivity.
Qed.

End HoverFacts.

(** ** Trail buffer *)

Module TrailFacts.

Local Open Scope Z_scope.

Lemma map_filter {A B : Type} (f : A -> B) (g : B -> bool) (l : list A) :
  map f (filter (fun a => g (f a)) l) = filter g (map f l).
Proof.
  induction l as [|a l IH]; simpl; [reflexivity|].
  destruct (g (f a)); simpl; now rewrite IH.
Qed.

Section Sorted.

Variable A : Type.
Variable rel : A -> A -> Prop.

Lemma sorted_filter (f : A -> bool) (l : list A) :
  StronglySorted rel l -> StronglySorted rel (filter f l).
Proof.
  induction 1 as [|a l Hl IH Ha]; simpl; [constructor|].
  destruct (f a); [|exact IH].
  constructor; [exact IH|].
  apply Forall_forall. intros b Hb. apply filter_In in Hb.
  rewrite Forall_forall in Ha. now apply Ha.
Qed.

Lemma sorted_snoc (l : list A) (x : A) :
  StronglySorted rel l -> Forall (fun a => rel a x) l ->
  StronglySorted rel (l ++ [x]).
Proof.
  induction 1 as [|a l Hl IH Ha]; intros Hx; simpl.
  - repeat constructor.
  - inversion Hx as [|? ? Hax Hlx]; subst.
    constructor; [now apply IH|].
    apply Forall_app. split; [exact Ha | now constructor].
Qed.

Lemma sorted_snoc_inv (l : list A) (x : A) :
  StronglySorted rel (l ++ [x]) -> Forall (fun a => rel a x) l.
Proof.
  induction l as [|a l IH]; simpl; intros H; [constructor|].
  inversion H as [|? ? Hl Ha]; subst.
  apply Forall_app in Ha. destruct Ha as [_ Hax].
  inversion Hax; subst. constructor; [assumption | now apply IH].
Qed.

End Sorted.

(** The sample appended last, when there is one. *)
Lemma lastTimestamp_Some (positions : list PositionSample.t) (l : Z) :
  Simulation.lastTimestamp positions = Some l ->
  exists init s,
    positions = init ++ [s] /\ PositionSample.timestamp s = l.
Proof.
  unfold Simulation.lastTimestamp. intros H.
  destruct (rev positions) as [|s r] eqn:Hrev; [discriminate|].
  injection H as H. exists (rev r), s. split; [|exact H].
  rewrite <- (rev_involutive positions), Hrev. reflexivity.
Qed.

Lemma lastTimestamp_None (positions : list PositionSample.t) :
  Simulation.lastTimestamp positions = None -> positions = [].
Proof.
  unfold Simulation.lastTimestamp. intros H.
  destruct (rev positions) as [|s r] eqn:Hrev; [|discriminate].
  rewrite <- (rev_involutive positions), Hrev. reflexivity.
Qed.

(** In a trail in order, a bound on the last timestamp bounds them
    all. *)
Lemma bounded_by_last (rel : Z -> Z -> Prop) (le : Z -> Z -> Prop)
      (Htrans : forall a b c, rel a b -> le b c -> le a c)
      (positions : list PositionSample.t) (now : Z) :
  StronglySorted rel (Simulation.timestamps positions) ->
  (forall l, Simulation.lastTimestamp positions = Some l -> le l now) ->
  Forall (fun t => le t now) (Simulation.timestamps positions).
Proof.
  intros Hsorted Hlast.
  destruct (Simulation.lastTimestamp positions) as [l|] eqn:Hl.
  - destruct (lastTimestamp_Some _ _ Hl) as (init & s & -> & Hs).
    unfold Simulation.timestamps in *. rewrite map_app in *.
    cbn [map] in *. rewrite Hs in *.
    apply Forall_app. split; [|repeat constructor; now apply Hlast].
    apply sorted_snoc_inv in Hsorted.
    eapply Forall_impl; [|exact Hsorted].
    intros a Ha. eapply Htrans; [exact Ha | now apply Hlast].
  - apply lastTimestamp_None in Hl. subst. constructor.
Qed.

Section Tick.

Context {Satrec : Type}.
Variable satellite : option (SatelliteJS.t Satrec).
Variables width height : R.
Variable now : Z.
Variable obj : DebrisObject.t Satrec.

(** The trail after a frame: the old samples and one sample stamped
    [now], filtered by the cutoff. *)
Lemma updateObject_positions :
  exists sample,
    PositionSample.timestamp sample = now
    /\ DebrisObject.positions
         (Simulation.updateObject satellite width height now obj)
       = filter (fun pos => PositionSample.timestamp pos >? now - 90000)
                (DebrisObject.positions obj ++ [sample]).
Proof.
  unfold Simulation.updateObject, Simulation.latLonToXY, JS.push.
  cbn [DebrisObject.positions].
  eexists. split; [|reflexivity]. reflexivity.
Qed.

Lemma updateObject_timestamps :
  Simulation.timestamps
    (DebrisObject.positions
       (Simulation.updateObject satellite width height now obj))
  = filter (fun t => t >? now - 90000)
           (Simulation.timestamps (DebrisObject.positions obj) ++ [now]).
Proof.
  destruct updateObject_positions as (sample & Hs & ->).
  unfold Simulation.timestamps.
  rewrite (map_filter PositionSample.timestamp
                      (fun t => t >? now - 90000)).
  now rewrite map_app, <- Hs.
Qed.

(** C5, as the code has it: after the sample of the frame is pushed and
    the trail is filtered, every sample kept is younger than 90000 ms
    (so at most 90000 ms old); the sample of the frame is always kept and
    is the last one, whatever the earlier timestamps are; a trail in
    non-decreasing order stays so when [now] is not below its last
    timestamp, and a strictly ascending trail stays so when [now] is above
    its last timestamp. *)
Theorem trail_after_tick :
  let trail := DebrisObject.positions obj in
  let trail' :=
    DebrisObject.positions
      (Simulation.updateObject satellite width height now obj) in
  Forall (fun s => now - PositionSample.timestamp s < 90000
                   /\ now - PositionSample.timestamp s <= 90000) trail'
  /\ Simulation.lastTimestamp trail' = Some now
  /\ (Simulation.ascending trail ->
      (forall l, Simulation.lastTimestamp trail = Some l -> l <= now) ->
      Simulation.ascending trail')
  /\ (Simulation.strictlyAscending trail ->
      (forall l, Simulation.lastTimestamp trail = Some l -> l < now) ->
      Simulation.strictlyAscending trail').
Proof.
  cbv zeta. repeat split.
  - destruct updateObject_positions as (sample & Hs & ->).
    apply Forall_forall. intros s Hin. apply filter_In in Hin.
    destruct Hin as [_ Hin]. apply Z.gtb_lt in Hin. lia.
  - destruct updateObject_positions as (sample & Hs & ->).
    rewrite filter_app. cbn [filter]. rewrite Hs.
    replace (now >? now - 90000) with true by (symmetry; apply Z.gtb_lt; lia).
    unfold Simulation.lastTimestamp. rewrite rev_app_distr. cbn.
    now rewrite Hs.
  - intros Hsorted Hlast. unfold Simulation.ascending.
    rewrite updateObject_timestamps.
    apply sorted_filter, sorted_snoc; [exact Hsorted|].
    apply (bounded_by_last Z.le Z.le Z.le_trans); assumption.
  - intros Hsorted Hlast. unfold Simulation.strictlyAscending.
    rewrite updateObject_timestamps.
    apply sorted_filter, sorted_snoc; [exact Hsorted|].
    apply (bounded_by_last Z.lt Z.lt Z.lt_trans); assumption.
Qed.

End Tick.

Lemma trail_after_tick_witness :
  let obj' := Simulation.updateObject (@None (SatelliteJS.t unit))
                                      800 600 3000
                                      (Samples.trailed [1000; 2000]) in
  Simulation.strictlyAscending (DebrisObject.positions obj')
  /\ Simulation.lastTimestamp (DebrisObject.positions obj') = Some 3000.
Proof.
  destruct (trail_after_tick (@None (SatelliteJS.t unit)) 800 600 3000
                             (Samples.trailed [1000; 2000]))
    as (_ & Hlast & _ & Hstrict).
  split; [|exact Hlast]. apply Hstrict.
  - unfold Simulation.strictlyAscending. cbn.
    repeat constructor; lia.
  - cbn. intros l [= <-]. lia.
Defined.

(** A frame whose time equals the last timestamp of the trail: the time
    is not below the last timestamp, and the trail is no longer strictly
    ascending. *)
Lemma equal_timestamp_not_strict :
  let obj := Samples.trailed [1000] in
  let obj' := Simulation.updateObject (@None (SatelliteJS.t unit))
                                      800 600 1000 obj in
  Simulation.strictlyAscending (DebrisObject.positions obj)
  /\ Simulation.lastTimestamp (DebrisObject.positions obj) = Some 1000
  /\ 1000 <= 1000
  /\ ~ Simulation.strictlyAscending (DebrisObject.positions obj').
Proof.
  cbv zeta. split; [|split; [|split]].
  - unfold Simulation.strictlyAscending. cbn. repeat constructor.
  - reflexivity.
  - lia.
  - unfold Simulation.strictlyAscending.
    rewrite updateObject_timestamps. cbn. intros H.
    inversion H as [|? ? _ Hall]; subst.
    inversion Hall as [|? ? Hlt _]; subst. lia.
Qed.

(** A frame whose time is below the last timestamp, as after a clock
    adjustment: the sample is appended all the same. *)
Example out_of_order_sample_accepted :
  Simulation.timestamps
    (DebrisObject.positions
       (Simulation.updateObject (@None (SatelliteJS.t unit)) 800 600 1500
                                (Samples.trailed [1000; 2000])))
  = [1000; 2000; 1500].
Proof. rewrite updateObject_timestamps. reflexivity. Qed.

End TrailFacts.

(** ** Position propagator: the fallback path *)

Module PropagatorFacts.

Import Num.
Local Open Scope string_scope.
Local Open Scope R_scope.

(** The remainder of a non-negative number by a positive one lies in
    [0, y). *)
Lemma rem_bounds (x y : R) : 0 <= x -> 0 < y -> 0 <= rem x y < y.
Proof.
  intros Hx Hy. unfold rem, trunc.
  assert (Hq : 0 <= x / y).
  { unfold Rdiv. apply Rmult_le_pos; [exact Hx|].
    left. now apply Rinv_0_lt_compat. }
  destruct (Rle_dec 0 (x / y)) as [_|Hn]; [|contradiction].
  destruct (base_Int_part (x / y)) as [Hlo Hhi].
  assert (Hxy : x / y * y = x) by (field; lra).
  set (k := IZR (Int_part (x / y))) in *.
  assert (H1 : k * y <= x / y * y) by (apply Rmult_le_compat_r; lra).
  assert (H2 : x / y * y < (k + 1) * y) by (apply Rmult_lt_compat_r; lra).
  lra.
Qed.

(** A negative number above [-y] is its own remainder. *)
Lemma rem_small_negative (x y : R) : 0 < y -> - y < x < 0 -> rem x y = x.
Proof.
  intros Hy [Hlo Hhi]. unfold rem, trunc.
  assert (Hinv : 0 < / y) by now apply Rinv_0_lt_compat.
  assert (Hq : -1 < x / y < 0).
  { unfold Rdiv. split.
    - replace (-1) with (- y * / y) by (field; lra).
      apply Rmult_lt_compat_r; lra.
    - replace 0 with (0 * / y) by ring.
      apply Rmult_lt_compat_r; lra. }
  destruct (Rle_dec 0 (x / y)) as [Hge|_]; [lra|].
  rewrite <- (Int_part_spec (- (x / y)) 0) by (simpl; lra).
  simpl. ring.
Qed.

(** For non-negative operands the remainder is the mathematical
    modulus: [x - y * floor (x / y)] on the reals, [Z.modulo] on the
    integers. *)
Lemma rem_nonneg_modulus (x y : R) (id : Z) :
  0 <= x -> 0 < y -> (0 <= id)%Z ->
  rem x y = x - y * IZR (Int_part (x / y))
  /\ Z.rem id 360 = (id mod 360)%Z.
Proof.
  intros Hx Hy Hid. split.
  - unfold rem, trunc.
    destruct (Rle_dec 0 (x / y)) as [_|Hn]; [reflexivity|].
    exfalso. apply Hn. unfold Rdiv. apply Rmult_le_pos; [exact Hx|].
    left. now apply Rinv_0_lt_compat.
  - apply Z.rem_mod_nonneg; lia.
Qed.

Lemma categoryFactors_eq (category : string) :
  Simulation.categoryFactors category
  = if String.eqb category "Debris" then (1.3, 1.8)
    else if String.eqb category "Satellite" then (0.7, 0.6)
    else (1, 1).
Proof.
  unfold Simulation.categoryFactors, Simulation.factorTable. cbn [find fst].
  rewrite (String.eqb_sym "Debris"), (String.eqb_sym "Satellite").
  destruct (String.eqb category "Debris"); [reflexivity|].
  now destruct (String.eqb category "Satellite").
Qed.

(** The factors are positive and the inclination factor is at most
    1.8. *)
Lemma categoryFactors_bounds (category : string) :
  0 < fst (Simulation.categoryFactors category)
  /\ 0 < snd (Simulation.categoryFactors category) <= 1.8.
Proof.
  rewrite categoryFactors_eq.
  destruct (String.eqb category "Debris");
    [|destruct (String.eqb category "Satellite")]; cbn [fst snd]; lra.
Qed.

Section Fallback.

Context {Satrec : Type}.
Variable satellite : option (SatelliteJS.t Satrec).

Lemma primaryPosition_no_elements (obj : DebrisObject.t Satrec) (date : Z) :
  DebrisObject.satrec obj = None ->
  Simulation.primaryPosition satellite obj date = None.
Proof. unfold Simulation.primaryPosition. now intros ->. Qed.

Lemma fallbackPosition_eq (obj : DebrisObject.t Satrec) (date id : Z) :
  Text.parseInt (DebrisObject.noradId obj) = Some id ->
  Simulation.fallbackPosition obj date
  = let '(speedMultiplier, inclinationFactor) :=
      Simulation.categoryFactors (DebrisObject.category obj) in
    let t := IZR date / 1000 * 0.001 * speedMultiplier in
    let phase := IZR (Z.rem id 360) * (PI / 180) in
    (Some (sin (t + phase) * 50 * inclinationFactor),
     Some (rem (t * 2.5 + phase) (2 * PI) * (180 / PI) - 180)).
Proof.
  intros Hid. unfold Simulation.fallbackPosition. rewrite Hid.
  rewrite categoryFactors_eq.
  destruct (String.eqb (DebrisObject.category obj) "Debris");
    [|destruct (String.eqb (DebrisObject.category obj) "Satellite")];
    reflexivity.
Qed.


Lemma calculatePosition_fallback (obj : DebrisObject.t Satrec) (date : Z) :
  DebrisObject.satrec obj = None
  \/ Simulation.primaryPosition satellite obj date = None ->
  Simulation.calculatePosition satellite obj date
  = Simulation.fallbackPosition obj date.
Proof.
  intros H. unfold Simulation.calculatePosition.
  assert (Hp : Simulation.primaryPosition satellite obj date = None).
  { destruct H as [H|H]; [now apply primaryPosition_no_elements | exact H]. }
  now rewrite Hp.
Qed.


(** C9, as the code has it: when the catalog number reads as a
    non-negative integer and the date is not before the epoch, the
    fallback position has -90 <= lat <= 90 and -180 <= lon < 180, for
    every category. *)
Theorem fallback_in_range (obj : DebrisObject.t Satrec) (date id : Z) :
  DebrisObject.satrec obj = None
  \/ Simulation.primaryPosition satellite obj date = None ->
  Text.parseInt (DebrisObject.noradId obj) = Some id ->
  (0 <= id)%Z ->
  (0 <= date)%Z ->
  exists lat lon : R,
    Simulation.calculatePosition satellite obj date = (Some lat, Some lon)
    /\ -90 <= lat <= 90
    /\ -180 <= lon < 180.
Proof.
  intros Hfb Hid Hnn Hdate.
  rewrite calculatePosition_fallback by assumption.
  pose proof (fallbackPosition_eq obj date id Hid) as Heq.
  pose proof (categoryFactors_bounds (DebrisObject.category obj)) as Hf.
  destruct (Simulation.categoryFactors (DebrisObject.category obj))
    as [speed incl]. cbn [fst snd] in Hf. cbv beta iota zeta in Heq.
  rewrite Heq. eexists. eexists. split; [reflexivity|].
  set (t := IZR date / 1000 * 0.001 * speed).
  set (phase := IZR (Z.rem id 360) * (PI / 180)).
  pose proof PI_RGT_0 as Hpi.
  assert (Hinv : 0 < / PI) by now apply Rinv_0_lt_compat.
  split.
  - pose proof (SIN_bound (t + phase)) as [Hlo Hhi].
    set (v := sin (t + phase)) in *.
    assert (H1 : v * 50 * incl <= 1 * 50 * 1.8).
    { destruct (Rle_dec 0 v) as [Hv|Hv].
      - apply Rmult_le_compat; lra.
      - apply Rle_trans with 0; [|lra].
        assert (0 <= (- v) * 50 * incl)
          by (apply Rmult_le_pos; [apply Rmult_le_pos|]; lra).
        lra. }
    assert (H2 : - (1 * 50 * 1.8) <= v * 50 * incl).
    { destruct (Rle_dec 0 v) as [Hv|Hv].
      - apply Rle_trans with 0; [lra|].
        apply Rmult_le_pos; [apply Rmult_le_pos|]; lra.
      - assert ((- v) * 50 * incl <= 1 * 50 * 1.8)
          by (apply Rmult_le_compat;
              [apply Rmult_le_pos| | |]; lra).
        lra. }
    lra.
  - assert (Ht : 0 <= t).
    { unfold t. apply IZR_le in Hdate.
      apply Rmult_le_pos; [apply Rmult_le_pos|]; lra. }
    assert (Hphase : 0 <= phase).
    { unfold phase. apply Rmult_le_pos.
      - apply IZR_le. apply Z.rem_nonneg; lia.
      - unfold Rdiv. apply Rmult_le_pos; lra. }
    destruct (rem_bounds (t * 2.5 + phase) (2 * PI)) as [Hlo Hhi];
      [lra | lra |].
    set (r := rem (t * 2.5 + phase) (2 * PI)) in *.
    assert (Hr : r * (180 / PI) = 180 * (r * / PI)) by (field; lra).
    assert (H0 : 0 <= r * / PI) by (apply Rmult_le_pos; lra).
    assert (H2 : r * / PI < 2).
    { replace 2 with (2 * PI * / PI) by (field; lra).
      apply Rmult_lt_compat_r; lra. }
    rewrite Hr. lra.
Qed.

End Fallback.


Lemma fallback_in_range_witness :
  exists lat lon : R,
    Simulation.calculatePosition (Some Samples.stubLibrary)
                                 Samples.cosmosDeb1 1700000000000
    = (Some lat, Some lon)
    /\ -90 <= lat <= 90 /\ -180 <= lon < 180.
Proof.
  apply (fallback_in_range (Some Samples.stubLibrary) Samples.cosmosDeb1
                           1700000000000 40001);
    [left; reflexivity | reflexivity | lia | lia].
Defined.

(** A record whose catalog field reads as -5 is parsed and kept; its
    element set does not propagate, and at the epoch its fallback
    longitude is -185 degrees. *)
Lemma negative_catalog_number_out_of_range :
  Simulation.parseTLEData (Some Samples.stubLibrary) Samples.negativeIdText
                          Simulation.recent
  = [Samples.negativeId]
  /\ Text.parseInt (DebrisObject.noradId Samples.negativeId) = Some (-5)%Z
  /\ exists lat lon : R,
      Simulation.calculatePosition (Some Samples.stubLibrary)
                                   Samples.negativeId 0
      = (Some lat, Some lon)
      /\ lon = -185 /\ ~ (-180 <= lon < 180).
Proof.
  split; [reflexivity|]. split; [reflexivity|].
  assert (H : Simulation.calculatePosition (Some Samples.stubLibrary)
                                           Samples.negativeId 0
              = (Some (sin (0 / 1000 * 0.001 * 1.3 + -5 * (PI / 180))
                       * 50 * 1.8),
                 Some (rem (0 / 1000 * 0.001 * 1.3 * 2.5 + -5 * (PI / 180))
                           (2 * PI) * (180 / PI) - 180)))
    by reflexivity.
  rewrite H. eexists. eexists. split; [reflexivity|].
  pose proof PI_RGT_0 as Hpi.
  assert (Hlon : rem (0 / 1000 * 0.001 * 1.3 * 2.5 + -5 * (PI / 180))
                     (2 * PI) * (180 / PI) - 180 = -185).
  { rewrite rem_small_negative by lra. field. lra. }
  split; [exact Hlon|]. rewrite Hlon. lra.
Qed.

(** An identifier that does not read as a number gives [NaN]
    coordinates. *)
Example alphanumeric_catalog_number_NaN :
  Simulation.calculatePosition
    (Some Samples.stubLibrary)
    (Samples.simulated "OBJECT" "A1234" "Debris" "2024" "USA") 0
  = (NaN, NaN).
Proof. reflexivity. Qed.

End PropagatorFacts.

(** ** Screen projection and simulated data *)

Module ScreenFacts.

Import Num.
Local Open Scope string_scope.
Local Open Scope R_scope.

Lemma earthRadius_bounds (width height : R) :
  0 <= width -> 0 <= height ->
  0 <= Rmin width height * 0.35
  /\ Rmin width height * 0.35 <= 0.35 * width
  /\ Rmin width height * 0.35 <= 0.35 * height.
Proof.
  intros Hw Hh.
  pose proof (Rmin_l width height). pose proof (Rmin_r width height).
  assert (0 <= Rmin width height) by now apply Rmin_glb.
  lra.
Qed.

Lemma latLonToXY_finite (lat lon width height : R) :
  Simulation.latLonToXY (Some lat) (Some lon) width height
  = (Some (width / 2 + lon / 180 * (Rmin width height * 0.35)),
     Some (height / 2 - lat / 90 * (Rmin width height * 0.35))).
Proof. reflexivity. Qed.

Lemma scaled_offset_bounds (v bound e : R) :
  0 < bound -> - bound <= v <= bound -> 0 <= e ->
  - e <= v / bound * e <= e.
Proof.
  intros Hb Hv He.
  assert (Hq : -1 <= v / bound <= 1).
  { unfold Rdiv. assert (0 < / bound) by now apply Rinv_0_lt_compat.
    split.
    - replace (-1) with (- bound * / bound) by (field; lra).
      apply Rmult_le_compat_r; lra.
    - replace 1 with (bound * / bound) by (field; lra).
      apply Rmult_le_compat_r; lra. }
  set (q := v / bound) in *. nra.
Qed.

Lemma latLonToXY_bounds (lat lon width height : R) :
  0 <= width -> 0 <= height ->
  -90 <= lat <= 90 -> -180 <= lon <= 180 ->
  exists x y : R,
    Simulation.latLonToXY (Some lat) (Some lon) width height
    = (Some x, Some y)
    /\ - (Rmin width height * 0.35) <= x - width / 2
       <= Rmin width height * 0.35
    /\ - (Rmin width height * 0.35) <= y - height / 2
       <= Rmin width height * 0.35
    /\ 0.15 * width <= x <= 0.85 * width
    /\ 0.15 * height <= y <= 0.85 * height.
Proof.
  intros Hw Hh Hlat Hlon.
  rewrite latLonToXY_finite. eexists. eexists. split; [reflexivity|].
  destruct (earthRadius_bounds width height Hw Hh) as (He & Hew & Heh).
  set (e := Rmin width height * 0.35) in *.
  pose proof (scaled_offset_bounds lon 180 e) as Hx.
  pose proof (scaled_offset_bounds lat 90 e) as Hy.
  lra.
Qed.

(** The fallback position of an object whose catalog field reads as a
    non-negative number, at a date not before the epoch. *)
Lemma fallbackPosition_range {Satrec : Type} (obj : DebrisObject.t Satrec)
      (date id : Z) :
  Text.parseInt (DebrisObject.noradId obj) = Some id ->
  (0 <= id)%Z -> (0 <= date)%Z ->
  exists lat lon : R,
    Simulation.fallbackPosition obj date = (Some lat, Some lon)
    /\ -90 <= lat <= 90 /\ -180 <= lon < 180.
Proof.
  intros Hid Hnn Hdate.
  pose proof (PropagatorFacts.fallbackPosition_eq obj date id Hid) as Heq.
  pose proof (PropagatorFacts.categoryFactors_bounds
                (DebrisObject.category obj)) as Hf.
  destruct (Simulation.categoryFactors (DebrisObject.category obj))
    as [speed incl]. cbn [fst snd] in Hf. cbv beta iota zeta in Heq.
  rewrite Heq. eexists. eexists. split; [reflexivity|].
  set (t := IZR date / 1000 * 0.001 * speed).
  set (phase := IZR (Z.rem id 360) * (PI / 180)).
  pose proof PI_RGT_0 as Hpi.
  assert (Hinv : 0 < / PI) by now apply Rinv_0_lt_compat.
  split.
  - pose proof (SIN_bound (t + phase)) as [Hlo Hhi].
    set (v := sin (t + phase)) in *.
    assert (Hv : -50 <= v * 50 <= 50) by lra.
    set (u := v * 50) in *. nra.
  - assert (Ht : 0 <= t).
    { unfold t. apply IZR_le in Hdate.
      apply Rmult_le_pos; [apply Rmult_le_pos|]; lra. }
    assert (Hphase : 0 <= phase).
    { unfold phase. apply Rmult_le_pos.
      - apply IZR_le. apply Z.rem_nonneg; lia.
      - unfold Rdiv. apply Rmult_le_pos; lra. }
    destruct (PropagatorFacts.rem_bounds (t * 2.5 + phase) (2 * PI))
      as [Hlo Hhi]; [lra | lra |].
    set (r := rem (t * 2.5 + phase) (2 * PI)) in *.
    assert (Hr : r * (180 / PI) = 180 * (r * / PI)) by (field; lra).
    assert (H0 : 0 <= r * / PI) by (apply Rmult_le_pos; lra).
    assert (H2 : r * / PI < 2).
    { replace 2 with (2 * PI * / PI) by (field; lra).
      apply Rmult_lt_compat_r; lra. }
    rewrite Hr. lra.
Qed.

(** X1: a latitude in -90..90 and a longitude in -180..180 are drawn inside
    the square of half-side [earthRadius] around the centre of the canvas,
    hence between 15% and 85% of its width and height; a [NaN] coordinate
    stays [NaN]. *)
Theorem screen_projection_in_canvas (lat lon width height : R) :
  0 <= width -> 0 <= height ->
  -90 <= lat <= 90 -> -180 <= lon <= 180 ->
  (exists x y : R,
      Simulation.latLonToXY (Some lat) (Some lon) width height
      = (Some x, Some y)
      /\ - (Rmin width height * 0.35) <= x - width / 2
         <= Rmin width height * 0.35
      /\ - (Rmin width height * 0.35) <= y - height / 2
         <= Rmin width height * 0.35
      /\ 0.15 * width <= x <= 0.85 * width
      /\ 0.15 * height <= y <= 0.85 * height)
  /\ Simulation.latLonToXY NaN NaN width height = (NaN, NaN)
  /\ Simulation.latLonToXY (Some 0) (Some 0) width height
     = (Some (width / 2), Some (height / 2)).
Proof.
  intros Hw Hh Hlat Hlon.
  split; [now apply latLonToXY_bounds | split; [reflexivity|]].
  rewrite latLonToXY_finite. f_equal; f_equal; lra.
Qed.

Lemma screen_projection_in_canvas_witness :
  exists x y : R,
    Simulation.latLonToXY (Some 45) (Some (-120)) 800 600 = (Some x, Some y)
    /\ 0.15 * 800 <= x <= 0.85 * 800
    /\ 0.15 * 600 <= y <= 0.85 * 600.
Proof.
  destruct (screen_projection_in_canvas 45 (-120) 800 600)
    as [(x & y & Heq & _ & _ & Hx & Hy) _]; try lra.
  exists x, y. repeat split; (exact Heq || lra).
Defined.



End ScreenFacts.

(** ** Simulated data, counters and frames *)

Module LoaderFacts.

Import Num.
Local Open Scope string_scope.
Local Open Scope list_scope.

Lemma simulated_checked {Satrec : Type} (source : Simulation.DataSource) :
  forallb Loader.wellFormedSimulated
          (@Loader.generateSimulatedDebris Satrec source) = true.
Proof. destruct source; vm_compute; reflexivity. Qed.

Lemma wellFormedSimulated_spec {Satrec : Type}
      (obj : DebrisObject.t Satrec) :
  Loader.wellFormedSimulated obj = true ->
  DebrisObject.satrec obj = None
  /\ DebrisObject.positions obj = []
  /\ (exists id, Text.parseInt (DebrisObject.noradId obj) = Some id
                 /\ (0 <= id)%Z)
  /\ DebrisObject.category obj
     = fst (Simulation.classify (DebrisObject.name obj))
  /\ In (DebrisObject.category obj) ["Debris"; "Satellite"; "Rocket Body"].
Proof.
  unfold Loader.wellFormedSimulated.
  destruct (DebrisObject.satrec obj); [discriminate|].
  destruct (DebrisObject.positions obj); [|discriminate].
  destruct (Text.parseInt (DebrisObject.noradId obj)) as [id|];
    [|discriminate].
  intros H. apply andb_prop in H. destruct H as [H Hu].
  apply andb_prop in H. destruct H as [Hid Hc].
  apply Z.leb_le in Hid. apply String.eqb_eq in Hc.
  apply negb_true_iff, String.eqb_neq in Hu.
  repeat split; try reflexivity; [now exists id | exact Hc |].
  destruct (ClassifierFacts.simulation_classify_spec (DebrisObject.name obj))
    as [Hin _].
  rewrite <- Hc in Hin. cbn in Hin. cbn.
  destruct Hin as [H|[H|[H|[H|[]]]]]; auto; symmetry in H; contradiction.
Qed.

Lemma simulated_spec {Satrec : Type} (source : Simulation.DataSource)
      (obj : DebrisObject.t Satrec) :
  In obj (Loader.generateSimulatedDebris source) ->
  DebrisObject.satrec obj = None
  /\ DebrisObject.positions obj = []
  /\ (exists id, Text.parseInt (DebrisObject.noradId obj) = Some id
                 /\ (0 <= id)%Z)
  /\ DebrisObject.category obj
     = fst (Simulation.classify (DebrisObject.name obj))
  /\ In (DebrisObject.category obj) ["Debris"; "Satellite"; "Rocket Body"].
Proof.
  intros Hin. apply wellFormedSimulated_spec.
  pose proof (simulated_checked (Satrec := Satrec) source) as H.
  rewrite forallb_forall in H. now apply H.
Qed.

(** X3: the simulated objects agree with the parser's conventions: each has
    no element set and an empty trail, a catalog field that reads as a
    non-negative number, and the category that the classifier gives to its
    name, which is never Unknown; the catalog fields are pairwise different;
    there are 12 objects for the COSMOS source and 18 otherwise. *)
Theorem simulated_objects_consistent {Satrec : Type}
        (source : Simulation.DataSource) :
  Forall (fun obj : DebrisObject.t Satrec =>
            DebrisObject.satrec obj = None
            /\ DebrisObject.positions obj = []
            /\ (exists id,
                   Text.parseInt (DebrisObject.noradId obj) = Some id
                   /\ (0 <= id)%Z)
            /\ DebrisObject.category obj
               = fst (Simulation.classify (DebrisObject.name obj))
            /\ In (DebrisObject.category obj)
                  ["Debris"; "Satellite"; "Rocket Body"])
         (Loader.generateSimulatedDebris source)
  /\ NoDup (map DebrisObject.noradId
                (@Loader.generateSimulatedDebris Satrec source))
  /\ List.length (@Loader.generateSimulatedDebris Satrec source)
     = match source with
       | Simulation.cosmos => 12%nat
       | Simulation.recent => 18%nat
       end.
Proof.
  split; [|split].
  - apply Forall_forall. intros obj Hin. now apply (simulated_spec source).
  - destruct source; vm_compute;
      repeat (constructor; [intros H; cbn in H; intuition discriminate|]);
      constructor.
  - destruct source; reflexivity.
Qed.

End LoaderFacts.

(** ** Frames: positions and trails over time *)

Module FrameFacts.

Import Num.
Local Open Scope string_scope.
Local Open Scope list_scope.
Local Open Scope Z_scope.

Lemma filter_filter_weaker {A : Type} (f g : A -> bool) (l : list A) :
  (forall a, g a = true -> f a = true) ->
  filter g (filter f l) = filter g l.
Proof.
  intros Hgf. induction l as [|a l IH]; simpl; [reflexivity|].
  destruct (f a) eqn:Hf; simpl.
  - now rewrite IH.
  - destruct (g a) eqn:Hg; [|exact IH].
    apply Hgf in Hg. congruence.
Qed.

Lemma sorted_weaken (l : list Z) :
  StronglySorted Z.lt l -> StronglySorted Z.le l.
Proof.
  induction 1 as [|a l Hl IH Ha]; constructor; [exact IH|].
  eapply Forall_impl; [|exact Ha]. intros b Hb. lia.
Qed.

(** A strictly ascending list of integers in an interval is not longer
    than the interval. *)
Lemma ascending_length_bound (l : list Z) :
  StronglySorted Z.lt l ->
  forall lo hi, Forall (fun t => lo < t <= hi) l ->
                Z.of_nat (List.length l) <= Z.max 0 (hi - lo).
Proof.
  induction 1 as [|a l Hl IH Ha]; intros lo hi Hall; [simpl; lia|].
  inversion Hall as [|? ? Hin Hrest]; subst.
  assert (Hl' : Forall (fun t => a < t <= hi) l).
  { rewrite Forall_forall in *. intros t Ht.
    specialize (Ha t Ht). specialize (Hrest t Ht). lia. }
  specialize (IH a hi Hl'). cbn [List.length]. lia.
Qed.

Section Frames.

Context {Satrec : Type}.
Variable satellite : option (SatelliteJS.t Satrec).
Variables width height : R.

Lemma runFrames_map (frames : list (R * R * Z)) :
  forall objects : list (DebrisObject.t Satrec),
    Loader.runFrames satellite width height frames objects
    = map (Loader.runObject satellite width height frames) objects.
Proof.
  unfold Loader.runFrames, Loader.runObject.
  induction frames as [|[[mouseX mouseY] now] frames IH]; intros objects.
  - cbn. now rewrite map_id.
  - cbn [fold_left]. rewrite IH. cbn [Simulation.draw fst].
    now rewrite map_map.
Qed.

Lemma runObject_snoc (frames : list (R * R * Z)) (mouseX mouseY : R)
      (now : Z) (obj : DebrisObject.t Satrec) :
  Loader.runObject satellite width height
                   (frames ++ [(mouseX, mouseY, now)]) obj
  = Simulation.updateObject
      satellite width height now
      (Loader.runObject satellite width height frames obj).
Proof. unfold Loader.runObject. now rewrite fold_left_app. Qed.

(** A frame changes the trail and the current position only. *)
Lemma updateObject_identity (now : Z) (obj : DebrisObject.t Satrec) :
  let obj' := Simulation.updateObject satellite width height now obj in
  DebrisObject.name obj' = DebrisObject.name obj
  /\ DebrisObject.noradId obj' = DebrisObject.noradId obj
  /\ DebrisObject.satrec obj' = DebrisObject.satrec obj
  /\ DebrisObject.category obj' = DebrisObject.category obj
  /\ DebrisObject.launchDate obj' = DebrisObject.launchDate obj
  /\ DebrisObject.country obj' = DebrisObject.country obj.
Proof. repeat split. Qed.

Lemma runObject_identity (frames : list (R * R * Z)) :
  forall obj : DebrisObject.t Satrec,
    let obj' := Loader.runObject satellite width height frames obj in
    DebrisObject.name obj' = DebrisObject.name obj
    /\ DebrisObject.noradId obj' = DebrisObject.noradId obj
    /\ DebrisObject.satrec obj' = DebrisObject.satrec obj
    /\ DebrisObject.category obj' = DebrisObject.category obj
    /\ DebrisObject.launchDate obj' = DebrisObject.launchDate obj
    /\ DebrisObject.country obj' = DebrisObject.country obj.
Proof.
  unfold Loader.runObject.
  induction frames as [|[[mouseX mouseY] now] frames IH]; intros obj.
  - cbn. repeat split.
  - cbn [fold_left].
    specialize (IH (Simulation.updateObject satellite width height now obj)).
    cbv zeta in IH. cbv zeta.
    destruct IH as (H1 & H2 & H3 & H4 & H5 & H6).
    rewrite H1, H2, H3, H4, H5, H6. repeat split.
Qed.

(** The timestamps of a trail after frames at non-decreasing times. *)
Lemma runObject_timestamps (frames : list (R * R * Z)) :
  forall (last : R * R * Z) (obj : DebrisObject.t Satrec),
    StronglySorted Z.le (Loader.frameTimes (frames ++ [last])) ->
    Simulation.timestamps
      (DebrisObject.positions
         (Loader.runObject satellite width height (frames ++ [last]) obj))
    = filter (fun t => t >? snd last - 90000)
             (Simulation.timestamps (DebrisObject.positions obj)
              ++ Loader.frameTimes (frames ++ [last])).
Proof.
  induction frames as [|[[mouseX mouseY] now] frames IH];
    intros [[lastX lastY] tn] obj Hsorted.
  - cbn [app Loader.runObject fold_left Loader.frameTimes map snd].
    apply TrailFacts.updateObject_timestamps.
  - cbn [app Loader.frameTimes map snd] in Hsorted.
    inversion Hsorted as [|? ? Hrest Hall]; subst.
    assert (Hle : now <= tn).
    { rewrite Forall_forall in Hall. apply Hall.
      unfold Loader.frameTimes. rewrite map_app. apply in_or_app.
      right. now left. }
    change (Loader.runObject satellite width height
                             (((mouseX, mouseY, now) :: frames)
                                ++ [(lastX, lastY, tn)]) obj)
      with (Loader.runObject
              satellite width height (frames ++ [(lastX, lastY, tn)])
              (Simulation.updateObject satellite width height now obj)).
    rewrite (IH (lastX, lastY, tn)) by exact Hrest.
    rewrite TrailFacts.updateObject_timestamps.
    cbn [snd app Loader.frameTimes map].
    set (ts := Simulation.timestamps (DebrisObject.positions obj)).
    set (times := map snd (frames ++ [(lastX, lastY, tn)])).
    rewrite (filter_app _ (filter _ (ts ++ [now])) times).
    rewrite filter_filter_weaker.
    + rewrite <- filter_app, <- app_assoc. reflexivity.
    + intros t Ht. apply Z.gtb_lt in Ht. apply Z.gtb_lt. lia.
Qed.

End Frames.

Lemma updateObject_currentPos {Satrec : Type}
      (satellite : option (SatelliteJS.t Satrec)) (width height : R)
      (now : Z) (obj : DebrisObject.t Satrec) :
  DebrisObject.currentPos
    (Simulation.updateObject satellite width height now obj)
  = let pos := Simulation.calculatePosition satellite obj now in
    let xy := Simulation.latLonToXY (fst pos) (snd pos) width height in
    Position.mk (fst xy) (snd xy) (fst pos) (snd pos).
Proof. reflexivity. Qed.

(** X4: after a frame the trail ends with a sample that carries the current
    position and the time of the frame, behind the older samples that are
    younger than 90000 ms; the position is the one computed for the object
    as it was before the frame, and nothing else of the object changes. *)
Theorem newest_sample_is_current_position {Satrec : Type}
        (satellite : option (SatelliteJS.t Satrec)) (width height : R)
        (now : Z) (obj : DebrisObject.t Satrec) :
  let obj' := Simulation.updateObject satellite width height now obj in
  let cur := DebrisObject.currentPos obj' in
  DebrisObject.positions obj'
  = filter (fun pos => PositionSample.timestamp pos >? now - 90000)
           (DebrisObject.positions obj)
    ++ [PositionSample.mk (Position.x cur) (Position.y cur)
                          (Position.lat cur) (Position.lon cur) now]
  /\ (Position.lat cur, Position.lon cur)
     = Simulation.calculatePosition satellite obj now
  /\ (Position.x cur, Position.y cur)
     = Simulation.latLonToXY (Position.lat cur) (Position.lon cur)
                             width height
  /\ DebrisObject.name obj' = DebrisObject.name obj
  /\ DebrisObject.noradId obj' = DebrisObject.noradId obj
  /\ DebrisObject.satrec obj' = DebrisObject.satrec obj
  /\ DebrisObject.category obj' = DebrisObject.category obj.
Proof.
  cbv zeta. split; [|split; [|split]].
  - unfold Simulation.updateObject, Simulation.latLonToXY, JS.push.
    cbn [DebrisObject.positions DebrisObject.currentPos Position.x
         Position.y Position.lat Position.lon].
    rewrite filter_app. cbn [filter PositionSample.timestamp].
    replace (now >? now - 90000) with true
      by (symmetry; apply Z.gtb_lt; lia).
    reflexivity.
  - rewrite updateObject_currentPos. cbn.
    now destruct (Simulation.calculatePosition satellite obj now).
  - rewrite updateObject_currentPos. reflexivity.
  - repeat split.
Qed.

(** X5: after frames at non-decreasing times the objects are the same, in
    the same order, and every trail holds the timestamps of its old samples
    and of the frames that are younger than 90000 ms at the last frame; a
    trail that was empty before the frames holds exactly those frame times,
    in order. *)
Theorem trails_after_frames {Satrec : Type}
        (satellite : option (SatelliteJS.t Satrec)) (width height : R)
        (frames : list (R * R * Z)) (last : R * R * Z)
        (objects : list (DebrisObject.t Satrec)) :
  StronglySorted Z.le (Loader.frameTimes (frames ++ [last])) ->
  let objects' :=
    Loader.runFrames satellite width height (frames ++ [last]) objects in
  map (fun o => Simulation.timestamps (DebrisObject.positions o)) objects'
  = map (fun o =>
           filter (fun t => t >? snd last - 90000)
                  (Simulation.timestamps (DebrisObject.positions o)
                   ++ Loader.frameTimes (frames ++ [last])))
        objects
  /\ map DebrisObject.name objects' = map DebrisObject.name objects
  /\ map DebrisObject.noradId objects' = map DebrisObject.noradId objects
  /\ map DebrisObject.category objects'
     = map DebrisObject.category objects
  /\ (Forall (fun o => DebrisObject.positions o = []) objects ->
      Forall (fun o =>
                Simulation.timestamps (DebrisObject.positions o)
                = filter (fun t => t >? snd last - 90000)
                         (Loader.frameTimes (frames ++ [last]))
                /\ Simulation.ascending (DebrisObject.positions o))
             objects').
Proof.
  intros Hsorted. cbv zeta. rewrite runFrames_map, !map_map.
  split; [|split; [|split; [|split]]].
  - apply map_ext. intros o. now apply runObject_timestamps.
  - apply map_ext. intros o.
    apply (runObject_identity satellite width height (frames ++ [last]) o).
  - apply map_ext. intros o.
    apply (runObject_identity satellite width height (frames ++ [last]) o).
  - apply map_ext. intros o.
    apply (runObject_identity satellite width height (frames ++ [last]) o).
  - intros Hempty. apply Forall_map.
    eapply Forall_impl; [|exact Hempty]. intros o Ho.
    unfold Simulation.ascending.
    rewrite runObject_timestamps by exact Hsorted. rewrite Ho.
    split; [reflexivity|]. now apply TrailFacts.sorted_filter.
Qed.

Lemma trails_after_frames_witness :
  map (fun o => Simulation.timestamps (DebrisObject.positions o))
      (Loader.runFrames (@None (SatelliteJS.t unit)) 800 600
                        [(0%R, 0%R, 1000); (0%R, 0%R, 50000);
                         (5%R, 5%R, 95000)]
                        [Samples.cosmosDeb1])
  = [[50000; 95000]].
Proof.
  destruct (trails_after_frames
              (@None (SatelliteJS.t unit)) 800 600
              [(0%R, 0%R, 1000); (0%R, 0%R, 50000)] (5%R, 5%R, 95000)
              [Samples.cosmosDeb1]) as (Hts & _).
  - cbn. repeat constructor; lia.
  - exact Hts.
Defined.

(** X6: with strictly increasing frame times, a trail that starts empty
    never holds more than 90000 samples. *)
Theorem trail_length_bounded {Satrec : Type}
        (satellite : option (SatelliteJS.t Satrec)) (width height : R)
        (frames : list (R * R * Z)) (last : R * R * Z)
        (objects : list (DebrisObject.t Satrec)) :
  StronglySorted Z.lt (Loader.frameTimes (frames ++ [last])) ->
  Forall (fun o => DebrisObject.positions o = []) objects ->
  Forall (fun o => Z.of_nat (List.length (DebrisObject.positions o)) <= 90000)
         (Loader.runFrames satellite width height (frames ++ [last])
                           objects).
Proof.
  intros Hsorted Hempty. rewrite runFrames_map. apply Forall_map.
  eapply Forall_impl; [|exact Hempty]. intros o Ho.
  pose proof (runObject_timestamps satellite width height frames last o
                                   (sorted_weaken _ Hsorted)) as Hts.
  rewrite Ho in Hts. cbn [Simulation.timestamps map app] in Hts.
  assert (Hlen : List.length
                   (DebrisObject.positions
                      (Loader.runObject satellite width height
                                        (frames ++ [last]) o))
                 = List.length
                     (filter (fun t => t >? snd last - 90000)
                             (Loader.frameTimes (frames ++ [last])))).
  { rewrite <- Hts. unfold Simulation.timestamps. now rewrite length_map. }
  rewrite Hlen.
  assert (Hbound :
            Z.of_nat (List.length
                        (filter (fun t => t >? snd last - 90000)
                                (Loader.frameTimes (frames ++ [last]))))
            <= Z.max 0 (snd last - (snd last - 90000))).
  { apply ascending_length_bound.
    - now apply TrailFacts.sorted_filter.
    - apply Forall_forall. intros t Ht. apply filter_In in Ht.
      destruct Ht as [Hin Hgt]. apply Z.gtb_lt in Hgt.
      split; [exact Hgt|].
      unfold Loader.frameTimes in Hin, Hsorted.
      rewrite map_app in Hin, Hsorted. cbn [map] in Hin, Hsorted.
      apply in_app_or in Hin. destruct Hin as [Hin|[<-|[]]]; [|lia].
      apply TrailFacts.sorted_snoc_inv in Hsorted.
      rewrite Forall_forall in Hsorted. specialize (Hsorted t Hin). lia. }
  lia.
Qed.

Lemma trail_length_bounded_witness :
  Forall (fun o => Z.of_nat (List.length (DebrisObject.positions o)) <= 90000)
         (Loader.runFrames (@None (SatelliteJS.t unit)) 800 600
                           [(0%R, 0%R, 1000); (0%R, 0%R, 1033)]
                           [Samples.cosmosDeb1]).
Proof.
  apply (trail_length_bounded (@None (SatelliteJS.t unit)) 800 600
                              [(0%R, 0%R, 1000)] (0%R, 0%R, 1033)
                              [Samples.cosmosDeb1]).
  - cbn. repeat constructor; lia.
  - repeat constructor.
Defined.

(** X7: the simulated objects are always drawn inside the canvas: after any
    frames that end with a frame at a time not before the epoch, each has a
    finite position with latitude in -90..90 and longitude in -180..180 (180
    excluded), between 15% and 85% of the width and of the height, whatever
    library is loaded. *)
Theorem simulated_objects_on_screen {Satrec : Type}
        (satellite : option (SatelliteJS.t Satrec))
        (source : Simulation.DataSource) (width height : R)
        (frames : list (R * R * Z)) (mouseX mouseY : R) (now : Z) :
  (0 <= width)%R -> (0 <= height)%R -> 0 <= now ->
  Forall (fun o =>
            exists x y lat lon : R,
              DebrisObject.currentPos o
              = Position.mk (Some x) (Some y) (Some lat) (Some lon)
              /\ (-90 <= lat <= 90)%R /\ (-180 <= lon < 180)%R
              /\ (0.15 * width <= x <= 0.85 * width)%R
              /\ (0.15 * height <= y <= 0.85 * height)%R)
         (Loader.runFrames satellite width height
                           (frames ++ [(mouseX, mouseY, now)])
                           (Loader.generateSimulatedDebris source)).
Proof.
  intros Hw Hh Hnow. rewrite runFrames_map. apply Forall_map.
  apply Forall_forall. intros o Hin.
  destruct (LoaderFacts.simulated_spec source o Hin)
    as (Hsat & _ & (id & Hid & Hnn) & _).
  rewrite runObject_snoc, updateObject_currentPos.
  destruct (runObject_identity satellite width height frames o)
    as (_ & Hnorad & Hsatrec & _).
  set (o1 := Loader.runObject satellite width height frames o) in *.
  rewrite (PropagatorFacts.calculatePosition_fallback satellite o1 now)
    by (left; congruence).
  destruct (ScreenFacts.fallbackPosition_range o1 now id)
    as (lat & lon & Heq & Hlat & Hlon); [congruence | lia | lia |].
  rewrite Heq. cbn [fst snd].
  destruct (ScreenFacts.latLonToXY_bounds lat lon width height)
    as (x & y & Hxy & _ & _ & Hx & Hy); [lra | lra | lra | lra |].
  rewrite Hxy. cbn [fst snd].
  exists x, y, lat, lon. repeat split; lra.
Qed.

Lemma simulated_objects_on_screen_witness :
  Forall (fun o =>
            exists x y lat lon : R,
              DebrisObject.currentPos o
              = Position.mk (Some x) (Some y) (Some lat) (Some lon)
              /\ (-90 <= lat <= 90)%R /\ (-180 <= lon < 180)%R
              /\ (0.15 * 800 <= x <= 0.85 * 800)%R
              /\ (0.15 * 600 <= y <= 0.85 * 600)%R)
         (Loader.runFrames (Some Samples.stubLibrary) 800 600
                           ([] ++ [(0%R, 0%R, 1700000000000)])
                           (Loader.generateSimulatedDebris
                              Simulation.recent)).
Proof.
  apply (simulated_objects_on_screen (Some Samples.stubLibrary)
                                     Simulation.recent 800 600 [] 0 0
                                     1700000000000); try lra; lia.
Defined.

End FrameFacts.

(** ** The parsers: edge cases, fields and counters *)

Module RecordFacts.

Local Open Scope string_scope.
Local Open Scope list_scope.

Lemma length_string_of_list_ascii (l : list ascii) :
  String.length (string_of_list_ascii l) = List.length l.
Proof. induction l; simpl; congruence. Qed.

Lemma length_list_ascii_of_string (s : string) :
  List.length (list_ascii_of_string s) = String.length s.
Proof. induction s; simpl; congruence. Qed.

Lemma trimStartChars_length (l : list ascii) :
  (List.length (Text.trimStartChars l) <= List.length l)%nat.
Proof.
  induction l as [|c l IH]; simpl; [lia|].
  destruct (Text.isWhiteSpace c); simpl; lia.
Qed.

Lemma trim_length (s : string) :
  (String.length (Text.trim s) <= String.length s)%nat.
Proof.
  unfold Text.trim.
  rewrite length_string_of_list_ascii, length_rev.
  etransitivity; [apply trimStartChars_length|].
  rewrite length_rev.
  etransitivity; [apply trimStartChars_length|].
  now rewrite length_list_ascii_of_string.
Qed.

Lemma substring_length (n m : nat) :
  forall s, (String.length (String.substring n m s) <= m)%nat.
Proof.
  revert m. induction n as [|n IHn]; intros m.
  - induction m as [|m IHm]; intros [|c s]; simpl; try lia.
    specialize (IHm s). lia.
  - intros [|c s]; simpl; [lia | apply IHn].
Qed.

(** A name that contains DEBRIS contains DEB. *)
Lemma prefix_app (a b : string) :
  forall s, String.prefix (a ++ b) s = true -> String.prefix a s = true.
Proof.
  induction a as [|c a IH]; intros s H; [now destruct s|].
  destruct s as [|d s]; simpl in *; [discriminate|].
  destruct (ascii_dec c d); [now apply IH | discriminate].
Qed.

Lemma includes_app (a b : string) :
  forall s, Text.includes s (a ++ b) = true -> Text.includes s a = true.
Proof.
  induction s as [|c s IH]; intros H; cbn [Text.includes] in *.
  - destruct (String.prefix (a ++ b) "") eqn:Hp; [|discriminate H].
    apply prefix_app in Hp. now rewrite Hp.
  - destruct (String.prefix (a ++ b) (String c s)) eqn:Hp.
    + apply prefix_app in Hp. now rewrite Hp.
    + apply IH in H. rewrite H. now destruct (String.prefix a (String c s)).
Qed.

Lemma includes_DEBRIS (name : string) :
  Text.includes name "DEBRIS" = true -> Text.includes name "DEB" = true.
Proof. apply (includes_app "DEB" "RIS"). Qed.

(** Each object is counted in at most one of the three counters, and in
    exactly one when its category is one of the three. *)
Lemma category_counts {Satrec : Type} (l : list (DebrisObject.t Satrec)) :
  (List.length (filter (Simulation.hasCategory "Debris") l)
   + List.length (filter (Simulation.hasCategory "Satellite") l)
   + List.length (filter (Simulation.hasCategory "Rocket Body") l)
   <= List.length l)%nat
  /\ (Forall (fun o => In (DebrisObject.category o)
                          ["Debris"; "Satellite"; "Rocket Body"]) l ->
      (List.length (filter (Simulation.hasCategory "Debris") l)
       + List.length (filter (Simulation.hasCategory "Satellite") l)
       + List.length (filter (Simulation.hasCategory "Rocket Body") l)
       = List.length l)%nat).
Proof.
  induction l as [|o l [IHle IHeq]]; [split; reflexivity|].
  cbn [filter]. unfold Simulation.hasCategory in *.
  split.
  - destruct (String.eqb_spec (DebrisObject.category o) "Debris") as [->|];
      [cbn; lia|].
    destruct (String.eqb_spec (DebrisObject.category o) "Satellite")
      as [->|]; [cbn; lia|].
    destruct (String.eqb (DebrisObject.category o) "Rocket Body");
      cbn; lia.
  - intros Hall. inversion Hall as [|? ? Ho Hl]; subst.
    specialize (IHeq Hl). cbn in Ho.
    destruct Ho as [Ho|[Ho|[Ho|[]]]]; rewrite <- Ho; cbn; lia.
Qed.

Section Parser.

Context {Satrec : Type}.
Variable satellite : option (SatelliteJS.t Satrec).

Lemma parseLoop_length (n : nat) :
  forall (lines : list string) (objects : list (DebrisObject.t Satrec)),
    (List.length lines <= n)%nat ->
    (List.length objects
     <= List.length (Simulation.parseLoop satellite lines objects))%nat
    /\ (3 * List.length (Simulation.parseLoop satellite lines objects)
        <= 3 * List.length objects + List.length lines)%nat.
Proof.
  induction n as [|n IH]; intros lines objects Hlen.
  - destruct lines; [simpl; lia | simpl in Hlen; lia].
  - destruct lines as [|l0 [|l1 [|l2 rest]]]; try (simpl; lia).
    cbn [Simulation.parseLoop]. cbn [List.length] in *.
    destruct (Simulation.parseRecord satellite l0 l1 l2) as [o|].
    + destruct (IH rest (JS.push objects o)) as [H1 H2]; [lia|].
      unfold JS.push in *. rewrite length_app in *. cbn in *. lia.
    + destruct (IH rest objects) as [H1 H2]; [lia|]. lia.
Qed.

Lemma parseRecord_fields (line0 line1 line2 : string)
      (obj : DebrisObject.t Satrec) :
  Simulation.parseRecord satellite line0 line1 line2 = Some obj ->
  DebrisObject.satrec obj <> None
  /\ DebrisObject.positions obj = []
  /\ DebrisObject.currentPos obj = Simulation.zeroPos
  /\ DebrisObject.name obj = Text.trim line0
  /\ DebrisObject.noradId obj = Text.trim (Text.substring 2 7 line1)
  /\ DebrisObject.country obj
     = Some (snd (Simulation.classify (DebrisObject.name obj)))
  /\ DebrisObject.launchDate obj
     = Some (Text.toString
               (option_map
                  (fun e => if (e <? 57)%Z then (2000 + e)%Z
                            else (1900 + e)%Z)
                  (Text.parseInt (Text.substring 18 20 line1)))).
Proof.
  unfold Simulation.parseRecord.
  destruct (match satellite with
            | Some lib => SatelliteJS.twoline2satrec lib line1 line2
            | None => None
            end); [|discriminate].
  destruct (Simulation.classify (Text.trim line0)) as [c k] eqn:Hc.
  intros [= <-]. cbn. rewrite Hc. repeat split. discriminate.
Qed.

End Parser.

Lemma parseLoop_no_library {Satrec : Type} (lines : list string) (n : nat) :
  forall objects : list (DebrisObject.t Satrec),
    (List.length lines <= n)%nat ->
    Simulation.parseLoop None lines objects = objects.
Proof.
  revert lines. induction n as [|n IH]; intros lines objects Hlen.
  - destruct lines; [reflexivity | simpl in Hlen; lia].
  - destruct lines as [|l0 [|l1 [|l2 rest]]]; try reflexivity.
    cbn [Simulation.parseLoop Simulation.parseRecord].
    apply IH. simpl in Hlen. lia.
Qed.

(** Country given by the rules of the simulation's classifier. *)
Lemma classify_country (name : string) :
  In (snd (Simulation.classify name)) ["Unknown"; "USA"; "UK"]
  /\ (snd (Simulation.classify name) <> "Unknown" ->
      fst (Simulation.classify name) = "Satellite").
Proof.
  unfold Simulation.classify.
  repeat match goal with
         | |- context [Text.includes ?n ?p] =>
             destruct (Text.includes n p); cbn [orb fst snd]
         end;
    (split; [cbn; tauto | intros H; (reflexivity || now elim H)]).
Qed.

Lemma analysis_parseLoop_length (n : nat) :
  forall (lines : list string) (entries : list Analysis.TLEEntry),
    (List.length lines <= n)%nat ->
    List.length (Analysis.parseLoop lines entries)
    = (List.length entries + List.length lines / 3)%nat.
Proof.
  induction n as [|n IH]; intros lines entries Hlen.
  - destruct lines; [simpl; lia | simpl in Hlen; lia].
  - destruct lines as [|l0 [|l1 [|l2 rest]]];
      try (cbn [Analysis.parseLoop List.length];
           rewrite Nat.div_small by lia; lia).
    cbn [Analysis.parseLoop]. rewrite IH by (simpl in Hlen; lia).
    unfold JS.push. rewrite length_app. cbn [List.length].
    change (S (S (S (List.length rest))))
      with (1 * 3 + List.length rest)%nat.
    rewrite Nat.div_add_l by lia. lia.
Qed.

(** X8: edge cases of the simulation's parser: without the library nothing
    is parsed; an empty text gives no object; there is at most one object
    per three lines of the trimmed text (so none for fewer than three
    lines); the result never has more objects than were parsed. *)
Theorem parser_edge_cases {Satrec : Type}
        (satellite : option (SatelliteJS.t Satrec)) (tleData : string)
        (source : Simulation.DataSource) :
  Simulation.parseTLEData (@None (SatelliteJS.t Satrec)) tleData source = []
  /\ Simulation.parseTLEData satellite "" source = []
  /\ (3 * List.length (Simulation.parseObjects satellite tleData)
      <= List.length (Text.split Text.newline (Text.trim tleData)))%nat
  /\ (List.length (Simulation.parseTLEData satellite tleData source)
      <= List.length (Simulation.parseObjects satellite tleData))%nat.
Proof.
  split; [|split; [|split]].
  - unfold Simulation.parseTLEData, Simulation.parseObjects.
    now rewrite (parseLoop_no_library _ _ _ (le_n _)).
  - reflexivity.
  - unfold Simulation.parseObjects.
    destruct (parseLoop_length
                satellite _ (Text.split Text.newline (Text.trim tleData))
                [] (le_n _)) as [_ H].
    cbn [List.length] in H. lia.
  - unfold Simulation.parseTLEData.
    set (objects := Simulation.parseObjects satellite tleData).
    destruct (category_counts objects) as [Hle _].
    rewrite length_firstn, !length_app, !length_firstn. lia.
Qed.

(** X9: every object the simulation's parser makes carries an element set,
    an empty trail and the origin as position; its catalog field has at most
    five characters; its country is Unknown, USA or UK, and a country other
    than Unknown goes with the category Satellite. *)
Theorem parsed_object_fields {Satrec : Type}
        (satellite : option (SatelliteJS.t Satrec)) (tleData : string) :
  Forall (fun obj =>
            DebrisObject.satrec obj <> None
            /\ DebrisObject.positions obj = []
            /\ DebrisObject.currentPos obj = Simulation.zeroPos
            /\ (String.length (DebrisObject.noradId obj) <= 5)%nat
            /\ In (DebrisObject.country obj)
                  [Some "Unknown"; Some "USA"; Some "UK"]
            /\ (DebrisObject.country obj <> Some "Unknown" ->
                DebrisObject.category obj = "Satellite"))
         (Simulation.parseObjects satellite tleData).
Proof.
  apply Forall_forall. intros obj Hin.
  pose proof (ClassifierFacts.parseObjects_category satellite _ _ Hin)
    as Hcat.
  unfold Simulation.parseObjects in Hin.
  apply (ClassifierFacts.parseLoop_origin satellite _ _ _ _ (le_n _)) in Hin.
  destruct Hin as [[]|(l0 & l1 & l2 & Hrec)].
  destruct (parseRecord_fields satellite _ _ _ _ Hrec)
    as (Hsat & Hpos & Hcur & _ & Hid & Hcountry & _).
  destruct (classify_country (DebrisObject.name obj)) as [Hin Hsatcat].
  repeat split; try assumption.
  - rewrite Hid. etransitivity; [apply trim_length|].
    apply (substring_length 2 5).
  - rewrite Hcountry. cbn in Hin. cbn.
    destruct Hin as [<-|[<-|[<-|[]]]]; auto.
  - rewrite Hcountry, Hcat. intros Hne. apply Hsatcat.
    intros Heq. apply Hne. now rewrite Heq.
Qed.

(** X10: the year kept as [launchDate] is read from the two epoch digits of
    line 1 with the pivot 57: a value [e] of 0..99 gives a year of
    1957..2056 that ends with [e], in 2000..2056 exactly when [e] is below
    57. *)
Theorem launch_year_pivot {Satrec : Type}
        (satellite : option (SatelliteJS.t Satrec))
        (line0 line1 line2 : string) (obj : DebrisObject.t Satrec) (e : Z) :
  Simulation.parseRecord satellite line0 line1 line2 = Some obj ->
  Text.parseInt (Text.substring 18 20 line1) = Some e ->
  (0 <= e <= 99)%Z ->
  exists year : Z,
    DebrisObject.launchDate obj = Some (Text.toString (Some year))
    /\ (1957 <= year <= 2056)%Z
    /\ (year mod 100 = e)%Z
    /\ (e < 57 <-> 2000 <= year)%Z.
Proof.
  intros Hrec He Hrange.
  destruct (parseRecord_fields satellite _ _ _ _ Hrec)
    as (_ & _ & _ & _ & _ & _ & Hdate).
  rewrite He in Hdate. cbn [option_map] in Hdate.
  destruct (Z.ltb_spec e 57) as [Hlt|Hge].
  - exists (2000 + e)%Z. split; [exact Hdate|].
    split; [lia|]. split; [|lia].
    replace (2000 + e)%Z with (e + 20 * 100)%Z by lia.
    rewrite Z.mod_add by lia. apply Z.mod_small. lia.
  - exists (1900 + e)%Z. split; [exact Hdate|].
    split; [lia|]. split; [|lia].
    replace (1900 + e)%Z with (e + 19 * 100)%Z by lia.
    rewrite Z.mod_add by lia. apply Z.mod_small. lia.
Qed.

Lemma launch_year_pivot_witness :
  exists (obj : DebrisObject.t unit) (year : Z),
    Simulation.parseRecord (Some Samples.stubLibrary) "ISS (ZARYA)"
                           "1 25544U 98067A   98324.5" "2 25544"
    = Some obj
    /\ DebrisObject.launchDate obj = Some (Text.toString (Some year))
    /\ (1957 <= year <= 2056)%Z /\ (year mod 100 = 98)%Z.
Proof.
  pose (obj := DebrisObject.mk "ISS (ZARYA)" "25544" (Some tt) []
                               Simulation.zeroPos "Unknown" (Some "1998")
                               (Some "Unknown")).
  assert (Hrec : Simulation.parseRecord
                   (Some Samples.stubLibrary) "ISS (ZARYA)"
                   "1 25544U 98067A   98324.5" "2 25544" = Some obj)
    by reflexivity.
  destruct (launch_year_pivot (Some Samples.stubLibrary) _ _ _ obj 98 Hrec)
    as (year & Hdate & Hrange & Hmod & _); [reflexivity | lia |].
  exists obj, year. repeat split; (assumption || lia).
Defined.

Lemma filter_firstn_length {A : Type} (f : A -> bool) (n : nat) :
  forall l : list A,
    (List.length (filter f (firstn n l)) <= List.length (filter f l))%nat.
Proof.
  induction n as [|n IH]; intros [|a l]; simpl; try lia.
  specialize (IH l). destruct (f a); simpl; lia.
Qed.

Lemma filter_other_category {Satrec : Type} (c c' : string)
      (l : list (DebrisObject.t Satrec)) :
  c <> c' ->
  Forall (fun o => DebrisObject.category o = c') l ->
  filter (Simulation.hasCategory c) l = [].
Proof.
  intros Hne. induction 1 as [|o l Ho Hl IH]; [reflexivity|].
  cbn [filter]. unfold Simulation.hasCategory at 1. rewrite Ho.
  apply not_eq_sym, String.eqb_neq in Hne. now rewrite Hne.
Qed.

(** How many objects of a category the result of [parseTLEData] can
    hold, from the three slices it is cut from. *)
Lemma count_in_result {Satrec : Type} (c : string)
      (objects : list (DebrisObject.t Satrec)) :
  In c ["Debris"; "Satellite"; "Rocket Body"] ->
  (List.length
     (filter (Simulation.hasCategory c)
             (firstn 25
                     (firstn 12 (filter (Simulation.hasCategory "Debris")
                                        objects)
                      ++ firstn 10 (filter (Simulation.hasCategory
                                              "Satellite") objects)
                      ++ firstn 6 (filter (Simulation.hasCategory
                                             "Rocket Body") objects))))
   <= if String.eqb c "Debris" then 12
      else if String.eqb c "Satellite" then 10 else 6)%nat.
Proof.
  intros Hc.
  destruct (ParserFacts.slice_of_category 12 "Debris" objects) as [Hd1 Hd2].
  destruct (ParserFacts.slice_of_category 10 "Satellite" objects)
    as [Hs1 Hs2].
  destruct (ParserFacts.slice_of_category 6 "Rocket Body" objects)
    as [Hr1 Hr2].
  set (d := firstn 12 (filter (Simulation.hasCategory "Debris") objects))
    in *.
  set (s := firstn 10 (filter (Simulation.hasCategory "Satellite") objects))
    in *.
  set (r := firstn 6 (filter (Simulation.hasCategory "Rocket Body") objects))
    in *.
  etransitivity; [apply filter_firstn_length|].
  rewrite !filter_app, !length_app.
  pose proof (filter_length_le (Simulation.hasCategory c) d).
  pose proof (filter_length_le (Simulation.hasCategory c) s).
  pose proof (filter_length_le (Simulation.hasCategory c) r).
  cbn in Hc. destruct Hc as [<-|[<-|[<-|[]]]]; simpl (String.eqb _ _);
    cbv iota.
  - rewrite (filter_other_category "Debris" "Satellite" s),
      (filter_other_category "Debris" "Rocket Body" r)
      by (assumption || discriminate).
    cbn [List.length]. lia.
  - rewrite (filter_other_category "Satellite" "Debris" d),
      (filter_other_category "Satellite" "Rocket Body" r)
      by (assumption || discriminate).
    cbn [List.length]. lia.
  - rewrite (filter_other_category "Rocket Body" "Debris" d),
      (filter_other_category "Rocket Body" "Satellite" s)
      by (assumption || discriminate).
    cbn [List.length]. lia.
Qed.

(** X11: whatever the fetch gives, the counters add up: the total is the sum
    of the debris, satellite and rocket-body counters and equals the active
    counter; it is at most 25 after a successful fetch and is 12 or 18 after
    a failed one, and an error message is set exactly when the fetch failed. *)
Theorem counters_add_up {Satrec : Type}
        (satellite : option (SatelliteJS.t Satrec))
        (source : Simulation.DataSource) (response : option string) :
  let fetched := Loader.fetchTLEData satellite source response in
  let stats := Loader.statsOf (fst fetched) in
  (Projection.total stats
   = Projection.debris stats + Projection.satellites stats
     + Projection.rocketBodies stats)%Z
  /\ Projection.active stats = Projection.total stats
  /\ (snd fetched = None <-> response <> None)
  /\ match response with
     | Some _ =>
         (Projection.total stats <= 25 /\ Projection.debris stats <= 12
          /\ Projection.satellites stats <= 10
          /\ Projection.rocketBodies stats <= 6)%Z
     | None =>
         Projection.total stats
         = match source with
           | Simulation.cosmos => 12%Z
           | Simulation.recent => 18%Z
           end
     end.
Proof.
  cbv zeta.
  assert (Hthree :
            Forall (fun o => In (DebrisObject.category o)
                                ["Debris"; "Satellite"; "Rocket Body"])
                   (fst (Loader.fetchTLEData satellite source response))).
  { destruct response as [tleData|]; cbn [Loader.fetchTLEData fst].
    - unfold Simulation.parseTLEData.
      set (objects := Simulation.parseObjects satellite tleData).
      apply Forall_forall. intros o Ho.
      apply ParserFacts.firstn_In in Ho.
      destruct (ParserFacts.slice_of_category 12 "Debris" objects)
        as [_ Hd].
      destruct (ParserFacts.slice_of_category 10 "Satellite" objects)
        as [_ Hs].
      destruct (ParserFacts.slice_of_category 6 "Rocket Body" objects)
        as [_ Hr].
      rewrite Forall_forall in Hd, Hs, Hr.
      apply in_app_or in Ho. destruct Ho as [Ho|Ho];
        [|apply in_app_or in Ho; destruct Ho as [Ho|Ho]].
      + rewrite (Hd o Ho). cbn. tauto.
      + rewrite (Hs o Ho). cbn. tauto.
      + rewrite (Hr o Ho). cbn. tauto.
    - apply Forall_forall. intros o Ho.
      now apply (LoaderFacts.simulated_spec source o). }
  destruct (category_counts
              (fst (Loader.fetchTLEData satellite source response)))
    as [_ Heq].
  specialize (Heq Hthree).
  split; [|split; [reflexivity|split]].
  - unfold Loader.statsOf.
    cbn [Projection.total Projection.debris Projection.satellites
         Projection.rocketBodies]. lia.
  - destruct response; cbn; split; congruence.
  - destruct response as [tleData|].
    + unfold Loader.statsOf.
      cbn [Projection.total Projection.debris Projection.satellites
           Projection.rocketBodies Loader.fetchTLEData fst] in *.
      pose proof (count_in_result
                    "Debris" (Simulation.parseObjects satellite tleData))
        as Hd.
      pose proof (count_in_result
                    "Satellite" (Simulation.parseObjects satellite tleData))
        as Hs.
      pose proof (count_in_result
                    "Rocket Body" (Simulation.parseObjects satellite tleData))
        as Hr.
      simpl (String.eqb _ _) in Hd, Hs, Hr. cbv iota in Hd, Hs, Hr.
      unfold Simulation.parseTLEData in *.
      specialize (Hd (or_introl eq_refl)).
      specialize (Hs (or_intror (or_introl eq_refl))).
      specialize (Hr (or_intror (or_intror (or_introl eq_refl)))).
      pose proof (firstn_le_length
                    25
                    (firstn 12 (filter (Simulation.hasCategory "Debris")
                                       (Simulation.parseObjects
                                          satellite tleData))
                     ++ firstn 10 (filter (Simulation.hasCategory
                                             "Satellite")
                                          (Simulation.parseObjects
                                             satellite tleData))
                     ++ firstn 6 (filter (Simulation.hasCategory
                                            "Rocket Body")
                                         (Simulation.parseObjects
                                            satellite tleData)))) as Hl.
      lia.
    + cbn [Loader.fetchTLEData fst]. unfold Loader.statsOf.
      cbn [Projection.total]. destruct source; reflexivity.
Qed.

(** X12: the analysis view's parser keeps every complete record of three
    lines, with the category its rules give to the trimmed first line; the
    simulation's parser never keeps more objects from the same text. *)
Theorem analysis_keeps_every_record {Satrec : Type}
        (satellite : option (SatelliteJS.t Satrec)) (text : string) :
  List.length (Analysis.parseEntries text)
  = (List.length (Text.split Text.newline (Text.trim text)) / 3)%nat
  /\ (List.length (Simulation.parseObjects satellite text)
      <= List.length (Analysis.parseEntries text))%nat
  /\ Forall (fun e => Analysis.category e
                      = Analysis.classify (Analysis.name e))
            (Analysis.parseEntries text).
Proof.
  assert (Hlen : List.length (Analysis.parseEntries text)
                 = (List.length (Text.split Text.newline (Text.trim text))
                    / 3)%nat).
  { unfold Analysis.parseEntries.
    now rewrite (analysis_parseLoop_length _ _ _ (le_n _)). }
  split; [exact Hlen|split].
  - rewrite Hlen. apply Nat.div_le_lower_bound; [lia|].
    unfold Simulation.parseObjects.
    destruct (parseLoop_length
                satellite _ (Text.split Text.newline (Text.trim text))
                [] (le_n _)) as [_ H].
    cbn [List.length] in H. lia.
  - apply Forall_forall. intros e He. unfold Analysis.parseEntries in He.
    apply (ClassifierFacts.analysis_parseLoop_origin _ _ _ _ (le_n _)) in He.
    now destruct He as [[]|He].
Qed.

(** X13: the two classifiers: in both, a name is Debris exactly when it
    contains DEB, whatever else it contains; when the analysis view says
    Debris, Rocket Body or Satellite the simulation says the same, and a
    Constellation of the analysis view is a Satellite of country USA in the
    simulation. *)
Theorem classifiers_agree (name : string) :
  (fst (Simulation.classify name) = "Debris"
   <-> Text.includes name "DEB" = true)
  /\ (Analysis.classify name = "Debris"
      <-> Text.includes name "DEB" = true)
  /\ (In (Analysis.classify name) ["Debris"; "Rocket Body"; "Satellite"] ->
      fst (Simulation.classify name) = Analysis.classify name)
  /\ (Analysis.classify name = "Constellation" ->
      Simulation.classify name = ("Satellite", "USA")).
Proof.
  pose proof (includes_DEBRIS name) as Hdeb.
  unfold Simulation.classify, Analysis.classify.
  destruct (Text.includes name "DEB") eqn:H1;
    destruct (Text.includes name "DEBRIS") eqn:H2;
    try (specialize (Hdeb eq_refl); discriminate Hdeb);
    cbn [orb fst];
    repeat match goal with
           | |- context [Text.includes ?n ?p] =>
               destruct (Text.includes n p); cbn [orb fst]
           end;
    (split; [split; intros H; (reflexivity || discriminate H)|]);
    (split; [split; intros H; (reflexivity || discriminate H)|]);
    (split; [cbn; intros H; try reflexivity;
             repeat (destruct H as [H|H]; try discriminate H);
             try contradiction
            |intros H; (reflexivity || discriminate H)]).
Qed.

Lemma classifiers_agree_witness :
  fst (Simulation.classify "FENGYUN 1C DEB") = "Debris"
  /\ Simulation.classify "STARLINK-1007" = ("Satellite", "USA").
Proof.
  destruct (classifiers_agree "FENGYUN 1C DEB") as ([_ H1] & _).
  destruct (classifiers_agree "STARLINK-1007") as (_ & _ & _ & H2).
  split; [apply H1; reflexivity | apply H2; reflexivity].
Defined.

End RecordFacts.

(** ** The forecast and its baseline *)

Module BaselineFacts.

Import JS JSFacts Forecast.
Local Open Scope string_scope.
Local Open Scope list_scope.
Local Open Scope Z_scope.

Lemma Math_round_mono (x y : Q) :
  (x <= y)%Q -> Math_round x <= Math_round y.
Proof.
  intros H. unfold Math_round. apply Qfloor_resp_le.
  now apply Qplus_le_l.
Qed.

Lemma Math_round_integer (c : Z) : Math_round (inject_Z c * 1) = c.
Proof.
  unfold Math_round.
  rewrite (Qfloor_comp _ (inject_Z c + (1 # 2))%Q) by ring.
  unfold Qfloor, Qplus, inject_Z. cbn [Qnum Qden].
  change (Z.pos (1 * 2)) with 2. change (Z.pos 1) with 1.
  change (Z.pos 2) with 2.
  replace (c * 2 + 1 * 1) with (1 + c * 2) by lia.
  rewrite Z.div_add by lia. reflexivity.
Qed.

(** A non-negative count grows with the offset when the rate is at
    least 1. *)
Lemma growth_step (c : Z) (rate : Q) (k : Z) :
  0 <= c -> (1 <= rate)%Q -> 0 <= k ->
  Math_round (inject_Z c * Math_pow rate k)
  <= Math_round (inject_Z c * Math_pow rate (k + 1)).
Proof.
  intros Hc Hrate Hk. apply Math_round_mono. unfold Math_pow.
  rewrite !(Qmult_comm (inject_Z c)).
  apply Qmult_le_compat_r.
  - apply Qpower_le_compat_l; [lia | exact Hrate].
  - change 0%Q with (inject_Z 0). now rewrite <- Zle_Qle.
Qed.

Lemma forecast_nth (ds : DataStats) (k : nat) :
  (k < 11)%nat ->
  nth_error (generatePredictionData ds) k
  = Some (predictionAt (currentSatellites ds) (currentDebris ds)
                       (currentRockets ds) (2024 + Z.of_nat k)).
Proof.
  intros Hk. rewrite ForecastFacts.forecast_sequence_eq.
  now rewrite nth_error_map, zseq_nth.
Qed.

Lemma forecast_nth_inv (ds : DataStats) (k : nat) (p : PredictionData) :
  nth_error (generatePredictionData ds) k = Some p ->
  (k < 11)%nat
  /\ p = predictionAt (currentSatellites ds) (currentDebris ds)
                      (currentRockets ds) (2024 + Z.of_nat k).
Proof.
  intros H.
  assert (Hk : (k < 11)%nat).
  { assert (Hlt : (k < List.length (generatePredictionData ds))%nat)
      by (apply nth_error_Some; rewrite H; discriminate).
    rewrite ForecastFacts.forecast_sequence_eq, length_map, zseq_length
      in Hlt. exact Hlt. }
  split; [exact Hk|]. rewrite forecast_nth in H by exact Hk. congruence.
Qed.

(** X14: the forecast starts from the observed counts and none of its counts
    ever decreases: the record of 2024 repeats the three counts, and from
    one record to the next the year grows by one and, for non-negative
    counts, the satellites, debris, rocket bodies and their total do not
    decrease. *)
Theorem forecast_counts_grow (ds : DataStats) (k : nat)
        (p q : PredictionData) :
  0 <= currentSatellites ds -> 0 <= currentDebris ds ->
  0 <= currentRockets ds ->
  nth_error (generatePredictionData ds) k = Some p ->
  nth_error (generatePredictionData ds) (S k) = Some q ->
  (year q = year p + 1
   /\ activeSatellites p <= activeSatellites q
   /\ debris p <= debris q
   /\ rocketBodies p <= rocketBodies q
   /\ totalObjects p <= totalObjects q)
  /\ exists first,
      nth_error (generatePredictionData ds) 0 = Some first
      /\ year first = 2024
      /\ activeSatellites first = currentSatellites ds
      /\ debris first = currentDebris ds
      /\ rocketBodies first = currentRockets ds
      /\ totalObjects first
         = currentSatellites ds + currentDebris ds + currentRockets ds.
Proof.
  intros Hs Hd Hr Hp Hq.
  apply forecast_nth_inv in Hp, Hq.
  destruct Hp as [_ ->]. destruct Hq as [_ ->].
  split.
  - unfold predictionAt, currentYear.
    cbn [year activeSatellites debris rocketBodies totalObjects].
    replace (2024 + Z.of_nat (S k) - 2024) with (Z.of_nat k + 1) by lia.
    replace (2024 + Z.of_nat k - 2024) with (Z.of_nat k) by lia.
    pose proof (growth_step (currentSatellites ds) 1.15 (Z.of_nat k) Hs) as H1.
    pose proof (growth_step (currentDebris ds) 1.08 (Z.of_nat k) Hd) as H2.
    pose proof (growth_step (currentRockets ds) 1.12 (Z.of_nat k) Hr) as H3.
    assert (H115 : (1 <= 1.15)%Q) by (vm_compute; discriminate).
    assert (H108 : (1 <= 1.08)%Q) by (vm_compute; discriminate).
    assert (H112 : (1 <= 1.12)%Q) by (vm_compute; discriminate).
    specialize (H1 H115 (Nat2Z.is_nonneg k)).
    specialize (H2 H108 (Nat2Z.is_nonneg k)).
    specialize (H3 H112 (Nat2Z.is_nonneg k)).
    repeat split; lia.
  - eexists. split; [apply forecast_nth; lia|].
    unfold predictionAt, currentYear.
    cbn [year activeSatellites debris rocketBodies totalObjects].
    change (2024 + Z.of_nat 0 - 2024) with 0.
    change (Math_pow 1.15 0) with 1%Q. change (Math_pow 1.08 0) with 1%Q.
    change (Math_pow 1.12 0) with 1%Q.
    rewrite !Math_round_integer. repeat split.
Qed.

Lemma forecast_counts_grow_witness :
  exists p q,
    nth_error (generatePredictionData Samples.observed) 3 = Some p
    /\ nth_error (generatePredictionData Samples.observed) 4 = Some q
    /\ year q = year p + 1 /\ debris p <= debris q.
Proof.
  pose (p := predictionAt (currentSatellites Samples.observed)
                          (currentDebris Samples.observed)
                          (currentRockets Samples.observed) 2027).
  pose (q := predictionAt (currentSatellites Samples.observed)
                          (currentDebris Samples.observed)
                          (currentRockets Samples.observed) 2028).
  destruct (forecast_counts_grow Samples.observed 3 p q)
    as [(Hy & _ & Hd & _) _];
    [vm_compute; discriminate | vm_compute; discriminate
     | vm_compute; discriminate | reflexivity | reflexivity |].
  exists p, q. repeat split; assumption.
Defined.

(** X15: over the ten years of the forecast the collision risk is 15 + 3 k +
    2 * 1.1^k: the cap of 95 is never reached; the risk starts at 17, stays
    below 51 and grows from each record to the next. *)
Theorem collision_risk_uncapped (ds : DataStats) (k : nat)
        (p : PredictionData) :
  nth_error (generatePredictionData ds) k = Some p ->
  (collisionRisk p == 15 + 3 * inject_Z (Z.of_nat k)
                      + 2 * 1.1 ^ (Z.of_nat k))%Q
  /\ (17 <= collisionRisk p)%Q /\ (collisionRisk p <= 51)%Q
  /\ (collisionRisk p < 95)%Q
  /\ forall q,
      nth_error (generatePredictionData ds) (S k) = Some q ->
      (collisionRisk p < collisionRisk q)%Q.
Proof.
  intros Hp. apply forecast_nth_inv in Hp. destruct Hp as [Hk ->].
  assert (Hcheck : Catalog.riskChecked (Z.of_nat k) = true).
  { apply (range_forallb Catalog.riskChecked 0 11);
      [vm_compute; reflexivity | lia]. }
  unfold Catalog.riskChecked in Hcheck. cbv zeta in Hcheck.
  apply andb_prop in Hcheck. destruct Hcheck as [Hcheck Hnext].
  apply andb_prop in Hcheck. destruct Hcheck as [Hcheck Hhi].
  apply andb_prop in Hcheck. destruct Hcheck as [Heq Hlo].
  apply Qeq_bool_iff in Heq. apply Qle_bool_iff in Hlo, Hhi.
  change (collisionRisk
            (predictionAt (currentSatellites ds) (currentDebris ds)
                          (currentRockets ds) (2024 + Z.of_nat k)))
    with (collisionRisk (predictionAt 0 0 0 (2024 + Z.of_nat k))).
  split; [exact Heq|]. split; [exact Hlo|]. split; [exact Hhi|].
  split.
  - eapply Qle_lt_trans; [exact Hhi|]. reflexivity.
  - intros q Hq. apply forecast_nth_inv in Hq. destruct Hq as [_ ->].
    change (collisionRisk
              (predictionAt (currentSatellites ds) (currentDebris ds)
                            (currentRockets ds) (2024 + Z.of_nat (S k))))
      with (collisionRisk (predictionAt 0 0 0 (2024 + Z.of_nat (S k)))).
    replace (Z.of_nat (S k)) with (Z.of_nat k + 1) by lia.
    apply Qnot_le_lt. intros Hle. apply Qle_bool_iff in Hle.
    rewrite Hle in Hnext. discriminate Hnext.
Qed.

Lemma collision_risk_uncapped_witness :
  exists p,
    nth_error (generatePredictionData Samples.observed) 10 = Some p
    /\ (collisionRisk p < 95)%Q.
Proof.
  pose (p := predictionAt (currentSatellites Samples.observed)
                          (currentDebris Samples.observed)
                          (currentRockets Samples.observed) 2034).
  destruct (collision_risk_uncapped Samples.observed 10 p)
    as (_ & _ & _ & H & _); [reflexivity|].
  exists p. split; [reflexivity | exact H].
Defined.

Section Tally.

Variable test : string -> bool.

Lemma reduce_sumCounts (o : list (string * Z)) :
  forall init : Z,
    reduce (fun catSum '(cat, count) =>
              catSum + (if test cat then count else 0)) o init
    = init + Catalog.sumCounts test o.
Proof.
  unfold reduce. induction o as [|[cat count] o IH]; intros init; cbn.
  - lia.
  - rewrite IH. lia.
Qed.

Lemma sumCounts_setKey (key : string) (v : Z) (o : list (string * Z)) :
  Catalog.sumCounts test (Catalog.setKey key v o)
  = Catalog.sumCounts test o
    + (if test key
       then v - match Catalog.getKey key o with Some n => n | None => 0 end
       else 0).
Proof.
  induction o as [|[k w] o IH]; cbn.
  - destruct (test key); lia.
  - destruct (String.eqb_spec k key) as [->|Hne]; cbn.
    + destruct (test key); lia.
    + rewrite IH. lia.
Qed.

Lemma sumCounts_tally (entries : list Analysis.TLEEntry) :
  forall acc : list (string * Z),
    Catalog.sumCounts test (fold_left Catalog.countCategory entries acc)
    = Catalog.sumCounts test acc + Catalog.countEntries test entries.
Proof.
  unfold Catalog.countEntries.
  induction entries as [|e entries IH]; intros acc; cbn [fold_left filter].
  - cbn. lia.
  - rewrite IH. unfold Catalog.countCategory.
    rewrite sumCounts_setKey.
    destruct (test (Analysis.category e)); cbn [List.length]; lia.
Qed.

End Tally.

Lemma getKey_fresh {V : Type} (key : string) (o : list (string * V)) :
  ~ In key (map fst o) -> forall v, Catalog.setKey key v o = o ++ [(key, v)].
Proof.
  induction o as [|[k w] o IH]; intros Hnin v; cbn; [reflexivity|].
  cbn in Hnin.
  destruct (String.eqb_spec k key) as [->|Hne]; [tauto|].
  rewrite IH by tauto. reflexivity.
Qed.

Section Stats.

Variable orbitAverages : list Analysis.TLEEntry -> Q * Q.

Lemma groupStats_fields (entries : list Analysis.TLEEntry) :
  count (Catalog.groupStats orbitAverages entries)
  = Z.of_nat (List.length entries)
  /\ categories (Catalog.groupStats orbitAverages entries)
     = fold_left Catalog.countCategory entries [].
Proof.
  unfold Catalog.groupStats. now destruct (orbitAverages entries).
Qed.

(** With group names that are all different, every group gets its own
    entry of the statistics, in the order of the groups. *)
Lemma calculateStats_fold (data : list (string * list Analysis.TLEEntry)) :
  forall acc : DataStats,
    NoDup (map fst acc ++ map fst data) ->
    fold_left (fun stats '(groupName, entries) =>
                 Catalog.setKey groupName
                                (Catalog.groupStats orbitAverages entries)
                                stats)
              data acc
    = acc ++ map (fun '(groupName, entries) =>
                    (groupName, Catalog.groupStats orbitAverages entries))
                 data.
Proof.
  induction data as [|[g es] data IH]; intros acc Hnd; cbn [fold_left map].
  - now rewrite app_nil_r.
  - cbn [map fst] in Hnd.
    rewrite getKey_fresh.
    + rewrite IH.
      * now rewrite <- app_assoc.
      * rewrite map_app, <- app_assoc. exact Hnd.
    + apply NoDup_remove_2 in Hnd. intros Hin. apply Hnd.
      apply in_or_app. now left.
Qed.

Lemma sum_over_groups (test : string -> bool)
      (data : list (string * list Analysis.TLEEntry)) :
  forall init : Z,
    reduce (fun sum stats =>
              sum + reduce (fun catSum '(cat, count) =>
                              catSum + (if test cat then count else 0))
                           (Object_entries (categories stats)) 0)
           (Object_values
              (map (fun '(groupName, entries) =>
                      (groupName,
                       Catalog.groupStats orbitAverages entries))
                   data))
           init
    = init + Catalog.countEntries test (Catalog.allEntries data).
Proof.
  unfold Object_values, Object_entries, Catalog.allEntries.
  induction data as [|[g es] data IH]; intros init.
  - cbn. lia.
  - cbn [map snd List.concat]. unfold reduce at 1. cbn [fold_left].
    fold (reduce (A := GroupStats) (B := Z)).
    unfold reduce at 1 in IH. rewrite IH.
    rewrite reduce_sumCounts.
    destruct (groupStats_fields es) as [_ ->].
    rewrite sumCounts_tally. cbn [Catalog.sumCounts].
    unfold Catalog.countEntries. rewrite filter_app, length_app. lia.
Qed.

End Stats.

Lemma total_over_groups (orbitAverages : list Analysis.TLEEntry -> Q * Q)
      (data : list (string * list Analysis.TLEEntry)) :
  forall init : Z,
    reduce (fun sum stats => sum + count stats)
           (Object_values
              (map (fun '(groupName, entries) =>
                      (groupName,
                       Catalog.groupStats orbitAverages entries))
                   data))
           init
    = init + Z.of_nat (List.length (Catalog.allEntries data)).
Proof.
  unfold Object_values, Catalog.allEntries, reduce.
  induction data as [|[g es] data IH]; intros init.
  - cbn. lia.
  - cbn [map snd List.concat fold_left]. rewrite IH.
    destruct (groupStats_fields orbitAverages es) as [-> _].
    rewrite length_app. lia.
Qed.

Lemma three_counts_le (entries : list Analysis.TLEEntry) :
  Catalog.countEntries
    (fun cat => String.eqb cat "Satellite"
                || String.eqb cat "Constellation") entries
  + Catalog.countEntries (fun cat => String.eqb cat "Debris") entries
  + Catalog.countEntries (fun cat => String.eqb cat "Rocket Body") entries
  <= Z.of_nat (List.length entries).
Proof.
  unfold Catalog.countEntries.
  induction entries as [|e entries IH]; [cbn; lia|].
  cbn [filter List.length].
  destruct (String.eqb_spec (Analysis.category e) "Debris") as [->|];
    [cbn; lia|].
  destruct (String.eqb_spec (Analysis.category e) "Rocket Body") as [->|];
    [cbn; lia|].
  destruct (String.eqb (Analysis.category e) "Satellite"
            || String.eqb (Analysis.category e) "Constellation");
    cbn [List.length]; lia.
Qed.

(** X16: the baseline of the forecast is the catalogue itself: for groups
    with different names, the statistics keep one entry per group, and the
    counts the forecast reads from them are the numbers of entries, over all
    groups, of category Debris, of category Satellite or Constellation, and
    of category Rocket Body, whatever the averages are; these are not
    negative and their sum is at most the number of all entries. *)
Theorem forecast_baseline_counts
        (orbitAverages : list Analysis.TLEEntry -> Q * Q)
        (data : list (string * list Analysis.TLEEntry)) :
  NoDup (map fst data) ->
  let ds := Catalog.calculateStats orbitAverages data in
  let entries := Catalog.allEntries data in
  map fst ds = map fst data
  /\ currentTotal ds = Z.of_nat (List.length entries)
  /\ currentDebris ds
     = Catalog.countEntries (fun cat => String.eqb cat "Debris") entries
  /\ currentSatellites ds
     = Catalog.countEntries
         (fun cat => String.eqb cat "Satellite"
                     || String.eqb cat "Constellation") entries
  /\ currentRockets ds
     = Catalog.countEntries (fun cat => String.eqb cat "Rocket Body")
                            entries
  /\ 0 <= currentDebris ds /\ 0 <= currentSatellites ds
  /\ 0 <= currentRockets ds
  /\ currentSatellites ds + currentDebris ds + currentRockets ds
     <= currentTotal ds.
Proof.
  intros Hnd. cbv zeta.
  assert (Hmap : Catalog.calculateStats orbitAverages data
                 = map (fun '(groupName, entries) =>
                          (groupName,
                           Catalog.groupStats orbitAverages entries))
                       data).
  { unfold Catalog.calculateStats, Object_entries.
    now rewrite (calculateStats_fold orbitAverages data []). }
  assert (Htotal : currentTotal (Catalog.calculateStats orbitAverages data)
                   = Z.of_nat (List.length (Catalog.allEntries data))).
  { unfold currentTotal. rewrite Hmap, total_over_groups. lia. }
  assert (Hd : currentDebris (Catalog.calculateStats orbitAverages data)
               = Catalog.countEntries (fun cat => String.eqb cat "Debris")
                                      (Catalog.allEntries data)).
  { unfold currentDebris. rewrite Hmap.
    rewrite (sum_over_groups orbitAverages
                             (fun cat => String.eqb cat "Debris")). lia. }
  assert (Hs : currentSatellites (Catalog.calculateStats orbitAverages data)
               = Catalog.countEntries
                   (fun cat => String.eqb cat "Satellite"
                               || String.eqb cat "Constellation")
                   (Catalog.allEntries data)).
  { unfold currentSatellites. rewrite Hmap.
    rewrite (sum_over_groups
               orbitAverages
               (fun cat => String.eqb cat "Satellite"
                           || String.eqb cat "Constellation")). lia. }
  assert (Hr : currentRockets (Catalog.calculateStats orbitAverages data)
               = Catalog.countEntries
                   (fun cat => String.eqb cat "Rocket Body")
                   (Catalog.allEntries data)).
  { unfold currentRockets. rewrite Hmap.
    rewrite (sum_over_groups orbitAverages
                             (fun cat => String.eqb cat "Rocket Body")).
    lia. }
  split.
  { rewrite Hmap, map_map. apply map_ext. now intros [g es]. }
  split; [exact Htotal|]. split; [exact Hd|]. split; [exact Hs|].
  split; [exact Hr|].
  rewrite Htotal, Hd, Hs, Hr.
  pose proof (three_counts_le (Catalog.allEntries data)).
  unfold Catalog.countEntries in *. lia.
Qed.

Lemma forecast_baseline_counts_witness :
  let data := [("Recent", Analysis.parseEntries Samples.threeRecords);
               ("Starlink", Analysis.parseEntries Samples.starlinkRecord)] in
  let ds := Catalog.calculateStats (fun _ => (0, 0)%Q) data in
  currentTotal ds = 4 /\ currentDebris ds = 1
  /\ currentSatellites ds = 1 /\ currentRockets ds = 1.
Proof.
  cbv zeta.
  destruct (forecast_baseline_counts
              (fun _ => (0, 0)%Q)
              [("Recent", Analysis.parseEntries Samples.threeRecords);
               ("Starlink", Analysis.parseEntries Samples.starlinkRecord)])
    as (_ & Ht & Hd & Hs & Hr & _).
  - repeat constructor; cbn; intuition discriminate.
  - rewrite Ht, Hd, Hs, Hr. repeat split.
Defined.

End BaselineFacts.

(** ** The primary projection: breakdown and risk over the years *)

Module PrimaryFacts.

Import JS JSFacts Projection.
Local Open Scope Z_scope.

Lemma large_closed (t : Z) :
  Math_round (inject_Z t * 0.3) = (t * 6 + 10) / 20.
Proof.
  unfold Math_round, Qfloor, Qplus, Qmult, inject_Z. cbn [Qnum Qden].
  change (Z.pos (1 * 10 * 2)) with 20. change (Z.pos (1 * 10)) with 10.
  f_equal. lia.
Qed.

Lemma collisions_closed (t : Z) (late : bool) :
  Math_round (inject_Z t / 1000 * (if late then 2 else 1))
  = (t * (if late then 4 else 2) + 1000) / 2000.
Proof.
  unfold Math_round, Qfloor, Qplus, Qmult, Qdiv, Qinv, inject_Z.
  destruct late; cbn; f_equal; lia.
Qed.

Lemma growthRate_positive (y : Z) : (0 < growthRate y)%Q.
Proof.
  unfold growthRate.
  destruct (y >=? 2007), (y >=? 2009), (y >=? 2020), (y >=? 2025);
    reflexivity.
Qed.

Lemma totalDebris_nonneg (y : Z) : 0 <= totalDebris (predictionAt y).
Proof.
  unfold predictionAt. cbn [totalDebris].
  change 0 with (Math_round 0). apply BaselineFacts.Math_round_mono.
  apply Qmult_le_0_compat; [discriminate|].
  unfold Math_pow. apply Qpower_0_le, Qlt_le_weak, growthRate_positive.
Qed.

Lemma predictionAt_balanced (year : Z) :
  0 <= totalDebris (predictionAt year)
  /\ 0 <= largeDebris (predictionAt year) <= smallDebris (predictionAt year)
  /\ largeDebris (predictionAt year) + smallDebris (predictionAt year)
     = totalDebris (predictionAt year)
  /\ 0 <= collisionEvents (predictionAt year)
     <= totalDebris (predictionAt year).
Proof.
  pose proof (totalDebris_nonneg year) as Ht.
  unfold predictionAt in *.
  cbn [totalDebris largeDebris smallDebris collisionEvents] in *.
  set (t := Math_round (20 * Math_pow (growthRate year)
                                      (year - baseYear))%Q) in *.
  rewrite large_closed, collisions_closed.
  destruct (year >=? 2009);
    pose proof (Z.div_mod (t * 6 + 10) 20 ltac:(lia));
    pose proof (Z.mod_pos_bound (t * 6 + 10) 20 ltac:(lia));
    [pose proof (Z.div_mod (t * 4 + 1000) 2000 ltac:(lia));
     pose proof (Z.mod_pos_bound (t * 4 + 1000) 2000 ltac:(lia))
    |pose proof (Z.div_mod (t * 2 + 1000) 2000 ltac:(lia));
     pose proof (Z.mod_pos_bound (t * 2 + 1000) 2000 ltac:(lia))];
    lia.
Qed.


(** X18: the sequence has one record for each year from 2000 to 2028, in
    order; its risk level is Low up to 2023, Medium from 2024 to 2026 and
    High in 2027 and 2028, and never Critical; it never counts more than
    four collision events. *)
Theorem primary_risk_timeline (stats : Stats) :
  map year (generatePredictionData stats) = zseq 2000 29
  /\ Forall (fun p =>
               riskLevel p <> Critical
               /\ (riskLevel p = Low <-> year p <= 2023)
               /\ (riskLevel p = Medium <-> 2024 <= year p <= 2026)
               /\ (riskLevel p = High <-> 2027 <= year p)
               /\ collisionEvents p <= 4)
            (generatePredictionData stats).
Proof.
  rewrite ProjectionFacts.primary_sequence_eq. split.
  - rewrite map_map. cbn [year predictionAt]. now rewrite map_id.
  - let l := eval vm_compute in (map predictionAt (zseq 2000 29)) in
    change (map predictionAt (zseq 2000 29)) with l.
    repeat (constructor;
            [cbn [riskLevel year collisionEvents];
             repeat split; intros; (discriminate || reflexivity || lia)|]).
    constructor.
Qed.

End PrimaryFacts.

(** ** What a frame shows: tooltip and trails *)

Module DisplayFacts.

Import Num.
Local Open Scope string_scope.
Local Open Scope list_scope.

(** X19: the tooltip of a frame is fresh: it is made from an object of the
    list as the frame has just updated it, so it carries the latitude and
    longitude computed at the time of the frame, it stands at the pointer,
    and the object is within 20 pixels of the pointer at its new position;
    without such an object there is no tooltip. *)
Theorem tooltip_is_fresh {Satrec : Type}
        (satellite : option (SatelliteJS.t Satrec))
        (width height mouseX mouseY : R) (now : Z)
        (debrisObjects : list (DebrisObject.t Satrec)) :
  match snd (Simulation.draw satellite width height mouseX mouseY now
                             debrisObjects) with
  | Some tip =>
      exists obj,
        In obj debrisObjects
        /\ TooltipData.name tip = DebrisObject.name obj
        /\ TooltipData.noradId tip = DebrisObject.noradId obj
        /\ TooltipData.category tip = DebrisObject.category obj
        /\ (TooltipData.lat tip, TooltipData.lon tip)
           = Simulation.calculatePosition satellite obj now
        /\ TooltipData.x tip = mouseX /\ TooltipData.y tip = mouseY
        /\ Simulation.withinRadius
             mouseX mouseY
             (Simulation.updateObject satellite width height now obj)
  | None =>
      Forall (fun obj =>
                ~ Simulation.withinRadius
                    mouseX mouseY
                    (Simulation.updateObject satellite width height now obj))
             debrisObjects
  end.
Proof.
  rewrite HoverFacts.draw_frame. cbn [snd].
  unfold Simulation.lastHovered.
  destruct (find (Simulation.isHovered mouseX mouseY)
                 (rev (map (Simulation.updateObject satellite width height
                                                    now) debrisObjects)))
    as [updated|] eqn:Hfind; cbn [option_map].
  - apply find_some in Hfind. destruct Hfind as [Hin Hhover].
    apply in_rev, in_map_iff in Hin. destruct Hin as (obj & <- & Hin).
    exists obj. split; [exact Hin|].
    unfold Simulation.tooltipOf.
    cbn [TooltipData.name TooltipData.noradId TooltipData.category
         TooltipData.lat TooltipData.lon TooltipData.x TooltipData.y].
    rewrite FrameFacts.updateObject_currentPos.
    cbn [Position.lat Position.lon].
    repeat split.
    + now destruct (Simulation.calculatePosition satellite obj now).
    + now apply HoverFacts.isHovered_spec.
  - apply Forall_forall. intros obj Hin.
    apply HoverFacts.isHovered_false.
    apply (find_none _ _ Hfind).
    apply -> in_rev. apply in_map, Hin.
Qed.

(** X20: objects whose catalog numbers leave the same remainder by 360 and
    whose categories have the same motion factors are at the same fallback
    position at every date: they cannot be told apart on the screen. *)
Theorem fallback_same_remainder {Satrec : Type}
        (obj1 obj2 : DebrisObject.t Satrec) (id1 id2 date : Z) :
  Text.parseInt (DebrisObject.noradId obj1) = Some id1 ->
  Text.parseInt (DebrisObject.noradId obj2) = Some id2 ->
  Z.rem id1 360 = Z.rem id2 360 ->
  Simulation.categoryFactors (DebrisObject.category obj1)
  = Simulation.categoryFactors (DebrisObject.category obj2) ->
  Simulation.fallbackPosition obj1 date
  = Simulation.fallbackPosition obj2 date.
Proof.
  intros H1 H2 Hrem Hfactors.
  rewrite (PropagatorFacts.fallbackPosition_eq obj1 date id1 H1).
  rewrite (PropagatorFacts.fallbackPosition_eq obj2 date id2 H2).
  now rewrite Hrem, Hfactors.
Qed.

Lemma fallback_same_remainder_witness :
  Simulation.fallbackPosition
    (Samples.simulated "FALCON 9 R/B" "40001" "Rocket Body" "2024" "USA")
    1700000000000
  = Simulation.fallbackPosition
      (Samples.simulated "ISS (ZARYA)" " 40361" "Unknown" "1998" "Unknown")
      1700000000000.
Proof.
  apply (fallback_same_remainder _ _ 40001 40361); reflexivity.
Defined.

Section Trail.

Context {Satrec : Type}.
Variable obj : DebrisObject.t Satrec.

Lemma trailSegments_eq :
  Loader.trailSegments obj
  = let positions := DebrisObject.positions obj in
    let length := Z.of_nat (List.length positions) in
    map (fun i =>
           Loader.mkSegment
             (PositionSample.x (Loader.positionAt positions (i - 1)))
             (PositionSample.y (Loader.positionAt positions (i - 1)))
             (PositionSample.x (Loader.positionAt positions i))
             (PositionSample.y (Loader.positionAt positions i))
             (Loader.getObjectColor (DebrisObject.category obj))
             (IZR i / IZR length * 120)%R
             (IZR i / IZR length * 2)%R)
        (JS.zseq 1 (List.length positions - 1)).
Proof.
  unfold Loader.trailSegments. cbv zeta.
  destruct (Z.gtb_spec (Z.of_nat (List.length (DebrisObject.positions obj)))
                       1) as [Hgt|Hle].
  - rewrite JSFacts.for_range_push by lia.
    replace (Z.to_nat
               (Z.of_nat (List.length (DebrisObject.positions obj))
                - 1 + 1 - 1))
      with (List.length (DebrisObject.positions obj) - 1)%nat by lia.
    reflexivity.
  - replace (List.length (DebrisObject.positions obj) - 1)%nat with 0%nat
      by lia.
    reflexivity.
Qed.

Lemma positionAt_nth (positions : list PositionSample.t) (k : nat)
      (s : PositionSample.t) :
  nth_error positions k = Some s ->
  Loader.positionAt positions (Z.of_nat k) = s.
Proof.
  intros H. unfold Loader.positionAt. rewrite Nat2Z.id.
  now apply nth_error_nth.
Qed.

(** X21: the trail is painted as one line between every two consecutive
    samples, oldest first, in the colour of the category; the line that ends
    at sample [k + 1] of [n] has alpha [(k + 1) / n * 120] and weight [(k +
    1) / n * 2], so the trail fades towards its old end and no line reaches
    alpha 120 or weight 2; a trail of fewer than two samples is not painted. *)
Theorem trail_fades :
  let positions := DebrisObject.positions obj in
  let n := List.length positions in
  List.length (Loader.trailSegments obj) = (n - 1)%nat
  /\ forall (k : nat) (seg : Loader.Segment),
      nth_error (Loader.trailSegments obj) k = Some seg ->
      (exists s1 s2,
          nth_error positions k = Some s1
          /\ nth_error positions (S k) = Some s2
          /\ Loader.fromX seg = PositionSample.x s1
          /\ Loader.fromY seg = PositionSample.y s1
          /\ Loader.toX seg = PositionSample.x s2
          /\ Loader.toY seg = PositionSample.y s2)
      /\ Loader.stroke seg
         = Loader.getObjectColor (DebrisObject.category obj)
      /\ Loader.alpha seg = (INR (S k) / INR n * 120)%R
      /\ Loader.thickness seg = (INR (S k) / INR n * 2)%R
      /\ (0 < Loader.alpha seg < 120)%R
      /\ (0 < Loader.thickness seg < 2)%R.
Proof.
  cbv zeta. rewrite trailSegments_eq. cbv zeta.
  split; [now rewrite length_map, JSFacts.zseq_length|].
  intros k seg Hseg.
  assert (Hk : (k < List.length (DebrisObject.positions obj) - 1)%nat).
  { assert (Hlt : (k < List.length
                         (map (fun i : Z => _)
                              (JS.zseq 1 (List.length
                                            (DebrisObject.positions obj)
                                          - 1))))%nat)
      by (apply nth_error_Some; rewrite Hseg; discriminate).
    now rewrite length_map, JSFacts.zseq_length in Hlt. }
  rewrite nth_error_map, JSFacts.zseq_nth in Hseg by exact Hk.
  remember (1 + Z.of_nat k)%Z as i eqn:Hi.
  unfold option_map in Hseg. injection Hseg as <-.
  cbv beta iota delta [Loader.fromX Loader.fromY Loader.toX Loader.toY
                       Loader.stroke Loader.alpha Loader.thickness].
  destruct (nth_error (DebrisObject.positions obj) k) as [s1|] eqn:H1;
    [|apply nth_error_None in H1; lia].
  destruct (nth_error (DebrisObject.positions obj) (S k)) as [s2|] eqn:H2;
    [|apply nth_error_None in H2; lia].
  replace (i - 1)%Z with (Z.of_nat k) by lia.
  replace i with (Z.of_nat (S k)) by lia.
  rewrite (positionAt_nth _ _ _ H1), (positionAt_nth _ _ _ H2).
  rewrite <- !INR_IZR_INZ.
  split; [now exists s1, s2|]. split; [reflexivity|].
  split; [reflexivity|]. split; [reflexivity|].
  set (n := List.length (DebrisObject.positions obj)) in *.
  assert (Hn : (0 < INR n)%R) by (apply lt_0_INR; lia).
  assert (Hpos : (0 < INR (S k))%R) by (apply lt_0_INR; lia).
  assert (Hlt : (INR (S k) < INR n)%R) by (apply lt_INR; lia).
  assert (Hinv : (0 < / INR n)%R) by now apply Rinv_0_lt_compat.
  assert (Hq : (0 < INR (S k) / INR n < 1)%R).
  { unfold Rdiv. split.
    - now apply Rmult_lt_0_compat.
    - replace 1%R with (INR n * / INR n)%R by (field; lra).
      now apply Rmult_lt_compat_r. }
  lra.
Qed.

End Trail.

End DisplayFacts.

(** ** Facts about the lines of the prediction chart *)

Module ChartFacts.

Import JS JSFacts Projection Chart.

Lemma Math_max_fold_ge (values : list Z) (v0 : Z) :
  (v0 <= fold_left Z.max values v0)%Z
  /\ forall v, In v values -> (v <= fold_left Z.max values v0)%Z.
Proof.
  revert v0. induction values as [|w rest IH]; intros v0; cbn.
  - split; [lia | intros v []].
  - destruct (IH (Z.max v0 w)) as [H0 Hin]. split; [lia|].
    intros v [<- | Hv]; [lia | now apply Hin].
Qed.

Lemma Math_max_ge (values : list Z) (v : Z) :
  In v values -> (v <= Math_max values)%Z.
Proof.
  destruct values as [|v0 rest]; [intros []|]. cbn [Math_max].
  destruct (Math_max_fold_ge rest v0) as [H0 Hin].
  intros [<- | Hv]; [exact H0 | now apply Hin].
Qed.

Lemma div_fraction (a b : Z) :
  (0 <= a <= b)%Z -> (0 < b)%Z ->
  exists q, div (inject_Z a) (inject_Z b) = Some q /\ (0 <= q <= 1)%Q.
Proof.
  intros Ha Hb. unfold div.
  assert (Hpos : (0 < inject_Z b)%Q)
    by (change 0%Q with (inject_Z 0); rewrite <- Zlt_Qlt; exact Hb).
  destruct (Qeq_bool (inject_Z b) 0) eqn:E.
  - apply Qeq_bool_iff in E. rewrite E in Hpos. discriminate Hpos.
  - eexists. split; [reflexivity|]. split.
    + apply Qle_shift_div_l; [exact Hpos|]. rewrite Qmult_0_l.
      change 0%Q with (inject_Z 0). rewrite <- Zle_Qle. lia.
    + apply Qle_shift_div_r; [exact Hpos|]. rewrite Qmult_1_l.
      rewrite <- Zle_Qle. lia.
Qed.

Lemma scaled_inside (lo extent q : Q) :
  (0 <= extent)%Q -> (0 <= q <= 1)%Q ->
  (0 <= q * extent <= extent)%Q.
Proof.
  intros He [Hq0 Hq1]. split.
  - now apply Qmult_le_0_compat.
  - rewrite <- (Qmult_1_l extent) at 2. now apply Qmult_le_compat_r.
Qed.

Lemma polyline_inside (canvasWidth canvasHeight : Q)
      (predictionData : list PredictionData) (value : PredictionData -> Z) :
  (100 <= canvasWidth)%Q -> (100 <= canvasHeight)%Q ->
  (2 <= List.length predictionData)%nat ->
  (0 < Math_max (map totalDebris predictionData))%Z ->
  Forall (fun p => 0 <= value p <= totalDebris p)%Z predictionData ->
  Forall (fun c =>
            exists x y,
              point c = (Some x, Some y)
              /\ (50 <= x <= canvasWidth - 50)%Q
              /\ (50 <= y <= canvasHeight - 50)%Q)
         (polyline canvasWidth canvasHeight predictionData value).
Proof.
  intros HW HH Hlen Hmax Hval. unfold polyline. cbv zeta.
  apply Forall_map, Forall_forall. intros [index data] Hin.
  pose proof (in_combine_l _ _ _ _ Hin) as Hi.
  pose proof (in_combine_r _ _ _ _ Hin) as Hd.
  apply in_seq in Hi.
  rewrite Forall_forall in Hval. specialize (Hval data Hd).
  assert (Hle : (totalDebris data
                 <= Math_max (map totalDebris predictionData))%Z)
    by (apply Math_max_ge, in_map, Hd).
  set (n := List.length predictionData) in *.
  assert (Hden : (inject_Z (Z.of_nat n) - 1 == inject_Z (Z.of_nat n - 1))%Q)
    by (unfold Zminus; rewrite inject_Z_plus; reflexivity).
  destruct (div_fraction (Z.of_nat index) (Z.of_nat n - 1)) as (qx & Ex & Hqx);
    [lia | lia |].
  destruct (div_fraction (value data)
                         (Math_max (map totalDebris predictionData)))
    as (qy & Ey & Hqy); [lia | exact Hmax |].
  assert (Ex' : exists qx',
             div (inject_Z (Z.of_nat index)) (inject_Z (Z.of_nat n) - 1)
             = Some qx' /\ (0 <= qx' <= 1)%Q).
  { unfold div in *.
    destruct (Qeq_bool (inject_Z (Z.of_nat n - 1)) 0) eqn:E1;
      [discriminate Ex|].
    destruct (Qeq_bool (inject_Z (Z.of_nat n) - 1) 0) eqn:E2.
    - apply Qeq_bool_iff in E2. rewrite Hden in E2.
      apply Qeq_bool_iff in E2. congruence.
    - eexists. split; [reflexivity|].
      injection Ex as <-. rewrite Hden. exact Hqx. }
  destruct Ex' as (qx' & Ex' & Hqx').
  rewrite Ex', Ey. cbn [option_map].
  pose proof (scaled_inside 0 (canvasWidth - 2 * padding) qx') as Hx.
  pose proof (scaled_inside 0 (canvasHeight - 2 * padding) qy) as Hy.
  unfold padding in *.
  destruct Hx as [Hx0 Hx1]; [Lqa.lra | exact Hqx' |].
  destruct Hy as [Hy0 Hy1]; [Lqa.lra | exact Hqy |].
  exists (50 + qx' * (canvasWidth - 2 * 50))%Q,
         (canvasHeight - 50 - qy * (canvasHeight - 2 * 50))%Q.
  split; [now destruct (index =? 0)%nat|].
  split; split; Lqa.lra.
Qed.

Lemma polyline_length (canvasWidth canvasHeight : Q)
      (predictionData : list PredictionData) (value : PredictionData -> Z) :
  List.length (polyline canvasWidth canvasHeight predictionData value)
  = List.length predictionData.
Proof.
  unfold polyline. cbv zeta.
  rewrite length_map, length_combine, length_seq. lia.
Qed.

(** X22: on a canvas at least 100 wide and 100 high, for at least two
    predictions whose large part lies between 0 and the total and of which
    one total is positive, the chart draws one point per prediction on each
    of its two lines, and every point is finite and lies inside the plot
    area, the canvas less its padding of 50 on each side. *)
Theorem chart_lines_inside_plot (canvasWidth canvasHeight : Q)
        (predictionData : list PredictionData) :
  (100 <= canvasWidth)%Q -> (100 <= canvasHeight)%Q ->
  (2 <= List.length predictionData)%nat ->
  Forall (fun p => 0 <= largeDebris p <= totalDebris p)%Z predictionData ->
  Exists (fun p => 0 < totalDebris p)%Z predictionData ->
  List.length (chartLines canvasWidth canvasHeight predictionData)
  = (2 * List.length predictionData)%nat
  /\ Forall (fun c =>
               exists x y,
                 point c = (Some x, Some y)
                 /\ (50 <= x <= canvasWidth - 50)%Q
                 /\ (50 <= y <= canvasHeight - 50)%Q)
            (chartLines canvasWidth canvasHeight predictionData).
Proof.
  intros HW HH Hlen Hlarge Hpos.
  assert (Hmax : (0 < Math_max (map totalDebris predictionData))%Z).
  { apply Exists_exists in Hpos. destruct Hpos as (p & Hp & Hlt).
    pose proof (Math_max_ge (map totalDebris predictionData)
                            (totalDebris p) (in_map _ _ _ Hp)).
    lia. }
  unfold chartLines.
  destruct predictionData as [|p0 rest] eqn:E; [cbn in Hlen; lia|].
  rewrite <- E in *. clear E p0 rest. split.
  - rewrite length_app, !polyline_length. lia.
  - apply Forall_app. split; apply polyline_inside; auto.
    rewrite Forall_forall in *. intros p Hp.
    specialize (Hlarge p Hp). lia.
Qed.

Lemma chart_lines_inside_plot_witness :
  let data := generatePredictionData (mkStats 0 0 0 0 0) in
  List.length (chartLines 800 400 data) = (2 * List.length data)%nat
  /\ Forall (fun c =>
               exists x y,
                 point c = (Some x, Some y)
                 /\ (50 <= x <= 800 - 50)%Q
                 /\ (50 <= y <= 400 - 50)%Q)
            (chartLines 800 400 data).
Proof.
  cbv zeta.
  apply (chart_lines_inside_plot 800 400
           (generatePredictionData (mkStats 0 0 0 0 0))).
  - discriminate.
  - discriminate.
  - vm_compute. lia.
  - rewrite ProjectionFacts.primary_sequence_eq.
    apply Forall_map, Forall_forall. intros year _.
    pose proof (PrimaryFacts.predictionAt_balanced year). lia.
  - apply Exists_cons_hd. vm_compute. reflexivity.
Defined.

End ChartFacts.

(** ** Facts about the bars of the distribution chart *)

Module DistributionFacts.

Import Distribution.
Local Open Scope list_scope.

Lemma getKey_In {V : Type} (o : list (string * V)) (k : string) (v : V) :
  NoDup (map fst o) -> In (k, v) o -> Catalog.getKey k o = Some v.
Proof.
  induction o as [|[k0 v0] o IH]; intros Hnd Hin; [destruct Hin|].
  cbn in Hnd. inversion Hnd as [|? ? Hnot Hnd']. subst.
  cbn [Catalog.getKey]. destruct Hin as [E | Hin].
  - injection E as -> ->. now rewrite String.eqb_refl.
  - destruct (String.eqb k0 k) eqn:Ek.
    + apply String.eqb_eq in Ek. subst k0. exfalso. apply Hnot.
      change k with (fst (k, v)). now apply in_map.
    + now apply IH.
Qed.

Lemma values_eq (stats : Forecast.DataStats) :
  NoDup (map fst stats) ->
  map (countOf stats) (map fst stats)
  = map (fun e => Forecast.count (snd e)) stats.
Proof.
  intros Hnd. rewrite map_map. apply map_ext_in. intros [k v] Hin.
  unfold countOf. cbn [fst snd]. now rewrite (getKey_In _ _ _ Hnd Hin).
Qed.

Lemma nth_error_indexed {A : Type} (l : list A) (a i : nat) :
  nth_error (combine (seq a (List.length l)) l) i
  = option_map (fun v => ((a + i)%nat, v)) (nth_error l i).
Proof.
  revert a i. induction l as [|v l IH]; intros a i.
  - now destruct i.
  - destruct i as [|i]; cbn [List.length seq combine nth_error option_map].
    + now rewrite Nat.add_0_r.
    + rewrite IH. now rewrite Nat.add_succ_r.
Qed.

Lemma Math_max_fold_in (values : list Z) (v0 : Z) :
  fold_left Z.max values v0 = v0 \/ In (fold_left Z.max values v0) values.
Proof.
  revert v0. induction values as [|w rest IH]; intros v0; cbn.
  - now left.
  - destruct (IH (Z.max v0 w)) as [E | Hin].
    + rewrite E. destruct (Z.max_spec v0 w) as [[_ ->] | [_ ->]]; auto.
    + now right; right.
Qed.

Lemma Math_max_in (values : list Z) :
  values <> [] -> In (Chart.Math_max values) values.
Proof.
  destruct values as [|v0 rest]; [congruence|]. intros _.
  cbn [Chart.Math_max].
  destruct (Math_max_fold_in rest v0) as [-> | Hin]; [now left | now right].
Qed.

Lemma inject_Z_nat_pos (n : nat) :
  (0 < n)%nat -> (0 < inject_Z (Z.of_nat n))%Q.
Proof.
  intros Hn. change 0%Q with (inject_Z 0). rewrite <- Zlt_Qlt. lia.
Qed.

Lemma inject_Z_nat_succ (n : nat) :
  (inject_Z (Z.of_nat (S n)) == inject_Z (Z.of_nat n) + 1)%Q.
Proof.
  rewrite Nat2Z.inj_succ. unfold Z.succ. now rewrite inject_Z_plus.
Qed.

Lemma inject_Z_nat_le (i n : nat) :
  (i < n)%nat -> (inject_Z (Z.of_nat i) + 1 <= inject_Z (Z.of_nat n))%Q.
Proof.
  intros Hi. rewrite <- inject_Z_nat_succ. rewrite <- Zle_Qle. lia.
Qed.

(** The bar at position [i], written out. *)
Lemma renderChart_nth (canvasWidth canvasHeight : Q)
      (stats : Forecast.DataStats) (i : nat) (bar : Bar) :
  NoDup (map fst stats) ->
  nth_error (renderChart canvasWidth canvasHeight stats) i = Some bar ->
  exists name group,
    nth_error stats i = Some (name, group)
    /\ label bar = name
    /\ value bar = Forecast.count group
    /\ color bar = nth (i mod 5) colors ""%string
    /\ barWidth bar
       = option_map
           (fun q => q * 0.7)%Q
           (Chart.div (canvasWidth - 2 * padding)
                      (inject_Z (Z.of_nat (List.length stats))))
    /\ barHeight bar
       = option_map
           (fun q => q * (canvasHeight - 2 * padding))%Q
           (Chart.div (inject_Z (Forecast.count group))
                      (inject_Z
                         (Chart.Math_max
                            (map (fun e => Forecast.count (snd e)) stats))))
    /\ x bar
       = option_map
           (fun q => padding + inject_Z (Z.of_nat i) * (q * 0.7 + q * 0.3))%Q
           (Chart.div (canvasWidth - 2 * padding)
                      (inject_Z (Z.of_nat (List.length stats))))
    /\ y bar
       = option_map (fun h => canvasHeight - padding - h)%Q (barHeight bar).
Proof.
  intros Hnd. unfold renderChart. cbv zeta.
  rewrite (values_eq stats Hnd), !length_map.
  rewrite nth_error_map.
  pose proof (nth_error_indexed (map fst stats) 0 i) as Hix.
  rewrite length_map in Hix. rewrite Hix. clear Hix.
  rewrite nth_error_map.
  destruct (nth_error stats i) as [[name group]|] eqn:Ei;
    [|discriminate].
  cbn [option_map fst Nat.add]. intros E. injection E as <-.
  exists name, group. cbn [label value color barWidth barHeight x y].
  assert (Hv : nth i (map (fun e => Forecast.count (snd e)) stats) 0%Z
               = Forecast.count group).
  { apply nth_error_nth.
    now rewrite nth_error_map, Ei. }
  rewrite Hv.
  repeat split; try reflexivity.
  now destruct (Chart.div (canvasWidth - 2 * padding)
                          (inject_Z (Z.of_nat (List.length stats)))).
Qed.

(** X23: for groups with different names and counts that are not negative,
    one of them positive, on a canvas at least 120 wide and 120 high: the
    chart paints one bar per group, in the order of the groups, with the
    group's name and count; every bar is a finite rectangle inside the plot
    area (the canvas less its padding of 60) that stands on the horizontal
    axis; a bar ends before the next one begins; a bar of a count that no
    group exceeds reaches the top of the plot area. *)
Theorem bars_fit_the_plot (canvasWidth canvasHeight : Q)
        (stats : Forecast.DataStats) :
  (120 <= canvasWidth)%Q -> (120 <= canvasHeight)%Q ->
  NoDup (map fst stats) ->
  Forall (fun e => 0 <= Forecast.count (snd e))%Z stats ->
  Exists (fun e => 0 < Forecast.count (snd e))%Z stats ->
  List.length (renderChart canvasWidth canvasHeight stats)
  = List.length stats
  /\ forall (i : nat) (bar : Bar),
      nth_error (renderChart canvasWidth canvasHeight stats) i = Some bar ->
      exists (group : Forecast.GroupStats) (bx byy bw bh : Q),
        nth_error stats i = Some (label bar, group)
        /\ value bar = Forecast.count group
        /\ x bar = Some bx /\ y bar = Some byy
        /\ barWidth bar = Some bw /\ barHeight bar = Some bh
        /\ (0 <= bw /\ 0 <= bh)%Q
        /\ (60 <= bx /\ bx + bw <= canvasWidth - 60)%Q
        /\ (60 <= byy /\ byy + bh == canvasHeight - 60)%Q
        /\ (forall next nx,
               nth_error (renderChart canvasWidth canvasHeight stats) (S i)
               = Some next ->
               x next = Some nx -> (bx + bw <= nx)%Q)
        /\ ((forall e, In e stats ->
                       (Forecast.count (snd e) <= value bar)%Z) ->
            (byy == 60)%Q).
Proof.
  intros HW HH Hnd Hcount Hpos. split.
  { unfold renderChart. cbv zeta.
    rewrite length_map, length_combine, length_seq, !length_map. lia. }
  intros i bar Hbar.
  destruct (renderChart_nth _ _ _ _ _ Hnd Hbar)
    as (name & group & Ei & El & Ev & _ & Ew & Eh & Ex & Ey).
  assert (Hi : (i < List.length stats)%nat)
    by (apply nth_error_Some; rewrite Ei; discriminate).
  set (values := map (fun e => Forecast.count (snd e)) stats) in *.
  assert (Hin : In (Forecast.count group) values).
  { apply nth_error_In in Ei.
    change (Forecast.count group)
      with ((fun e => Forecast.count (snd e)) (name, group)).
    now apply in_map. }
  assert (Hmax : (0 < Chart.Math_max values)%Z).
  { apply Exists_exists in Hpos. destruct Hpos as (e & He & Hlt).
    pose proof (ChartFacts.Math_max_ge
                  values _ (in_map (fun e => Forecast.count (snd e)) _ _ He)).
    lia. }
  assert (Hg : (0 <= Forecast.count group)%Z).
  { rewrite Forall_forall in Hcount.
    apply (Hcount (name, group)). eapply nth_error_In, Ei. }
  pose proof (ChartFacts.Math_max_ge values _ Hin) as Hle.
  destruct (ChartFacts.div_fraction (Forecast.count group)
                                    (Chart.Math_max values))
    as (q & Eq & Hq); [lia | exact Hmax |].
  set (n := inject_Z (Z.of_nat (List.length stats))) in *.
  assert (Hn : (0 < n)%Q) by (apply inject_Z_nat_pos; lia).
  assert (Hn0 : ~ (n == 0)%Q)
    by (intros E; rewrite E in Hn; discriminate Hn).
  assert (Ediv : Chart.div (canvasWidth - 2 * padding) n
                 = Some ((canvasWidth - 2 * padding) / n)%Q).
  { unfold Chart.div. destruct (Qeq_bool n 0) eqn:E; [|reflexivity].
    apply Qeq_bool_iff in E. contradiction. }
  set (u := ((canvasWidth - 2 * padding) / n)%Q) in *.
  assert (Hun : (u * n == canvasWidth - 2 * padding)%Q)
    by (unfold u; rewrite Qmult_comm; now apply Qmult_div_r).
  assert (Hu : (0 <= u)%Q).
  { unfold u. apply Qle_shift_div_l; [exact Hn|].
    rewrite Qmult_0_l. unfold padding. Lqa.lra. }
  rewrite Ediv in Ew, Ex. rewrite Eq in Eh. cbn [option_map] in Ew, Eh, Ex.
  rewrite Eh in Ey. cbn [option_map] in Ey.
  pose proof (ChartFacts.scaled_inside 0 (canvasHeight - 2 * padding) q)
    as Hh.
  unfold padding in *.
  destruct Hh as [Hh0 Hh1]; [Lqa.lra | exact Hq |].
  pose proof (inject_Z_nat_le i (List.length stats) Hi) as Hin1.
  fold n in Hin1.
  set (iq := inject_Z (Z.of_nat i)) in *.
  assert (Hiq : (0 <= iq)%Q)
    by (unfold iq; change 0%Q with (inject_Z 0); rewrite <- Zle_Qle; lia).
  assert (Hiu : (0 <= iq * u)%Q) by now apply Qmult_le_0_compat.
  assert (Hrest : (0 <= (n - (iq + 1)) * u)%Q)
    by (apply Qmult_le_0_compat; [Lqa.lra | exact Hu]).
  exists group, (60 + iq * (u * 0.7 + u * 0.3))%Q,
         (canvasHeight - 60 - q * (canvasHeight - 2 * 60))%Q,
         (u * 0.7)%Q, (q * (canvasHeight - 2 * 60))%Q.
  split; [now rewrite El|].
  split; [exact Ev|].
  split; [exact Ex|]. split; [exact Ey|].
  split; [exact Ew|]. split; [exact Eh|].
  split; [split; Lqa.lra|].
  split.
  { split; [Lqa.lra|].
    assert (E : (canvasWidth - 60
                 == 60 + iq * u + u + (n - (iq + 1)) * u)%Q).
    { transitivity (60 + u * n)%Q; [rewrite Hun; ring | ring]. }
    rewrite E. Lqa.lra. }
  split; [split; [Lqa.lra | ring]|].
  split.
  - intros next nx Hnext Enx.
    destruct (renderChart_nth _ _ _ _ _ Hnd Hnext)
      as (_ & _ & _ & _ & _ & _ & _ & _ & Ex' & _).
    unfold padding in Ex'. fold n in Ex'. rewrite Ediv in Ex'.
    cbn [option_map] in Ex'.
    pose proof (inject_Z_nat_succ i) as Hs. fold iq in Hs.
    set (sq := inject_Z (Z.of_nat (S i))) in *.
    rewrite Ex' in Enx. injection Enx as <-.
    assert (Hsu : (sq * u == iq * u + u)%Q) by (rewrite Hs; ring).
    assert (E : (60 + sq * (u * 0.7 + u * 0.3) == 60 + sq * u)%Q) by ring.
    rewrite E, Hsu. Lqa.lra.
  - intros Hall.
    assert (Emax : Chart.Math_max values = Forecast.count group).
    { assert (Hne : values <> []).
      { intros E. rewrite E in Hin. destruct Hin. }
      pose proof (Math_max_in values Hne) as Hm.
      apply in_map_iff in Hm. destruct Hm as (e & He & Hine).
      specialize (Hall e Hine). rewrite Ev in Hall. lia. }
    rewrite Emax in Eq. unfold Chart.div in Eq.
    destruct (Qeq_bool (inject_Z (Forecast.count group)) 0) eqn:E0;
      [discriminate Eq|].
    injection Eq as <-.
    assert (E1 : (inject_Z (Forecast.count group)
                  / inject_Z (Forecast.count group) == 1)%Q).
    { unfold Qdiv. apply Qmult_inv_r.
      intros E. apply Qeq_bool_iff in E. congruence. }
    rewrite E1. ring.
Qed.

Lemma bars_fit_the_plot_witness :
  let stats :=
    [("COSMOS 2251 Debris"%string, Forecast.mkGroupStats 3 0 0 []);
     ("Last 30 Days"%string, Forecast.mkGroupStats 5 0 0 [])] in
  List.length (renderChart 800 400 stats) = 2%nat
  /\ map (fun bar => option_map Qred (x bar)) (renderChart 800 400 stats)
     = [Some 60; Some 400]%Q
  /\ map (fun bar => option_map Qred (y bar)) (renderChart 800 400 stats)
     = [Some 172; Some 60]%Q.
Proof.
  cbv zeta.
  pose proof (bars_fit_the_plot
                800 400
                [("COSMOS 2251 Debris"%string,
                  Forecast.mkGroupStats 3 0 0 []);
                 ("Last 30 Days"%string, Forecast.mkGroupStats 5 0 0 [])])
    as H.
  destruct H as [Hlen _].
  - discriminate.
  - discriminate.
  - repeat constructor; cbn; intuition discriminate.
  - repeat constructor; cbn; lia.
  - apply Exists_cons_hd. cbn. lia.
  - split; [exact Hlen|]. split; vm_compute; reflexivity.
Defined.

End DistributionFacts.
